(** * kraken-go-api-client: request signing, envelope decoding, shape adapters

    A shallow embedding of the Go package [krakenapi] (files
    [krakenclient.go], [publicapi.go], [privateapi.go]) together with the
    properties its specification states about it.

    Go strings and byte slices are byte sequences ([string], [list byte]);
    [float64] is IEEE binary64 ([PrimFloat.float]); [int64] and [int] values
    are carried as [Z]; Go maps are [gmap]s; a JSON text is a [document],
    with the members of its objects in the order written; a Go [error] is a
    value of the inductive [error]; a pair of results [(v, err)] is a Rocq
    pair.  Calls
    into the Go standard library are the fields of the record [GoLib], the
    injected HTTP transport is the [client] of a [KrakenClient]; the code of
    the package is written over an arbitrary [GoLib] and transport. *)

From Stdlib Require Import ZArith String Ascii List Floats Lia.
From stdpp Require Import base option list gmap strings pretty sorting.

Set Warnings "-register-all,-inexact-float".

Local Open Scope Z_scope.

(** ** Go base types *)

Abbreviation bytes := (list Byte.byte).
Abbreviation float64 := PrimFloat.float.

(** [[]byte(s)] and [string(b)]. *)
Definition bytes_of_string (s : string) : bytes := list_byte_of_string s.
Definition string_of_bytes (b : bytes) : string := string_of_list_byte b.

(** [strconv.ErrSyntax] and [strconv.ErrRange]. *)
Inductive NumErrKind := ErrSyntax | ErrRange.

(** Go [error] values met in the package: [errors.New]/[fmt.Errorf] strings
    and [*strconv.NumError]. *)
Inductive error :=
| errorString (msg : string)
| NumError (Func Num : string) (Err : NumErrKind).

(** The ASCII double quote, used by [strconv.Quote] in error texts. *)
Definition dquote : string := String (ascii_of_nat 34) EmptyString.

Definition NumErrKind_text (k : NumErrKind) : string :=
  match k with
  | ErrSyntax => "invalid syntax"
  | ErrRange => "value out of range"
  end.

(** [err.Error()]. *)
Definition Error_text (e : error) : string :=
  match e with
  | errorString msg => msg
  | NumError f n k =>
      "strconv." +:+ f +:+ ": parsing " +:+ dquote +:+ n +:+ dquote +:+ ": "
        +:+ NumErrKind_text k
  end.

(** [s] occurs in [t] as a contiguous substring. *)
Definition contains (t s : string) : Prop :=
  ∃ pre post : string, t = pre +:+ s +:+ post.

(** ** net/url: [url.Values] *)

(** [url.Values] is [map[string][]string]. *)
Abbreviation Values := (gmap string (list string)).

(** [v.Get(key)]: the first value of the key, or the empty string. *)
Definition Values_Get (v : Values) (key : string) : string :=
  match v !! key with
  | Some (x :: _) => x
  | _ => ""
  end.

(** [v.Set(key, value)] replaces, [v.Add(key, value)] appends. *)
Definition Values_Set (v : Values) (key value : string) : Values :=
  <[key := [value]]> v.

Definition Values_Add (v : Values) (key value : string) : Values :=
  <[key := default [] (v !! key) ++ [value]]> v.

Definition upperhex (n : N) : ascii :=
  match n with
  | 0 => "0" | 1 => "1" | 2 => "2" | 3 => "3" | 4 => "4" | 5 => "5"
  | 6 => "6" | 7 => "7" | 8 => "8" | 9 => "9" | 10 => "A" | 11 => "B"
  | 12 => "C" | 13 => "D" | 14 => "E" | _ => "F"
  end%N%char.

Definition is_alnum (c : ascii) : bool :=
  let n := N_of_ascii c in
  ((97 <=? n) && (n <=? 122) || (65 <=? n) && (n <=? 90)
   || (48 <=? n) && (n <=? 57))%N.

(** [shouldEscape(c, encodeQueryComponent)]: letters, digits and the marks
    [- _ . ~] pass; reserved characters and everything else are escaped. *)
Definition shouldEscape (c : ascii) : bool :=
  if is_alnum c then false
  else match c with
       | "-" | "_" | "." | "~" => false
       | _ => true
       end%char.

(** [url.QueryEscape]: a space becomes [+], an escaped byte becomes [%XX]. *)
Fixpoint QueryEscape (s : string) : string :=
  match s with
  | EmptyString => EmptyString
  | String c rest =>
      if Ascii.eqb c " " then String "+" (QueryEscape rest)
      else if shouldEscape c then
        String "%" (String (upperhex (N.shiftr (N_of_ascii c) 4))
                      (String (upperhex (N.land (N_of_ascii c) 15))
                         (QueryEscape rest)))
      else String c (QueryEscape rest)
  end.

(** The sorted key list built by [Encode] ([slices.Sort(keys)]). *)
Definition sorted_keys (v : Values) : list string :=
  merge_sort String.le (map fst (map_to_list v)).

(** One pass of the inner loop of [Encode]: writes [&] when the buffer is
    not empty, then [key=value], both escaped. *)
Definition Encode_write (keyEscaped : string) (buf value : string) : string :=
  (if String.eqb buf "" then "" else buf +:+ "&")
    +:+ keyEscaped +:+ "=" +:+ QueryEscape value.

(** [v.Encode()]: the URL-encoded form, sorted by key. *)
Definition Values_Encode (v : Values) : string :=
  foldl (fun buf k =>
           foldl (Encode_write (QueryEscape k)) buf (default [] (v !! k)))
        "" (sorted_keys v).

(** ** encoding/json: values decoded into [interface{}] *)

(** What [json.Unmarshal] stores in an [interface{}]: [nil], [bool],
    [float64], [string], [[]interface{}] and [map[string]interface{}]. *)
Inductive json :=
| JNull
| JBool (b : bool)
| JNumber (f : float64)
| JString (s : string)
| JArray (l : list json)
| JObject (m : gmap string json).

(** The JSON kind of a value. *)
Definition json_kind (j : json) : string :=
  match j with
  | JNull => "null"
  | JBool _ => "bool"
  | JNumber _ => "number"
  | JString _ => "string"
  | JArray _ => "array"
  | JObject _ => "object"
  end.

(** ** encoding/json: documents *)

(** A JSON document as it is written: the members of an object in the
    order of the text, a repeated key as often as it is written. *)
Inductive document :=
| DNull
| DBool (b : bool)
| DNumber (f : float64)
| DString (s : string)
| DArray (l : list document)
| DObject (members : list (string * document)).

(** The JSON kind named in an [UnmarshalTypeError]. *)
Definition document_kind (d : document) : string :=
  match d with
  | DNull => "null"
  | DBool _ => "bool"
  | DNumber _ => "number"
  | DString _ => "string"
  | DArray _ => "array"
  | DObject _ => "object"
  end.

(** A document decoded into an [interface{}]: the members of an object
    are stored into the map one after the other, so that of a repeated key
    the last value stays. *)
Fixpoint interface_of (d : document) : json :=
  match d with
  | DNull => JNull
  | DBool b => JBool b
  | DNumber f => JNumber f
  | DString s => JString s
  | DArray l => JArray (List.map interface_of l)
  | DObject members =>
      JObject
        ((fix store (members : list (string * document))
            (m : gmap string json) : gmap string json :=
            match members with
            | [] => m
            | (k, v) :: rest => store rest (<[k := interface_of v]> m)
            end) members ∅)
  end.

(** Upper case of an ASCII letter. *)
Definition upper (c : ascii) : ascii :=
  let n := N_of_ascii c in
  if ((97 <=? n) && (n <=? 122))%N then ascii_of_N (n - 32) else c.

(** [equalFold name key]: the key of a member names the struct field
    whose JSON name is the ASCII string [name].  [encoding/json] matches the
    key of a member with the name of a field exactly or, failing that,
    under Unicode simple case folding: letters match whatever their case, an
    [s] is also matched by U+017F (bytes C5 BF) and a [k] by U+212A (bytes
    E2 84 AA). *)
Fixpoint equalFold (name key : string) : bool :=
  match name, key with
  | EmptyString, EmptyString => true
  | String c name', String d key' =>
      if (N_of_ascii d <? 128)%N
      then Ascii.eqb (upper c) (upper d) && equalFold name' key'
      else
        match key' with
        | String d1 key1 =>
            if Ascii.eqb (upper c) "S" && (N_of_ascii d =? 197)%N
               && (N_of_ascii d1 =? 191)%N
            then equalFold name' key1
            else
              match key1 with
              | String d2 key2 =>
                  Ascii.eqb (upper c) "K" && (N_of_ascii d =? 226)%N
                  && (N_of_ascii d1 =? 132)%N && (N_of_ascii d2 =? 170)%N
                  && equalFold name' key2
              | EmptyString => false
              end
        | EmptyString => false
        end
  | _, _ => false
  end.

(** ** Control: panics, and the world a call runs in *)

(** A Go computation either returns or panics (a failed type assertion,
    an index out of range). *)
Inductive outcome (A : Type) :=
| Returned (a : A)
| Panicked (msg : string).
Arguments Returned {A} a.
Arguments Panicked {A} msg.

Definition bindO {A B} (x : outcome A) (k : A → outcome B) : outcome B :=
  match x with
  | Returned a => k a
  | Panicked msg => Panicked msg
  end.

Notation "x <~ e ;; k" := (bindO e (fun x => k))
  (at level 100, e at next level, right associativity).

(** An HTTP request as [doRequest] hands it to the transport. *)
Record Request := {
  req_Method : string;
  req_URL : string;
  req_Body : string;
  req_Header : Values;
}.

(** What the transport gives back: the response headers, and the result of
    [ioutil.ReadAll(resp.Body)] (the body, or a read error text). *)
Record Response := {
  resp_Header : Values;
  resp_Body : bytes + string;
}.

(** [*http.Client]: the injected transport, a client that is not [nil] and
    whose round trip returns.  [Do] answers a request, given the requests
    already sent, with a response or a transport error text. *)
Definition HttpClient := list Request → Request → Response + string.

(** The part of the world the package touches: the requests handed to the
    transport so far, and the reading of the wall clock that
    [time.Now().UnixNano()] gives in this world. *)
Record World := {
  sent : list Request;
  now : Z;
}.

(** Stateful computations: explicit world passing, with panics. *)
Definition M (A : Type) : Type := World → outcome A * World.

Definition ret {A} (a : A) : M A := fun w => (Returned a, w).

Definition bind {A B} (m : M A) (k : A → M B) : M B :=
  fun w =>
    match m w with
    | (Returned a, w') => k a w'
    | (Panicked msg, w') => (Panicked msg, w')
    end.

Notation "x <- e ;; k" := (bind e (fun x => k))
  (at level 100, e at next level, right associativity).

Definition liftO {A} (x : outcome A) : M A := fun w => (x, w).

(** [client.Do(req)]: the request goes out and is recorded as sent. *)
Definition Do (client : HttpClient) (req : Request) : M (Response + string) :=
  fun w => (Returned (client (sent w) req),
            {| sent := sent w ++ [req]; now := now w |}).

(** [time.Now().UnixNano()]. *)
Definition UnixNano : M Z := fun w => (Returned (now w), w).

(** ** The Go standard library, as far as the package calls it *)

Record GoLib := {
  (** [sha256.New(); Write; Sum(nil)] *)
  sha256_Sum : bytes → bytes;
  (** [hmac.New(sha512.New, key); Write(message); Sum(nil)] *)
  hmac_sha512_Sum : bytes → bytes → bytes;
  (** [base64.StdEncoding.EncodeToString] *)
  base64_EncodeToString : bytes → string;
  (** [base64.StdEncoding.DecodeString]: the decoded bytes and the error *)
  base64_DecodeString : string → bytes * option string;
  (** [strconv.ParseFloat(s, 64)]: the value and the kind of [*NumError] *)
  strconv_ParseFloat : string → float64 * option NumErrKind;
  (** [strconv.ParseInt(s, 10, 64)] *)
  strconv_ParseInt : string → Z * option NumErrKind;
  (** [mime.ParseMediaType]: the media type and the error *)
  mime_ParseMediaType : string → string * option string;
  (** the syntax phase of [json.Unmarshal]: the document, or the error *)
  json_parse : bytes → document + string;
  (** [fmt.Sprintf(format)], a format without operands *)
  fmt_Sprintf : string → string;
  (** the error of [http.NewRequest(method, url, body)] *)
  http_NewRequest_error : string → string → option string;
}.

(** The [*strconv.NumError] of a failed [ParseFloat] / [ParseInt]. *)
Definition ParseFloat_error (s : string) (k : NumErrKind) : error :=
  NumError "ParseFloat" s k.
Definition ParseInt_error (s : string) (k : NumErrKind) : error :=
  NumError "ParseInt" s k.

(** [int64(f)] for a [float64]: truncation toward zero; outside the range
    of [int64] (and for NaN and infinities) the amd64 result, the least
    [int64]. *)
Definition int64_min : Z := - 2 ^ 63.
Definition int64_max : Z := 2 ^ 63 - 1.

Definition int64_of_float64 (f : float64) : Z :=
  match Prim2SF f with
  | S754_zero _ => 0
  | S754_finite s m e =>
      let a := if (0 <=? e) then Z.pos m * 2 ^ e else Z.pos m / 2 ^ (- e) in
      let v := if s then - a else a in
      if (int64_min <=? v) && (v <=? int64_max) then v else int64_min
  | _ => int64_min
  end.

(** ** Types of the package *)

(** An [interface{}] as [doRequest] returns it: a value decoded into
    [interface{}] ([Generic JNull] is [nil]), or the pointer that the caller
    passed as [typ]. *)
Inductive iface :=
| Generic (j : json)
| Pointer.

Definition nil_iface : iface := Generic JNull.

(** Modelled from the spec: the constants [BUY], [SELL], [MARKET] and
    [LIMIT] are declared in a file that is not under src/; the trade sides
    are "b"/"s" and the order kinds "m"/"l". *)
Definition BUY : string := "b".
Definition SELL : string := "s".
Definition MARKET : string := "m".
Definition LIMIT : string := "l".

(** Modelled from the spec: the response envelope [KrakenResponse], with an
    error sequence and an opaque result. *)
Record KrakenResponse := {
  Error : list string;
  Result : iface;
}.

(** [TradeInfo], declared outside src/: the fields are those [Trades]
    fills in. *)
Record TradeInfo := {
  Price : string;
  PriceFloat : float64;
  Volume : string;
  VolumeFloat : float64;
  Time : Z;
  Buy : bool;
  Sell : bool;
  Market : bool;
  Limit : bool;
  Miscellaneous : string;
}.

(** [TradesResponse], with the two fields [Trades] fills in. *)
Record TradesResponse := {
  TradesResponse_Last : Z;
  TradesResponse_Trades : list TradeInfo;
}.

(** Modelled from the spec: one order book level, price / volume /
    timestamp (the type [OrderBookItem] is not under src/). *)
Record OrderBookItem := {
  level_Price : float64;
  level_Volume : float64;
  level_Timestamp : Z;
}.

(** [OrderBook]: the two sides, as the tests read them. *)
Record OrderBook := {
  Asks : list OrderBookItem;
  Bids : list OrderBookItem;
}.

(** Modelled from the spec: a candle of eight positional fields (the type
    built by [NewOHLC] is not under src/). *)
Record Candle := {
  candle_Time : Z;
  candle_Open : float64;
  candle_High : float64;
  candle_Low : float64;
  candle_Close : float64;
  candle_Vwap : float64;
  candle_Volume : float64;
  candle_Count : Z;
}.

(** [OHLCResponse], with the three fields [OHLC] fills in. *)
Record OHLCResponse := {
  OHLCResponse_Pair : string;
  OHLCResponse_OHLC : list Candle;
  OHLCResponse_Last : Z;
}.

(** [Balances] is indexed by asset code and holds [float64] values. *)
Abbreviation Balances := (gmap string float64).

(** The values a caller passes behind the [typ] pointer:
    [&map[string]string{}] and [&dr] with [dr : DepthResponse]. *)
Inductive target :=
| StringMap (m : gmap string string)
| DepthResponse (m : gmap string OrderBook).

(** What [doRequest] leaves its caller with: the returned [interface{}],
    the returned [error], and the value behind [typ] after the call. *)
Abbreviation reply := (iface * option error * option target)%type.

Record KrakenClient := {
  client : HttpClient;
}.

Record KrakenPublic := {
  public_KrakenClient : KrakenClient;
}.

Record KrakenPrivate := {
  key : string;
  secret : string;
  private_KrakenClient : KrakenClient;
}.

Definition APIUserAgent : string := "Kraken-Go Agent".
Definition APIURL : string := "https://api.kraken.com".
Definition APIVersion : string := "0".

(** ** encoding/json: decoding a document into the package's types *)

(** The text of an [*UnmarshalTypeError]: the JSON kind met, the struct
    field being decoded when there is one, and the Go type expected. *)
Definition UnmarshalTypeError (value : string) (field : option string)
  (type : string) : string :=
  "json: cannot unmarshal " +:+ value +:+ " into Go "
    +:+ match field with
        | None => "value"
        | Some f => "struct field " +:+ f
        end
    +:+ " of type " +:+ type.

(** Decoding every element of a slice, stopping at the first error. *)
Fixpoint list_traverse {A B} (f : A → B + string) (l : list A)
  : list B + string :=
  match l with
  | [] => inl []
  | a :: rest =>
      match f a with
      | inr e => inr e
      | inl b =>
          match list_traverse f rest with
          | inr e => inr e
          | inl bs => inl (b :: bs)
          end
      end
  end.

(** Decoding the members of an object one after the other, in the order
    of the document, each into what the members before it left; an error of
    any member fails the whole decode, with the text of the first. *)
Fixpoint decode_members {S} (member : S → string → document → S + string)
  (members : list (string * document)) (s : S) : S + string :=
  match members with
  | [] => inl s
  | (k, v) :: rest =>
      match member s k v with
      | inr e => inr e
      | inl s' => decode_members member rest s'
      end
  end.

(** A JSON value into a Go [string]: [null] leaves the zero value. *)
Definition unmarshal_string (field : option string) (d : document)
  : string + string :=
  match d with
  | DString s => inl s
  | DNull => inl ""
  | _ => inr (UnmarshalTypeError (document_kind d) field "string")
  end.

(** Into [[]string]: [null] makes the slice [nil], an array replaces what
    the slice held. *)
Definition unmarshal_strings (field : option string) (d : document)
  : list string + string :=
  match d with
  | DNull => inl []
  | DArray l => list_traverse (unmarshal_string field) l
  | _ => inr (UnmarshalTypeError (document_kind d) field "[]string")
  end.

(** Into [map[string]string]: the members are stored into the map that is
    there, one after the other; [null] makes the map [nil]. *)
Definition unmarshal_StringMap (field : option string) (d : document)
  (cur : gmap string string) : gmap string string + string :=
  match d with
  | DNull => inl ∅
  | DObject members =>
      decode_members
        (fun m k v =>
           match unmarshal_string field v with
           | inl s => inl (<[k := s]> m)
           | inr e => inr e
           end)
        members cur
  | _ => inr (UnmarshalTypeError (document_kind d) field "map[string]string")
  end.

(** Modelled from the spec: [OrderBookItem.UnmarshalJSON] is not under
    src/.  A level is the array [[priceStr, volumeStr, timestamp]]; price and
    volume are parsed as floats, and a level that cannot be read is a decode
    error. *)
Definition unmarshal_OrderBookItem (L : GoLib) (d : document)
  : OrderBookItem + string :=
  match d with
  | DArray [DString p; DString v; DNumber ts] =>
      match strconv_ParseFloat L p, strconv_ParseFloat L v with
      | (price, None), (volume, None) =>
          inl {| level_Price := price; level_Volume := volume;
                 level_Timestamp := int64_of_float64 ts |}
      | (_, Some k), _ => inr (Error_text (ParseFloat_error p k))
      | _, (_, Some k) => inr (Error_text (ParseFloat_error v k))
      end
  | _ => inr (UnmarshalTypeError (document_kind d) None "krakenapi.OrderBookItem")
  end.

(** One side of the book, a [[]OrderBookItem]: the levels in document
    order; [null] makes the slice [nil]. *)
Definition unmarshal_side (L : GoLib) (field : string) (d : document)
  : list OrderBookItem + string :=
  match d with
  | DNull => inl []
  | DArray l => list_traverse (unmarshal_OrderBookItem L) l
  | _ =>
      inr (UnmarshalTypeError (document_kind d) (Some ("OrderBook." +:+ field))
             "[]krakenapi.OrderBookItem")
  end.

(** One member of an object decoded into an [OrderBook]: a key that names
    the field [Asks] or [Bids] replaces that side, any other member is
    skipped. *)
Definition OrderBook_member (L : GoLib) (book : OrderBook) (k : string)
  (v : document) : OrderBook + string :=
  if equalFold "asks" k then
    match unmarshal_side L "asks" v with
    | inl asks => inl {| Asks := asks; Bids := Bids book |}
    | inr e => inr e
    end
  else if equalFold "bids" k then
    match unmarshal_side L "bids" v with
    | inl bids => inl {| Asks := Asks book; Bids := bids |}
    | inr e => inr e
    end
  else inl book.

(** Into a fresh [OrderBook]; [null] leaves it empty. *)
Definition unmarshal_OrderBook (L : GoLib) (d : document) : OrderBook + string :=
  match d with
  | DNull => inl {| Asks := []; Bids := [] |}
  | DObject members =>
      decode_members (OrderBook_member L) members {| Asks := []; Bids := [] |}
  | _ =>
      inr (UnmarshalTypeError (document_kind d) (Some "KrakenResponse.result")
             "krakenapi.OrderBook")
  end.

(** Into [DepthResponse], a map from pair name to [OrderBook]: every
    member is decoded into a fresh [OrderBook] and stored into the map that
    is there. *)
Definition unmarshal_DepthResponse (L : GoLib) (d : document)
  (cur : gmap string OrderBook) : gmap string OrderBook + string :=
  match d with
  | DNull => inl ∅
  | DObject members =>
      decode_members
        (fun m k v =>
           match unmarshal_OrderBook L v with
           | inl book => inl (<[k := book]> m)
           | inr e => inr e
           end)
        members cur
  | _ =>
      inr (UnmarshalTypeError (document_kind d) (Some "KrakenResponse.result")
             "krakenapi.DepthResponse")
  end.

Definition unmarshal_target (L : GoLib) (d : document) (t : target)
  : target + string :=
  match t with
  | StringMap cur =>
      match unmarshal_StringMap (Some "KrakenResponse.result") d cur with
      | inl m => inl (StringMap m)
      | inr e => inr e
      end
  | DepthResponse cur =>
      match unmarshal_DepthResponse L d cur with
      | inl m => inl (DepthResponse m)
      | inr e => inr e
      end
  end.

(** A member into the [Result] field, which holds [cur].  While the field
    holds the pointer [typ], [null] makes the field [nil] and leaves the
    value behind the pointer alone, and any other value is decoded behind
    the pointer.  A field that holds no pointer receives the value as
    decoded into [interface{}]. *)
Definition unmarshal_Result (L : GoLib) (v : document) (cur : iface)
  (typ : option target) : (iface * option target) + string :=
  match cur, typ, v with
  | Pointer, Some _, DNull => inl (nil_iface, typ)
  | Pointer, Some t, _ =>
      match unmarshal_target L v t with
      | inl t' => inl (Pointer, Some t')
      | inr e => inr e
      end
  | _, _, _ => inl (Generic (interface_of v), typ)
  end.

(** One member of the envelope: a key that names the field [Error] or
    [Result] (JSON names [error] and [result]) is decoded into that field,
    any other member is skipped. *)
Definition KrakenResponse_member (L : GoLib)
  (s : KrakenResponse * option target) (k : string) (v : document)
  : (KrakenResponse * option target) + string :=
  if equalFold "error" k then
    match unmarshal_strings (Some "KrakenResponse.error") v with
    | inl errs => inl ({| Error := errs; Result := Result s.1 |}, s.2)
    | inr e => inr e
    end
  else if equalFold "result" k then
    match unmarshal_Result L v (Result s.1) s.2 with
    | inl (res, typ') => inl ({| Error := Error s.1; Result := res |}, typ')
    | inr e => inr e
    end
  else inl s.

(** [json.Unmarshal(body, &jsonData)] after the syntax phase, with
    [jsonData.Result] preset to [typ] when [typ != nil].  Returns the
    envelope and the value behind [typ]. *)
Definition Unmarshal_KrakenResponse (L : GoLib) (doc : document)
  (typ : option target) : (KrakenResponse * option target) + string :=
  let preset := match typ with None => nil_iface | Some _ => Pointer end in
  let jsonData := {| Error := []; Result := preset |} in
  match doc with
  | DNull => inl (jsonData, typ)
  | DObject members =>
      decode_members (KrakenResponse_member L) members (jsonData, typ)
  | _ =>
      inr (UnmarshalTypeError (document_kind doc) None
             "krakenapi.KrakenResponse")
  end.

(** [json.Unmarshal(body, &jsonData)]: syntax phase, then decoding. *)
Definition json_Unmarshal (L : GoLib) (body : bytes) (typ : option target)
  : (KrakenResponse * option target) + string :=
  match json_parse L body with
  | inr e => inr e
  | inl doc => Unmarshal_KrakenResponse L doc typ
  end.

(** ** krakenclient.go *)

(** [fmt]'s [%s] verb applied to a [[]string]: the elements separated by
    spaces, in square brackets. *)
Definition fmt_strings (l : list string) : string :=
  "[" +:+ String.concat " " l +:+ "]".

(** The header of the request: [User-Agent], then every entry of
    [headers] (keys as written). *)
Definition request_header (headers : gmap string string) : Values :=
  map_fold (fun k v h => Values_Add h k v)
    (Values_Add ∅ "User-Agent" APIUserAgent) headers.

(** The request [doRequest] creates: a POST of the encoded values, with
    the user agent and the given headers. *)
Definition new_request (reqURL : string) (values : Values)
  (headers : gmap string string) : Request :=
  {| req_Method := "POST"; req_URL := reqURL;
     req_Body := Values_Encode values;
     req_Header := request_header headers |}.

(** [doRequest] executes a HTTP request to the Kraken API and returns the
    result.  The third component is the value behind [typ] after the call;
    when [json.Unmarshal] fails it is reported as it was before the call (no
    caller reads it after an error). *)
Definition doRequest (L : GoLib) (api : KrakenClient) (reqURL : string)
  (values : Values) (headers : gmap string string) (typ : option target)
  : M reply :=
  match http_NewRequest_error L "POST" reqURL with
  | Some err =>
      ret (nil_iface,
           Some (errorString ("Could not execute request! #1 (" +:+ err +:+ ")")),
           typ)
  | None =>
      let req := new_request reqURL values headers in
      r <- Do (client api) req ;;
      match r with
      | inr err =>
          ret (nil_iface,
               Some (errorString
                       ("Could not execute request! #2 (" +:+ err +:+ ")")),
               typ)
      | inl resp =>
          match resp_Body resp with
          | inr err =>
              ret (nil_iface,
                   Some (errorString
                           ("Could not execute request! #3 (" +:+ err +:+ ")")),
                   typ)
          | inl body =>
              match mime_ParseMediaType L
                      (Values_Get (resp_Header resp) "Content-Type") with
              | (_, Some err) =>
                  ret (nil_iface,
                       Some (errorString
                               ("Could not execute request #4! (" +:+ err
                                  +:+ ")")),
                       typ)
              | (mimeType, None) =>
                  if negb (String.eqb mimeType "application/json") then
                    ret (nil_iface,
                         Some (errorString
                                 ("Could not execute request #5! ("
                                    +:+ ("Response Content-Type is '"
                                           +:+ mimeType
                                           +:+ "', but should be 'application/json'.")
                                    +:+ ")")),
                         typ)
                  else
                    match json_Unmarshal L body typ with
                    | inr err =>
                        ret (nil_iface,
                             Some (errorString
                                     ("Could not execute request! #6 (" +:+ err
                                        +:+ ")")),
                             typ)
                    | inl (jsonData, typ') =>
                        if (0 <? length (Error jsonData))%nat then
                          ret (nil_iface,
                               Some (errorString
                                       ("Could not execute request! #7 ("
                                          +:+ fmt_strings (Error jsonData)
                                          +:+ ")")),
                               typ')
                        else ret (Result jsonData, None, typ')
                    end
              end
          end
      end
  end.

(** ** publicapi.go *)

(** [x.(map[string]interface{})], [x.([]interface{})], [x.(string)] and
    [x.(float64)]: the value, or a panic. *)
Definition assert_map (j : json) : outcome (gmap string json) :=
  match j with
  | JObject m => Returned m
  | _ => Panicked "interface conversion: interface {} is not map[string]interface {}"
  end.

Definition assert_slice (j : json) : outcome (list json) :=
  match j with
  | JArray l => Returned l
  | _ => Panicked "interface conversion: interface {} is not []interface {}"
  end.

Definition assert_string (j : json) : outcome string :=
  match j with
  | JString s => Returned s
  | _ => Panicked "interface conversion: interface {} is not string"
  end.

Definition assert_float64 (j : json) : outcome float64 :=
  match j with
  | JNumber f => Returned f
  | _ => Panicked "interface conversion: interface {} is not float64"
  end.

(** [resp.(map[string]interface{})] on the [interface{}] that [doRequest]
    returned: the [typ] pointer is no such map. *)
Definition assert_map_iface (resp : iface) : outcome (gmap string json) :=
  match resp with
  | Generic j => assert_map j
  | Pointer => Panicked "interface conversion: interface {} is not map[string]interface {}"
  end.

(** [m[key]] on a [map[string]interface{}]: [nil] for a missing key. *)
Definition map_index (m : gmap string json) (key : string) : json :=
  default JNull (m !! key).

(** [s[i]] on a slice: the element, or an index-out-of-range panic. *)
Definition slice_index (s : list json) (i : nat) : outcome json :=
  match s !! i with
  | Some x => Returned x
  | None => Panicked "index out of range"
  end.

(** [queryPublic] executes a public method query. *)
Definition queryPublic (L : GoLib) (api : KrakenPublic) (method : string)
  (values : Values) (typ : option target) : M reply :=
  let apiUrl := APIURL +:+ "/" +:+ APIVersion +:+ "/public/" +:+ method in
  doRequest L (public_KrakenClient api) apiUrl values ∅ typ.

(** Modelled from the spec: the readers of the fields of a candle, part
    of [NewOHLC], which is not under src/.  Time and count are JSON numbers;
    the other fields are strings that must parse as floats. *)
Definition candle_number (j : json) : Z + error :=
  match j with
  | JNumber f => inl (int64_of_float64 f)
  | _ => inr (errorString ("not a number: " +:+ json_kind j))
  end.

Definition candle_float (L : GoLib) (j : json) : float64 + error :=
  match j with
  | JString s =>
      match strconv_ParseFloat L s with
      | (f, None) => inl f
      | (_, Some k) => inr (ParseFloat_error s k)
      end
  | _ => inr (errorString ("not a string: " +:+ json_kind j))
  end.

Definition bindE {A B} (x : A + error) (k : A → B + error) : B + error :=
  match x with
  | inl a => k a
  | inr e => inr e
  end.

Notation "x <! e ;; k" := (bindE e (fun x => k))
  (at level 100, e at next level, right associativity).

(** Modelled from the spec: [NewOHLC] is not under src/.  A candle is an
    array of eight positional fields (time, open, high, low, close, vwap,
    volume, trade count), each string-encoded numeric except time (numeric)
    and count (integer); a wrong length or a non-numeric field is a decode
    error. *)
Definition NewOHLC (L : GoLib) (input : list json) : Candle + error :=
  match input with
  | [t; o; h; l; c; vw; vol; cnt] =>
      t' <! candle_number t ;;
      o' <! candle_float L o ;;
      h' <! candle_float L h ;;
      l' <! candle_float L l ;;
      c' <! candle_float L c ;;
      vw' <! candle_float L vw ;;
      vol' <! candle_float L vol ;;
      cnt' <! candle_number cnt ;;
      inl {| candle_Time := t'; candle_Open := o'; candle_High := h';
             candle_Low := l'; candle_Close := c'; candle_Vwap := vw';
             candle_Volume := vol'; candle_Count := cnt' |}
  | _ =>
      inr (errorString ("the length is not 8 but " +:+ pretty (length input)))
  end.

(** The supported values of the [interval] parameter. *)
Definition OHLC_intervals : list string :=
  ["1"; "5"; "15"; "30"; "60"; "240"; "1440"; "10080"; "21600"].

(** The loop of [OHLC] over the unstructured candles: the first candle
    that [NewOHLC] rejects ends the call with its error. *)
Fixpoint OHLC_loop (L : GoLib) (OHLCsUnstructured : list json)
  (acc : list Candle) : outcome (list Candle + error) :=
  match OHLCsUnstructured with
  | [] => Returned (inl acc)
  | OHLCInterfaceSlice :: rest =>
      input <~ assert_slice OHLCInterfaceSlice ;;
      match NewOHLC L input with
      | inr OHLCErr => Returned (inr OHLCErr)
      | inl OHLCObj => OHLC_loop L rest (acc ++ [OHLCObj])
      end
  end.

(** [fmt.Errorf(format)], a format without operands. *)
Definition fmt_Errorf (L : GoLib) (format : string) : error :=
  errorString (fmt_Sprintf L format).

(** The parameters [OHLC] sends, or the format string it hands to
    [fmt.Errorf] for an unsupported interval: the part of [OHLC] before the
    query. *)
Definition OHLC_urlValue (pair interval : string) (since : Z)
  : Values + string :=
  let urlValue := Values_Add ∅ "pair" pair in
  let urlValue :=
    if 0 <? since then Values_Add urlValue "since" (pretty since)
    else urlValue in
  if String.eqb interval "" then inl (Values_Add urlValue "interval" "1")
  else if bool_decide (interval ∈ OHLC_intervals)
       then inl (Values_Add urlValue "interval" interval)
       else inr ("Unsupported value for Interval: " +:+ interval).

(** [OHLC] returns a [OHLCResponse] based on the given pair. *)
Definition OHLC (L : GoLib) (api : KrakenPublic) (pair interval : string)
  (since : Z) : M (option OHLCResponse * option error) :=
  match OHLC_urlValue pair interval since with
  | inr format => ret (None, Some (fmt_Errorf L format))
  | inl urlValue =>
      r <- queryPublic L api "OHLC" urlValue None ;;
      match r with
      | (_, Some err, _) => ret (None, Some err)
      | (interfaceResponse, None, _) =>
          liftO (
            mapResponse <~ assert_map_iface interfaceResponse ;;
            OHLCsUnstructured <~ assert_slice (map_index mapResponse pair) ;;
            looped <~ OHLC_loop L OHLCsUnstructured [] ;;
            match looped with
            | inr OHLCErr => Returned (None, Some OHLCErr)
            | inl candles =>
                last <~ assert_float64 (map_index mapResponse "last") ;;
                Returned (Some {| OHLCResponse_Pair := pair;
                                  OHLCResponse_OHLC := candles;
                                  OHLCResponse_Last := int64_of_float64 last |},
                          None)
            end)
      end
  end.

(** [OHLCMinutes]: backward compatible with the previous version. *)
Definition OHLCMinutes (L : GoLib) (api : KrakenPublic) (pair : string)
  : M (option OHLCResponse * option error) :=
  OHLC L api pair "1" 0.

(** The body of the loop of [Trades]: one positional array into a
    [TradeInfo].  Parse errors of price and volume are dropped. *)
Definition Trades_tradeInfo (L : GoLib) (v : json) : outcome TradeInfo :=
  trade <~ assert_slice v ;;
  t0 <~ slice_index trade 0 ;;
  priceString <~ assert_string t0 ;;
  let price := fst (strconv_ParseFloat L priceString) in
  t1 <~ slice_index trade 1 ;;
  volumeString <~ assert_string t1 ;;
  let volume := fst (strconv_ParseFloat L volumeString) in
  t2 <~ slice_index trade 2 ;;
  time <~ assert_float64 t2 ;;
  t3 <~ slice_index trade 3 ;;
  side <~ assert_string t3 ;;
  t4 <~ slice_index trade 4 ;;
  kind <~ assert_string t4 ;;
  t5 <~ slice_index trade 5 ;;
  misc <~ assert_string t5 ;;
  Returned {| Price := priceString; PriceFloat := price;
              Volume := volumeString; VolumeFloat := volume;
              Time := int64_of_float64 time;
              Buy := String.eqb side BUY; Sell := String.eqb side SELL;
              Market := String.eqb kind MARKET; Limit := String.eqb kind LIMIT;
              Miscellaneous := misc |}.

Fixpoint Trades_loop (L : GoLib) (trades : list json) (acc : list TradeInfo)
  : outcome (list TradeInfo) :=
  match trades with
  | [] => Returned acc
  | v :: rest =>
      tradeInfo <~ Trades_tradeInfo L v ;;
      Trades_loop L rest (acc ++ [tradeInfo])
  end.

(** The parameters [Trades] sends: the part of [Trades] before the
    query. *)
Definition Trades_values (pair : string) (since : Z) : Values :=
  let values : Values := {[ "pair" := [pair] ]} in
  if 0 <? since then Values_Set values "since" (pretty since) else values.

(** [Trades] returns the recent trades for given pair. *)
Definition Trades (L : GoLib) (api : KrakenPublic) (pair : string) (since : Z)
  : M (option TradesResponse * option error) :=
  let values := Trades_values pair since in
  r <- queryPublic L api "Trades" values None ;;
  match r with
  | (_, Some err, _) => ret (None, Some err)
  | (resp, None, _) =>
      liftO (
        v <~ assert_map_iface resp ;;
        lastString <~ assert_string (map_index v "last") ;;
        match strconv_ParseInt L lastString with
        | (_, Some k) => Returned (None, Some (ParseInt_error lastString k))
        | (last, None) =>
            trades <~ assert_slice (map_index v pair) ;;
            infos <~ Trades_loop L trades [] ;;
            Returned (Some {| TradesResponse_Last := last;
                              TradesResponse_Trades := infos |}, None)
        end)
  end.

(** The [DepthResponse] behind the pointer [&dr]. *)
Definition deref_DepthResponse (t : option target) : gmap string OrderBook :=
  match t with
  | Some (DepthResponse dr) => dr
  | _ => ∅
  end.

(** The parameters [Depth] sends. *)
Definition Depth_values (pair : string) (count : Z) : Values :=
  <["count" := [pretty count]]> {[ "pair" := [pair] ]}.

(** [Depth] returns the order book for given pair and orders count. *)
Definition Depth (L : GoLib) (api : KrakenPublic) (pair : string) (count : Z)
  : M (option OrderBook * option error) :=
  let dr := DepthResponse ∅ in
  r <- queryPublic L api "Depth" (Depth_values pair count) (Some dr) ;;
  match r with
  | (_, Some err, _) => ret (None, Some err)
  | (_, None, dr) =>
      match deref_DepthResponse dr !! pair with
      | Some book => ret (Some book, None)
      | None => ret (None, Some (errorString "invalid response"))
      end
  end.

(** ** privateapi.go *)

(** [getSha256] creates a sha256 hash for given [[]byte]. *)
Definition getSha256 (L : GoLib) (input : bytes) : bytes :=
  sha256_Sum L input.

(** [getHMacSha512] creates a hmac hash with sha512. *)
Definition getHMacSha512 (L : GoLib) (message secret : bytes) : bytes :=
  hmac_sha512_Sum L secret message.

Definition createSignature (L : GoLib) (urlPath : string) (values : Values)
  (secret : bytes) : string :=
  let shaSum :=
    getSha256 L (bytes_of_string (Values_Get values "nonce" +:+ Values_Encode values)) in
  let macSum := getHMacSha512 L (bytes_of_string urlPath ++ shaSum) secret in
  base64_EncodeToString L macSum.

(** [queryPrivate] executes a private method query.  The error of
    [DecodeString] is dropped; [values] receives the nonce before it is
    signed and sent. *)
Definition queryPrivate (L : GoLib) (api : KrakenPrivate) (method : string)
  (values : Values) (typ : option target) : M reply :=
  let urlPath := "/" +:+ APIVersion +:+ "/private/" +:+ method in
  let reqURL := APIURL +:+ urlPath in
  let secret := fst (base64_DecodeString L (secret api)) in
  nano <- UnixNano ;;
  let values := Values_Set values "nonce" (pretty nano) in
  let signature := createSignature L urlPath values secret in
  let headers : gmap string string :=
    <["API-Sign" := signature]> {[ "API-Key" := key api ]} in
  doRequest L (private_KrakenClient api) reqURL values headers typ.

(** Dereferencing [resp], asserted to be a pointer to [map[string]string]:
    the map behind the pointer, or a panic
    when [resp] is [nil] or holds another type. *)
Definition assert_StringMap (resp : iface) (t : option target)
  : outcome (gmap string string) :=
  match resp, t with
  | Pointer, Some (StringMap m) => Returned m
  | _, _ => Panicked "interface conversion: interface {} is not *map[string]string"
  end.

(** The loop of [Balance]: every value is parsed, and the first value that
    does not parse ends the call with its error. *)
Fixpoint Balance_loop (L : GoLib) (entries : list (string * string))
  (balances : Balances) : option Balances * option error :=
  match entries with
  | [] => (Some balances, None)
  | (key, value) :: rest =>
      let '(f, err) := strconv_ParseFloat L value in
      let balances := <[key := f]> balances in
      match err with
      | Some k => (None, Some (ParseFloat_error value k))
      | None => Balance_loop L rest balances
      end
  end.

(** [Balance] returns all account asset balances. *)
Definition Balance (L : GoLib) (api : KrakenPrivate)
  : M (option Balances * option error) :=
  r <- queryPrivate L api "Balance" ∅ (Some (StringMap ∅)) ;;
  match r with
  | (_, Some err, _) => ret (None, Some err)
  | (resp, None, t) =>
      liftO (
        m <~ assert_StringMap resp t ;;
        Returned (Balance_loop L (map_to_list m) ∅))
  end.

(** ** The signer, as the specification words it *)

(** [sign(path, encodedParams, nonce, secret)]:
    digest1 = SHA-256(nonce || encodedParams),
    digest2 = HMAC-SHA-512(key = secret, message = path_bytes || digest1),
    and the result is base64_encode(digest2). *)
Definition sign_spec (L : GoLib) (path encodedParams nonce : string)
  (secret : bytes) : string :=
  let digest1 := sha256_Sum L (bytes_of_string nonce ++ bytes_of_string encodedParams) in
  let digest2 := hmac_sha512_Sum L secret (bytes_of_string path ++ digest1) in
  base64_EncodeToString L digest2.

(** ** Notions used to state the properties *)

(** The library with another JSON syntax phase, and with another base64
    decoder. *)
Definition with_json_parse (L : GoLib) (p : bytes → document + string)
  : GoLib :=
  {| sha256_Sum := sha256_Sum L; hmac_sha512_Sum := hmac_sha512_Sum L;
     base64_EncodeToString := base64_EncodeToString L;
     base64_DecodeString := base64_DecodeString L;
     strconv_ParseFloat := strconv_ParseFloat L;
     strconv_ParseInt := strconv_ParseInt L;
     mime_ParseMediaType := mime_ParseMediaType L;
     json_parse := p;
     fmt_Sprintf := fmt_Sprintf L;
     http_NewRequest_error := http_NewRequest_error L |}.

Definition with_DecodeString (L : GoLib) (d : string → bytes * option string)
  : GoLib :=
  {| sha256_Sum := sha256_Sum L; hmac_sha512_Sum := hmac_sha512_Sum L;
     base64_EncodeToString := base64_EncodeToString L;
     base64_DecodeString := d;
     strconv_ParseFloat := strconv_ParseFloat L;
     strconv_ParseInt := strconv_ParseInt L;
     mime_ParseMediaType := mime_ParseMediaType L;
     json_parse := json_parse L;
     fmt_Sprintf := fmt_Sprintf L;
     http_NewRequest_error := http_NewRequest_error L |}.

(** What [doRequest] makes of the transport's answer: the part of
    [doRequest] behind [client.Do]. *)
Definition doRequest_reply (L : GoLib) (typ : option target)
  (r : Response + string) : reply :=
  match r with
  | inr err =>
      (nil_iface,
       Some (errorString ("Could not execute request! #2 (" +:+ err +:+ ")")),
       typ)
  | inl resp =>
      match resp_Body resp with
      | inr err =>
          (nil_iface,
           Some (errorString ("Could not execute request! #3 (" +:+ err +:+ ")")),
           typ)
      | inl body =>
          match mime_ParseMediaType L
                  (Values_Get (resp_Header resp) "Content-Type") with
          | (_, Some err) =>
              (nil_iface,
               Some (errorString
                       ("Could not execute request #4! (" +:+ err +:+ ")")),
               typ)
          | (mimeType, None) =>
              if negb (String.eqb mimeType "application/json") then
                (nil_iface,
                 Some (errorString
                         ("Could not execute request #5! ("
                            +:+ ("Response Content-Type is '" +:+ mimeType
                                   +:+ "', but should be 'application/json'.")
                            +:+ ")")),
                 typ)
              else
                match json_Unmarshal L body typ with
                | inr err =>
                    (nil_iface,
                     Some (errorString
                             ("Could not execute request! #6 (" +:+ err +:+ ")")),
                     typ)
                | inl (jsonData, typ') =>
                    if (0 <? length (Error jsonData))%nat then
                      (nil_iface,
                       Some (errorString
                               ("Could not execute request! #7 ("
                                  +:+ fmt_strings (Error jsonData) +:+ ")")),
                       typ')
                    else (Result jsonData, None, typ')
                end
          end
      end
  end.

(** The world after one more request. *)
Definition sending (w : World) (req : Request) : World :=
  {| sent := sent w ++ [req]; now := now w |}.

(** The media type of a response is the JSON one. *)
Definition is_json_response (L : GoLib) (resp : Response) : Prop :=
  mime_ParseMediaType L (Values_Get (resp_Header resp) "Content-Type")
  = ("application/json", None).

(** The URLs of a public and of a private method. *)
Definition public_url (method : string) : string :=
  APIURL +:+ "/" +:+ APIVersion +:+ "/public/" +:+ method.
Definition private_path (method : string) : string :=
  "/" +:+ APIVersion +:+ "/private/" +:+ method.

(** The value the server sent for the field [name] of an object: that of
    the last member whose key names the field ([cur] when there is none). *)
Fixpoint field_sent (name : string) (members : list (string * document))
  (cur : option document) : option document :=
  match members with
  | [] => cur
  | (k, v) :: rest =>
      field_sent name rest (if equalFold name k then Some v else cur)
  end.

(** The levels a member holds for a side: those of an array, none for
    [null]. *)
Definition levels_of (field : option document) : list document :=
  match field with
  | Some (DArray l) => l
  | _ => []
  end.

(** The levels of one side as the server sent them in the JSON of a book. *)
Definition levels_sent (side : string) (book : document) : list document :=
  match book with
  | DObject members => levels_of (field_sent side members None)
  | _ => []
  end.

(** A positional field of a candle is numeric: a number at positions 0
    and 7, a string that parses as a float at positions 1 to 6. *)
Definition candle_field_numeric (L : GoLib) (i : nat) (x : json) : bool :=
  match x with
  | JNumber _ => bool_decide (i = 0%nat ∨ i = 7%nat)
  | JString s =>
      bool_decide (1 ≤ i ≤ 6)%nat
      && match strconv_ParseFloat L s with (_, None) => true | _ => false end
  | _ => false
  end.

(** The six positional fields of a trade: price, volume, time, side,
    order kind and miscellaneous. *)
Record trade_fields := {
  f_price : string;
  f_volume : string;
  f_time : float64;
  f_side : string;
  f_kind : string;
  f_misc : string;
}.

(** The trade array [[price, volume, time, side, kind, misc]]. *)
Definition trade_array (r : trade_fields) : json :=
  JArray [JString (f_price r); JString (f_volume r); JNumber (f_time r);
          JString (f_side r); JString (f_kind r); JString (f_misc r)].

(** The [TradeInfo] with the strings of a trade as sent and its floats
    as [ParseFloat] returns them beside its error. *)
Definition TradeInfo_of (L : GoLib) (r : trade_fields) : TradeInfo :=
  {| Price := f_price r;
     PriceFloat := fst (strconv_ParseFloat L (f_price r));
     Volume := f_volume r;
     VolumeFloat := fst (strconv_ParseFloat L (f_volume r));
     Time := int64_of_float64 (f_time r);
     Buy := String.eqb (f_side r) "b"; Sell := String.eqb (f_side r) "s";
     Market := String.eqb (f_kind r) "m"; Limit := String.eqb (f_kind r) "l";
     Miscellaneous := f_misc r |}.

(** The request of a private method, for the decoded secret [secret]
    and the nonce [nano]. *)
Definition private_request (L : GoLib) (api : KrakenPrivate) (method : string)
  (values : Values) (secret : bytes) (nano : Z) : Request :=
  let values := Values_Set values "nonce" (pretty nano) in
  new_request (APIURL +:+ private_path method) values
    (<["API-Sign" := createSignature L (private_path method) values secret]>
       {[ "API-Key" := key api ]}).

(** * A reference instance of the library

    Executable models of the library functions, used to run the package on
    concrete inputs.  The properties of the package below are stated for an
    arbitrary [GoLib]; only their instances at concrete inputs use [Ref]. *)

Module Ref.

(** ** strconv *)

Definition digit_val (c : ascii) : option Z :=
  let n := Z.of_N (N_of_ascii c) in
  if (48 <=? n) && (n <=? 57) then Some (n - 48) else None.

(** [lower(c)]: [c | ('x' - 'X')]. *)
Definition lower (c : ascii) : ascii :=
  ascii_of_N (N.lor (N_of_ascii c) 32).

Fixpoint lower_string (s : string) : string :=
  match s with
  | EmptyString => EmptyString
  | String c rest => String (lower c) (lower_string rest)
  end.

(** The value of a hexadecimal letter. *)
Definition hex_letter_val (c : ascii) : option Z :=
  let n := Z.of_N (N_of_ascii (lower c)) in
  if (97 <=? n) && (n <=? 102) then Some (n - 87) else None.

(** The scan state of [readFloat]: whether a dot and digits were seen, the
    number of digits after leading zeros, the position of the point, and
    the digits read as an integer. *)
Record floatScan := {
  sawdot : bool;
  sawdigits : bool;
  nd : Z;
  dp : Z;
  mantissa : Z;
}.

(** The digit loop of [readFloat], decimal or hexadecimal: returns the
    state and the unread rest.  Underscores are skipped here and checked by
    [underscoreOK]. *)
Fixpoint readFloat_digits (hex : bool) (s : string) (st : floatScan)
  : floatScan * string :=
  match s with
  | EmptyString => (st, s)
  | String c rest =>
      let digit (d : Z) :=
        readFloat_digits hex rest
          {| sawdot := sawdot st; sawdigits := true; nd := nd st + 1;
             dp := dp st;
             mantissa := mantissa st * (if hex then 16 else 10) + d |} in
      if Ascii.eqb c "_" then readFloat_digits hex rest st
      else if Ascii.eqb c "." then
        if sawdot st then (st, s)
        else readFloat_digits hex rest
               {| sawdot := true; sawdigits := sawdigits st; nd := nd st;
                  dp := nd st; mantissa := mantissa st |}
      else
        match digit_val c with
        | Some d =>
            if (d =? 0) && (nd st =? 0) then
              readFloat_digits hex rest
                {| sawdot := sawdot st; sawdigits := true; nd := nd st;
                   dp := dp st - 1; mantissa := mantissa st |}
            else digit d
        | None =>
            match hex_letter_val c with
            | Some d => if hex then digit d else (st, s)
            | None => (st, s)
            end
        end
  end.

(** The exponent digits: [e] stops growing once it has reached 10000. *)
Fixpoint readFloat_exp (s : string) (e : Z) : Z * string :=
  match s with
  | EmptyString => (e, s)
  | String c rest =>
      if Ascii.eqb c "_" then readFloat_exp rest e
      else
        match digit_val c with
        | Some d => readFloat_exp rest (if e <? 10000 then e * 10 + d else e)
        | None => (e, s)
        end
  end.

Definition strip_sign (s : string) : bool * string :=
  match s with
  | String "+" rest => (false, rest)
  | String "-" rest => (true, rest)
  | _ => (false, s)
  end.

(** [underscoreOK]: an underscore stands only between digits, or between
    a base prefix and a digit. *)
Fixpoint underscoreOK_digits (hex : bool) (s : string) (saw : ascii) : bool :=
  match s with
  | EmptyString => negb (Ascii.eqb saw "_")
  | String c rest =>
      if match digit_val c with
         | Some _ => true
         | None =>
             hex && match hex_letter_val c with Some _ => true | None => false end
         end
      then underscoreOK_digits hex rest "0"
      else if Ascii.eqb c "_" then
        if Ascii.eqb saw "0" then underscoreOK_digits hex rest "_" else false
      else if Ascii.eqb saw "_" then false
      else underscoreOK_digits hex rest "!"
  end.

Definition underscoreOK (s : string) : bool :=
  let s := snd (strip_sign s) in
  match s with
  | String "0" (String c rest) =>
      if Ascii.eqb (lower c) "b" || Ascii.eqb (lower c) "o"
         || Ascii.eqb (lower c) "x"
      then underscoreOK_digits (Ascii.eqb (lower c) "x") rest "0"
      else underscoreOK_digits false s "^"
  | _ => underscoreOK_digits false s "^"
  end.

Fixpoint has_underscore (s : string) : bool :=
  match s with
  | EmptyString => false
  | String c rest => Ascii.eqb c "_" || has_underscore rest
  end.

(** [readFloat] on a literal that must span the whole string: the sign,
    whether the literal is hexadecimal, the digits as an integer and the
    power of ten (of two for a hexadecimal literal, whose exponent is
    mandatory). *)
Definition readFloat (s : string) : option (bool * bool * Z * Z) :=
  let '(neg, s1) := strip_sign s in
  let '(hex, s1) :=
    match s1 with
    | String "0" (String x (String c rest)) =>
        if Ascii.eqb (lower x) "x" then (true, String c rest) else (false, s1)
    | _ => (false, s1)
    end in
  let '(st, s2) :=
    readFloat_digits hex s1 {| sawdot := false; sawdigits := false; nd := 0;
                               dp := 0; mantissa := 0 |} in
  if negb (sawdigits st) then None
  else if has_underscore s && negb (underscoreOK s) then None
  else
    let dp0 := if sawdot st then dp st else nd st in
    let scale := if hex then 4 else 1 in
    match s2 with
    | EmptyString =>
        if hex then None
        else Some (neg, hex, mantissa st, dp0 - nd st)
    | String c s3 =>
        if Ascii.eqb (lower c) (if hex then "p" else "e") then
          let '(eneg, s4) := strip_sign s3 in
          match s4 with
          | String d _ =>
              match digit_val d with
              | None => None
              | Some _ =>
                  let '(e, s5) := readFloat_exp s4 0 in
                  match s5 with
                  | EmptyString =>
                      Some (neg, hex, mantissa st,
                            scale * dp0 + (if eneg then - e else e)
                            - scale * nd st)
                  | _ => None
                  end
              end
          | EmptyString => None
          end
        else None
    end.

(** The binary64 nearest to [m * 10 ^ e] (ties to even), for [0 < m]. *)
Definition round_decimal (neg : bool) (m e : Z) : spec_float :=
  if 0 <=? e then
    binary_normalize prec emax ((if neg then - m else m) * 10 ^ e) 0 neg
  else
    let '(q, e2, loc) := SFdiv_core_binary prec emax m 0 (10 ^ (- e)) 0 in
    binary_round_aux prec emax neg q e2 loc.

(** The binary64 nearest to [m * 2 ^ e] (ties to even), for [0 < m]. *)
Definition round_binary (neg : bool) (m e : Z) : spec_float :=
  binary_normalize prec emax (if neg then - m else m) e neg.

(** [special]: the spellings of infinity and NaN, case ignored. *)
Definition special (s : string) : option float64 :=
  let '(neg, body) := strip_sign s in
  let l := lower_string body in
  if String.eqb l "inf" || String.eqb l "infinity" then
    Some (if neg then neg_infinity else infinity)
  else if String.eqb (lower_string s) "nan" then Some nan
  else None.

(** [strconv.ParseFloat(s, 64)] on decimal and hexadecimal literals,
    infinities and NaN: the nearest binary64; an overflow gives an infinity
    with [ErrRange]; any other string gives zero with [ErrSyntax]. *)
Definition ParseFloat (s : string) : float64 * option NumErrKind :=
  match special s with
  | Some f => (f, None)
  | None =>
      match readFloat s with
      | None => (0%float, Some ErrSyntax)
      | Some (neg, hex, m, e) =>
          if m =? 0 then ((if neg then neg_zero else zero), None)
          else
            match (if hex then round_binary else round_decimal) neg m e with
            | S754_infinity sg =>
                ((if sg then neg_infinity else infinity), Some ErrRange)
            | sf => (SF2Prim sf, None)
            end
      end
  end.

Definition uint64_max : Z := 2 ^ 64 - 1.

(** The digit loop of [ParseUint(s, 10, 64)]. *)
Fixpoint ParseUint_loop (s : string) (n : Z) : Z * option NumErrKind :=
  match s with
  | EmptyString => (n, None)
  | String c rest =>
      match digit_val c with
      | None => (0, Some ErrSyntax)
      | Some d =>
          if uint64_max / 10 + 1 <=? n then (uint64_max, Some ErrRange)
          else
            let n1 := n * 10 + d in
            if uint64_max <? n1 then (uint64_max, Some ErrRange)
            else ParseUint_loop rest n1
      end
  end.

(** [strconv.ParseInt(s, 10, 64)]. *)
Definition ParseInt (s : string) : Z * option NumErrKind :=
  match s with
  | EmptyString => (0, Some ErrSyntax)
  | _ =>
      let '(neg, s1) := strip_sign s in
      match s1 with
      | EmptyString => (0, Some ErrSyntax)
      | _ =>
          match ParseUint_loop s1 0 with
          | (_, Some ErrSyntax) => (0, Some ErrSyntax)
          | (un, _) =>
              if negb neg && (2 ^ 63 <=? un) then (int64_max, Some ErrRange)
              else if neg && (2 ^ 63 <? un) then (int64_min, Some ErrRange)
              else (if neg then - un else un, None)
          end
      end
  end.

(** ** encoding/base64, the standard encoding with padding *)

Definition byte_val (b : Byte.byte) : Z := Z.of_N (Byte.to_N b).
Definition val_byte (n : Z) : Byte.byte :=
  default Byte.x00 (Byte.of_N (Z.to_N (n mod 256))).

Definition encodeStd : string :=
  "ABCDEFGHIJKLMNOPQRSTUVWXYZabcdefghijklmnopqrstuvwxyz0123456789+/".

Definition b64_char (n : Z) : ascii :=
  default "A"%char (String.get (Z.to_nat n) encodeStd).

(** The decode map of the standard alphabet. *)
Definition decodeMap (c : ascii) : option Z :=
  let n := Z.of_N (N_of_ascii c) in
  if (65 <=? n) && (n <=? 90) then Some (n - 65)
  else if (97 <=? n) && (n <=? 122) then Some (n - 97 + 26)
  else if (48 <=? n) && (n <=? 57) then Some (n - 48 + 52)
  else if n =? 43 then Some 62
  else if n =? 47 then Some 63
  else None.

Fixpoint b64_encode (src : list Z) : string :=
  match src with
  | [] => ""
  | [x] =>
      String (b64_char (Z.shiftr x 2))
        (String (b64_char (Z.shiftl (Z.land x 3) 4)) "==")
  | [x; y] =>
      String (b64_char (Z.shiftr x 2))
        (String (b64_char (Z.lor (Z.shiftl (Z.land x 3) 4) (Z.shiftr y 4)))
           (String (b64_char (Z.shiftl (Z.land y 15) 2)) "="))
  | x :: y :: z :: rest =>
      String (b64_char (Z.shiftr x 2))
        (String (b64_char (Z.lor (Z.shiftl (Z.land x 3) 4) (Z.shiftr y 4)))
           (String (b64_char (Z.lor (Z.shiftl (Z.land y 15) 2) (Z.shiftr z 6)))
              (String (b64_char (Z.land z 63)) (b64_encode rest))))
  end.

Definition EncodeToString (src : bytes) : string :=
  b64_encode (map byte_val src).

Definition CorruptInputError (offset : Z) : string :=
  "illegal base64 data at input byte " +:+ pretty offset.

Definition is_newline (c : ascii) : bool :=
  Ascii.eqb c "010" || Ascii.eqb c "013".

Fixpoint skip_newlines (s : string) (si : Z) : string * Z :=
  match s with
  | String c rest => if is_newline c then skip_newlines rest (si + 1) else (s, si)
  | EmptyString => (s, si)
  end.

(** The bytes of a quantum of [dlen] sextets gathered in [val]. *)
Definition quantum_bytes (dlen : nat) (val : Z) : bytes :=
  take (dlen - 1)%nat
    [val_byte (Z.shiftr val 16); val_byte (Z.shiftr val 8); val_byte val].

(** After a padding character at sextet [j]: the rest of [decodeQuantum].
    [si] is the offset just behind that character, [len] the input length. *)
Definition decode_padding (j : nat) (val : Z) (rest : string) (si len : Z)
  (out : bytes) : bytes * option string :=
  match j with
  | 0%nat | 1%nat => (out, Some (CorruptInputError (si - 1)))
  | 2%nat =>
      let '(r1, si1) := skip_newlines rest si in
      match r1 with
      | EmptyString => (out, Some (CorruptInputError len))
      | String c r2 =>
          if Ascii.eqb c "=" then
            let '(r3, si3) := skip_newlines r2 (si1 + 1) in
            (out ++ quantum_bytes 2 (Z.shiftl val 12),
             match r3 with
             | EmptyString => None
             | _ => Some (CorruptInputError si3)
             end)
          else (out, Some (CorruptInputError (si1 - 1)))
      end
  | _ =>
      let '(r1, si1) := skip_newlines rest si in
      (out ++ quantum_bytes 3 (Z.shiftl val 6),
       match r1 with
       | EmptyString => None
       | _ => Some (CorruptInputError si1)
       end)
  end.

(** [Decode]: quanta of four sextets, line breaks skipped; at the first
    corrupt byte the bytes decoded so far are returned with the error. *)
Fixpoint b64_decode (src : string) (si len : Z) (j : nat) (val : Z)
  (out : bytes) : bytes * option string :=
  match src with
  | EmptyString =>
      match j with
      | 0%nat => (out, None)
      | _ => (out, Some (CorruptInputError (si - Z.of_nat j)))
      end
  | String c rest =>
      match decodeMap c with
      | Some v =>
          let val := val * 64 + v in
          match j with
          | 3%nat => b64_decode rest (si + 1) len 0 0 (out ++ quantum_bytes 4 val)
          | _ => b64_decode rest (si + 1) len (S j) val out
          end
      | None =>
          if is_newline c then b64_decode rest (si + 1) len j val out
          else if Ascii.eqb c "=" then decode_padding j val rest (si + 1) len out
          else (out, Some (CorruptInputError si))
      end
  end.

Definition DecodeString (s : string) : bytes * option string :=
  b64_decode s 0 (Z.of_nat (String.length s)) 0 0 [].

(** ** crypto/sha256, crypto/sha512, crypto/hmac *)

(** The first eighty primes. *)
Definition primes : list Z :=
  [2; 3; 5; 7; 11; 13; 17; 19; 23; 29; 31; 37; 41; 43; 47; 53; 59; 61; 67; 71;
   73; 79; 83; 89; 97; 101; 103; 107; 109; 113; 127; 131; 137; 139; 149; 151;
   157; 163; 167; 173; 179; 181; 191; 193; 197; 199; 211; 223; 227; 229; 233;
   239; 241; 251; 257; 263; 269; 271; 277; 281; 283; 293; 307; 311; 313; 317;
   331; 337; 347; 349; 353; 359; 367; 373; 379; 383; 389; 397; 401; 409].

(** The integer cube root, bit by bit from bit [n] down. *)
Fixpoint cbrt_bits (n : nat) (x r : Z) : Z :=
  let r' := r + 2 ^ Z.of_nat n in
  let r := if r' * r' * r' <=? x then r' else r in
  match n with
  | O => r
  | S n' => cbrt_bits n' x r
  end.

(** The first [w] bits of the fractional parts of the cube and square
    roots of a prime. *)
Definition frac_cbrt (w p : Z) : Z := cbrt_bits 70 (p * 2 ^ (3 * w)) 0 mod 2 ^ w.
Definition frac_sqrt (w p : Z) : Z := Z.sqrt (p * 2 ^ (2 * w)) mod 2 ^ w.

(** The parameters of a SHA-2 function: the word size, the number of
    rounds, and the rotation and shift amounts. *)
Record sha2_params := {
  wsize : Z;
  nrounds : nat;
  bigsigma0 : Z * Z * Z;
  bigsigma1 : Z * Z * Z;
  smallsigma0 : Z * Z * Z;
  smallsigma1 : Z * Z * Z;
}.

Definition sha256_params : sha2_params :=
  {| wsize := 32; nrounds := 64;
     bigsigma0 := (2, 13, 22); bigsigma1 := (6, 11, 25);
     smallsigma0 := (7, 18, 3); smallsigma1 := (17, 19, 10) |}.

Definition sha512_params : sha2_params :=
  {| wsize := 64; nrounds := 80;
     bigsigma0 := (28, 34, 39); bigsigma1 := (14, 18, 41);
     smallsigma0 := (1, 8, 7); smallsigma1 := (19, 61, 6) |}.

Definition round_constants (P : sha2_params) : list Z :=
  map (frac_cbrt (wsize P)) (take (nrounds P) primes).

Definition initial_hash (P : sha2_params) : list Z :=
  map (frac_sqrt (wsize P)) (take 8 primes).

Definition K256 : list Z := Eval vm_compute in round_constants sha256_params.
Definition K512 : list Z := Eval vm_compute in round_constants sha512_params.
Definition H256 : list Z := Eval vm_compute in initial_hash sha256_params.
Definition H512 : list Z := Eval vm_compute in initial_hash sha512_params.

Section sha2.
Variable P : sha2_params.
Variable K : list Z.

Definition wrap (x : Z) : Z := x mod 2 ^ wsize P.
Definition rotr (n x : Z) : Z :=
  Z.lor (Z.shiftr x n) (wrap (Z.shiftl x (wsize P - n))).
Definition big_sigma (r : Z * Z * Z) (x : Z) : Z :=
  let '(a, b, c) := r in Z.lxor (Z.lxor (rotr a x) (rotr b x)) (rotr c x).
Definition small_sigma (r : Z * Z * Z) (x : Z) : Z :=
  let '(a, b, c) := r in Z.lxor (Z.lxor (rotr a x) (rotr b x)) (Z.shiftr x c).
Definition Ch (e f g : Z) : Z :=
  Z.lxor (Z.land e f) (Z.land (Z.lxor e (2 ^ wsize P - 1)) g).
Definition Maj (a b c : Z) : Z :=
  Z.lxor (Z.lxor (Z.land a b) (Z.land a c)) (Z.land b c).

Definition word_at (l : list Z) (i : nat) : Z := default 0 (l !! i).

(** The rounds of the compression function.  [win] holds the sixteen
    schedule words from the current one on; [st] is [a .. h]. *)
Fixpoint rounds (ks : list Z) (win st : list Z) : list Z :=
  match ks with
  | [] => st
  | k :: ks' =>
      let a := word_at st 0 in let b := word_at st 1 in
      let c := word_at st 2 in let d := word_at st 3 in
      let e := word_at st 4 in let f := word_at st 5 in
      let g := word_at st 6 in let h := word_at st 7 in
      let t1 := h + big_sigma (bigsigma1 P) e + Ch e f g + k + word_at win 0 in
      let t2 := big_sigma (bigsigma0 P) a + Maj a b c in
      let next :=
        wrap (small_sigma (smallsigma1 P) (word_at win 14) + word_at win 9
              + small_sigma (smallsigma0 P) (word_at win 1) + word_at win 0) in
      rounds ks' (drop 1 win ++ [next])
        [wrap (t1 + t2); a; b; c; wrap (d + t1); e; f; g]
  end.

Definition be_word (bs : list Z) : Z :=
  fold_left (fun acc b => acc * 256 + b) bs 0.

Fixpoint be_bytes (n : nat) (x : Z) : list Z :=
  match n with
  | O => []
  | S n' => be_bytes n' (x / 256) ++ [x mod 256]
  end.

Fixpoint chunks {A} (fuel n : nat) (l : list A) : list (list A) :=
  match fuel, l with
  | S fuel', _ :: _ => take n l :: chunks fuel' n (drop n l)
  | _, _ => []
  end.

Definition word_bytes : nat := Z.to_nat (wsize P / 8).
Definition block_bytes : nat := (16 * word_bytes)%nat.

(** One block: the schedule words, the rounds, and the feed-forward. *)
Definition compress (st block : list Z) : list Z :=
  let win := map be_word (chunks 16 word_bytes block) in
  zip_with (fun x y => wrap (x + y)) st (rounds K win st).

(** Padding: the bit [1], zeros, and the bit length in two words. *)
Definition pad (msg : list Z) : list Z :=
  let len := length msg in
  let used := ((len + 1 + 2 * word_bytes) mod block_bytes)%nat in
  let zeros := ((block_bytes - used) mod block_bytes)%nat in
  msg ++ [128] ++ repeat 0 zeros
      ++ be_bytes (2 * word_bytes) (8 * Z.of_nat len).

Definition sha2 (iv : list Z) (msg : list Z) : list Z :=
  let padded := pad msg in
  let st := fold_left compress (chunks (length padded) block_bytes padded) iv in
  concat (map (be_bytes word_bytes) st).

End sha2.

Definition sha256 (msg : list Z) : list Z := sha2 sha256_params K256 H256 msg.
Definition sha512 (msg : list Z) : list Z := sha2 sha512_params K512 H512 msg.

(** HMAC with SHA-512 (block size 128). *)
Definition hmac_sha512 (key msg : list Z) : list Z :=
  let key := if (128 <? length key)%nat then sha512 key else key in
  let key := key ++ repeat 0 (128 - length key)%nat in
  let ipad := map (Z.lxor 54) key in
  let opad := map (Z.lxor 92) key in
  sha512 (opad ++ sha512 (ipad ++ msg)).

Definition Sum256 (input : bytes) : bytes :=
  map val_byte (sha256 (map byte_val input)).

Definition Sum_hmac_sha512 (key message : bytes) : bytes :=
  map val_byte (hmac_sha512 (map byte_val key) (map byte_val message)).

(** ** mime *)

Definition is_space (c : ascii) : bool :=
  let n := N_of_ascii c in ((n =? 32) || (9 <=? n) && (n <=? 13))%N.

Definition to_lower (c : ascii) : ascii :=
  let n := N_of_ascii c in
  if ((65 <=? n) && (n <=? 90))%N then ascii_of_N (n + 32) else c.

Fixpoint ToLower (s : string) : string :=
  match s with
  | EmptyString => EmptyString
  | String c rest => String (to_lower c) (ToLower rest)
  end.

Fixpoint TrimLeft (s : string) : string :=
  match s with
  | String c rest => if is_space c then TrimLeft rest else s
  | EmptyString => s
  end.

Definition TrimSpace (s : string) : string :=
  String.rev (TrimLeft (String.rev (TrimLeft s))).

(** The characters of a token: visible ASCII except the tspecials. *)
Definition isTokenChar (c : ascii) : bool :=
  let n := N_of_ascii c in
  ((32 <? n) && (n <? 127))%N
  && negb (bool_decide (c ∈ String.list_ascii_of_string ("()<>@,;:\/[]?=" +:+ dquote))).

Fixpoint consumeToken (s : string) : string * string :=
  match s with
  | String c rest =>
      if isTokenChar c then
        let '(tok, r) := consumeToken rest in (String c tok, r)
      else (EmptyString, s)
  | EmptyString => (EmptyString, s)
  end.

Definition checkMediaTypeDisposition (s : string) : option string :=
  let '(typ, rest) := consumeToken s in
  if String.eqb typ "" then Some "mime: no media type"
  else
    match rest with
    | EmptyString => None
    | String "/" rest1 =>
        let '(subtype, rest2) := consumeToken rest1 in
        if String.eqb subtype "" then Some "mime: expected token after slash"
        else if String.eqb rest2 "" then None
        else Some "mime: unexpected content after media subtype"
    | _ => Some "mime: expected slash after first token"
    end.

(** The text before the first semicolon, and the rest from it on. *)
Fixpoint cut_semicolon (s : string) : string * string :=
  match s with
  | String c rest =>
      if Ascii.eqb c ";" then (EmptyString, s)
      else let '(b, r) := cut_semicolon rest in (String c b, r)
  | EmptyString => (EmptyString, s)
  end.

(** A quoted parameter value, read up to its closing quote. *)
Fixpoint consumeQuoted (s : string) : option string :=
  match s with
  | EmptyString => None
  | String c rest =>
      if String.eqb (String c "") dquote then Some rest
      else if is_newline c then None
      else consumeQuoted rest
  end.

(** [consumeMediaParam]: the lowered parameter name and the rest, or
    nothing when no parameter can be read. *)
Definition consumeMediaParam (v : string) : option (string * string) :=
  match TrimLeft v with
  | String ";" r1 =>
      let '(param, r2) := consumeToken (TrimLeft r1) in
      if String.eqb param "" then None
      else
        match TrimLeft r2 with
        | String "=" r3 =>
            let r4 := TrimLeft r3 in
            match r4 with
            | EmptyString => None
            | String c r5 =>
                if String.eqb (String c "") dquote then
                  match consumeQuoted r5 with
                  | Some rest => Some (ToLower param, rest)
                  | None => None
                  end
                else
                  let '(value, rest) := consumeToken r4 in
                  if String.eqb value "" then None
                  else Some (ToLower param, rest)
            end
        | _ => None
        end
  | _ => None
  end.

(** The parameter loop of [ParseMediaType]: the error, if any. *)
Fixpoint media_params (fuel : nat) (v : string) (seen : list string)
  : option string :=
  match fuel with
  | O => None
  | S fuel' =>
      let v := TrimLeft v in
      if String.eqb v "" then None
      else
        match consumeMediaParam v with
        | None =>
            if String.eqb (TrimSpace v) ";" then None
            else Some "mime: invalid media parameter"
        | Some (param, rest) =>
            if bool_decide (param ∈ seen)
            then Some "mime: duplicate parameter name"
            else media_params fuel' rest (param :: seen)
        end
  end.

(** [mime.ParseMediaType]: the lowered, trimmed media type before the
    parameters, and the error. *)
Definition ParseMediaType (v : string) : string * option string :=
  let '(base, rest) := cut_semicolon v in
  let mediatype := TrimSpace (ToLower base) in
  match checkMediaTypeDisposition mediatype with
  | Some err => ("", Some err)
  | None =>
      match media_params (S (String.length rest)) rest [] with
      | Some err =>
          (if String.eqb err "mime: invalid media parameter" then mediatype
           else "", Some err)
      | None => (mediatype, None)
      end
  end.

(** ** encoding/json: the syntax of a document *)

Definition is_ws (c : ascii) : bool :=
  let n := N_of_ascii c in ((n =? 32) || (n =? 9) || (n =? 10) || (n =? 13))%N.

Fixpoint skip_ws (s : string) : string :=
  match s with
  | String c rest => if is_ws c then skip_ws rest else s
  | EmptyString => s
  end.

Definition hex_val (c : ascii) : option Z :=
  let n := Z.of_N (N_of_ascii c) in
  if (48 <=? n) && (n <=? 57) then Some (n - 48)
  else if (97 <=? n) && (n <=? 102) then Some (n - 87)
  else if (65 <=? n) && (n <=? 70) then Some (n - 55)
  else None.

(** [getu4]: the code unit of a [\uXXXX] escape at the head of [s]. *)
Definition getu4 (s : string) : option (Z * string) :=
  match s with
  | String "\" (String "u" (String a (String b (String c (String d rest))))) =>
      match hex_val a, hex_val b, hex_val c, hex_val d with
      | Some x, Some y, Some z, Some t =>
          Some (((x * 16 + y) * 16 + z) * 16 + t, rest)
      | _, _, _, _ => None
      end
  | _ => None
  end.

Definition chr (n : Z) : ascii := ascii_of_N (Z.to_N n).

(** [utf8.EncodeRune]. *)
Definition EncodeRune (r : Z) : string :=
  if r <? 128 then String (chr r) ""
  else if r <? 2048 then
    String (chr (192 + r / 64)) (String (chr (128 + r mod 64)) "")
  else if r <? 65536 then
    String (chr (224 + r / 4096))
      (String (chr (128 + (r / 64) mod 64)) (String (chr (128 + r mod 64)) ""))
  else
    String (chr (240 + r / 262144))
      (String (chr (128 + (r / 4096) mod 64))
         (String (chr (128 + (r / 64) mod 64))
            (String (chr (128 + r mod 64)) ""))).

Definition is_surrogate (r : Z) : bool := (55296 <=? r) && (r <? 57344).

(** The body of a string literal after its opening quote: the decoded
    text and the rest behind the closing quote. *)
Fixpoint scan_string (fuel : nat) (s : string) (acc : string)
  : option (string * string) :=
  match fuel with
  | O => None
  | S fuel' =>
      match s with
      | EmptyString => None
      | String c rest =>
          if String.eqb (String c "") dquote then Some (acc, rest)
          else if Ascii.eqb c "\" then
            match rest with
            | String "u" _ =>
                match getu4 s with
                | None => None
                | Some (rr, rest1) =>
                    if is_surrogate rr then
                      match getu4 rest1 with
                      | Some (rr1, rest2) =>
                          if (rr <? 56320) && (56320 <=? rr1) && (rr1 <? 57344)
                          then scan_string fuel' rest2
                                 (acc +:+ EncodeRune
                                            (65536 + (rr - 55296) * 1024
                                             + (rr1 - 56320)))
                          else scan_string fuel' rest1 (acc +:+ EncodeRune 65533)
                      | None => scan_string fuel' rest1 (acc +:+ EncodeRune 65533)
                      end
                    else scan_string fuel' rest1 (acc +:+ EncodeRune rr)
                end
            | String e rest1 =>
                let plain (x : Z) := scan_string fuel' rest1 (acc +:+ String (chr x) "") in
                if String.eqb (String e "") dquote then plain 34
                else if Ascii.eqb e "\" then plain 92
                else if Ascii.eqb e "/" then plain 47
                else if Ascii.eqb e "b" then plain 8
                else if Ascii.eqb e "f" then plain 12
                else if Ascii.eqb e "n" then plain 10
                else if Ascii.eqb e "r" then plain 13
                else if Ascii.eqb e "t" then plain 9
                else None
            | EmptyString => None
            end
          else if (N_of_ascii c <? 32)%N then None
          else scan_string fuel' rest (acc +:+ String c "")
      end
  end.

Definition is_number_char (c : ascii) : bool :=
  match digit_val c with
  | Some _ => true
  | None => bool_decide (c ∈ String.list_ascii_of_string "+-.eE")
  end.

Fixpoint span_number (s : string) : string * string :=
  match s with
  | String c rest =>
      if is_number_char c then
        let '(lit, r) := span_number rest in (String c lit, r)
      else (EmptyString, s)
  | EmptyString => (EmptyString, s)
  end.

Fixpoint skip_digits (s : string) : string :=
  match s with
  | String c rest =>
      match digit_val c with Some _ => skip_digits rest | None => s end
  | EmptyString => s
  end.

(** At least one digit, then the rest. *)
Definition digits1 (s : string) : option string :=
  match s with
  | String c rest =>
      match digit_val c with Some _ => Some (skip_digits rest) | None => None end
  | EmptyString => None
  end.

(** The grammar of a JSON number literal. *)
Definition valid_number (lit : string) : bool :=
  let s := match lit with String "-" r => r | _ => lit end in
  let after_int :=
    match s with
    | String "0" r => Some r
    | _ => digits1 s
    end in
  let after_frac :=
    match after_int with
    | Some (String "." r) => digits1 r
    | other => other
    end in
  let after_exp :=
    match after_frac with
    | Some (String c r) =>
        if Ascii.eqb (lower c) "e" then
          digits1 (match r with
                   | String "+" r' | String "-" r' => r'
                   | _ => r
                   end)
        else after_frac
    | other => other
    end in
  match after_exp with
  | Some EmptyString => true
  | _ => false
  end.

Definition expect (lit : string) (v : document) (s : string)
  : option (document * string) :=
  if String.prefix lit s
  then Some (v, String.substring (String.length lit)
                   (String.length s - String.length lit) s)
  else None.

Inductive parse_mode :=
| PValue
| PElements (acc : list document)
| PMembers (acc : list (string * document)).

(** A value, the elements of an array after its bracket, or the members
    of an object after its brace, in the order of the text. *)
Fixpoint parse (fuel : nat) (mode : parse_mode) (s : string)
  : option (document * string) :=
  match fuel with
  | O => None
  | S fuel' =>
      let s := skip_ws s in
      match mode with
      | PValue =>
          match s with
          | EmptyString => None
          | String c rest =>
              if Ascii.eqb c "{" then
                match skip_ws rest with
                | String "}" r => Some (DObject [], r)
                | _ => parse fuel' (PMembers []) rest
                end
              else if Ascii.eqb c "[" then
                match skip_ws rest with
                | String "]" r => Some (DArray [], r)
                | _ => parse fuel' (PElements []) rest
                end
              else if String.eqb (String c "") dquote then
                match scan_string (String.length rest) rest "" with
                | Some (str, r) => Some (DString str, r)
                | None => None
                end
              else if Ascii.eqb c "t" then expect "true" (DBool true) s
              else if Ascii.eqb c "f" then expect "false" (DBool false) s
              else if Ascii.eqb c "n" then expect "null" DNull s
              else
                let '(lit, r) := span_number s in
                if valid_number lit then
                  match ParseFloat lit with
                  | (f, None) => Some (DNumber f, r)
                  | (_, Some _) => None
                  end
                else None
          end
      | PElements acc =>
          match parse fuel' PValue s with
          | None => None
          | Some (v, r) =>
              match skip_ws r with
              | String "," r' => parse fuel' (PElements (acc ++ [v])) r'
              | String "]" r' => Some (DArray (acc ++ [v]), r')
              | _ => None
              end
          end
      | PMembers acc =>
          match s with
          | String c rest =>
              if String.eqb (String c "") dquote then
                match scan_string (String.length rest) rest "" with
                | None => None
                | Some (k, r) =>
                    match skip_ws r with
                    | String ":" r1 =>
                        match parse fuel' PValue r1 with
                        | None => None
                        | Some (v, r2) =>
                            match skip_ws r2 with
                            | String "," r3 =>
                                parse fuel' (PMembers (acc ++ [(k, v)])) r3
                            | String "}" r3 =>
                                Some (DObject (acc ++ [(k, v)]), r3)
                            | _ => None
                            end
                        end
                    | _ => None
                    end
                end
              else None
          | EmptyString => None
          end
      end
  end.

(** The syntax phase of [json.Unmarshal]: one value between blanks. *)
Definition parse_document (body : bytes) : document + string :=
  let s := string_of_bytes body in
  match parse (2 * String.length s + 2) PValue s with
  | Some (v, rest) =>
      if String.eqb (skip_ws rest) "" then inl v
      else inr "invalid character after top-level value"
  | None => inr "invalid JSON input"
  end.

(** ** fmt: a format without operands *)

Definition byte_in (lo hi : N) (c : ascii) : bool :=
  ((lo <=? N_of_ascii c) && (N_of_ascii c <=? hi))%N.

(** [utf8.DecodeRuneInString] followed by [WriteRune]: the bytes of the
    first rune and the rest; an invalid encoding is one byte wide and is
    written as U+FFFD. *)
Definition DecodeRune (s : string) : string * string :=
  match s with
  | EmptyString => (EmptyString, EmptyString)
  | String c0 r0 =>
      let bad := (EncodeRune 65533, r0) in
      if byte_in 0 127 c0 then (String c0 "", r0)
      else if byte_in 194 223 c0 then
        match r0 with
        | String c1 r1 =>
            if byte_in 128 191 c1 then (String c0 (String c1 ""), r1) else bad
        | _ => bad
        end
      else if byte_in 224 239 c0 then
        match r0 with
        | String c1 (String c2 r2) =>
            if (if byte_in 224 224 c0 then byte_in 160 191 c1
                else if byte_in 237 237 c0 then byte_in 128 159 c1
                else byte_in 128 191 c1)
               && byte_in 128 191 c2
            then (String c0 (String c1 (String c2 "")), r2)
            else bad
        | _ => bad
        end
      else if byte_in 240 244 c0 then
        match r0 with
        | String c1 (String c2 (String c3 r3)) =>
            if (if byte_in 240 240 c0 then byte_in 144 191 c1
                else if byte_in 244 244 c0 then byte_in 128 143 c1
                else byte_in 128 191 c1)
               && byte_in 128 191 c2 && byte_in 128 191 c3
            then (String c0 (String c1 (String c2 (String c3 ""))), r3)
            else bad
        | _ => bad
        end
      else bad
  end.

(** The flags of a verb. *)
Fixpoint skip_flags (s : string) : string :=
  match s with
  | String c rest =>
      if Ascii.eqb c "#" || Ascii.eqb c "0" || Ascii.eqb c "+"
         || Ascii.eqb c "-" || Ascii.eqb c " "
      then skip_flags rest
      else s
  | EmptyString => s
  end.

(** [parsenum]: whether digits were read, and the rest; a number beyond
    a million gives up and skips to the end. *)
Fixpoint parsenum (s : string) (num : Z) (isnum : bool) : bool * string :=
  match s with
  | String c rest =>
      match digit_val c with
      | Some d =>
          if 1000000 <? num then (false, EmptyString)
          else parsenum rest (num * 10 + d) true
      | None => (isnum, s)
      end
  | EmptyString => (isnum, s)
  end.

(** The text before the first closing bracket, and the text behind it. *)
Fixpoint cut_bracket (s : string) : option (string * string) :=
  match s with
  | EmptyString => None
  | String c rest =>
      if Ascii.eqb c "]" then Some (EmptyString, rest)
      else
        match cut_bracket rest with
        | Some (inside, after) => Some (String c inside, after)
        | None => None
        end
  end.

(** [argNumber]: an explicit argument index [[n]].  Without operands no
    index is in range; the result is the rest and whether the index was
    well-formed. *)
Definition argNumber (s : string) : option (string * bool) :=
  match s with
  | String "[" rest =>
      if (String.length s <? 3)%nat then Some (rest, false)
      else
        match cut_bracket rest with
        | Some (inside, after) =>
            let '(isnum, r) := parsenum inside 0 false in
            Some (after, isnum && String.eqb r "")
        | None => Some (rest, false)
        end
  | _ => None
  end.

(** One verb, behind its percent sign: what is written for it, and the
    rest of the format.  No operand is left for any verb. *)
Definition verb (s : string) : string * string :=
  let s := skip_flags s in
  let '(s, afterIndex, goodArgNum) :=
    match argNumber s with
    | Some (r, ok) => (r, ok, false)
    | None => (s, false, true)
    end in
  let '(s, afterIndex, goodArgNum, out) :=
    match s with
    | String "*" r => (r, false, goodArgNum, "%!(BADWIDTH)")
    | _ =>
        let '(widPresent, r) := parsenum s 0 false in
        (r, afterIndex, goodArgNum && negb (afterIndex && widPresent), "")
    end in
  let '(s, afterIndex, goodArgNum, out) :=
    match s with
    | String "." r =>
        let goodArgNum := goodArgNum && negb afterIndex in
        let '(r, afterIndex, goodArgNum) :=
          match argNumber r with
          | Some (r', ok) => (r', ok, false)
          | None => (r, false, goodArgNum)
          end in
        match r with
        | String "*" r' => (r', false, goodArgNum, out +:+ "%!(BADPREC)")
        | _ => (snd (parsenum r 0 false), afterIndex, goodArgNum, out)
        end
    | _ => (s, afterIndex, goodArgNum, out)
    end in
  let '(s, goodArgNum) :=
    if afterIndex then (s, goodArgNum)
    else
      match argNumber s with
      | Some (r, _) => (r, false)
      | None => (s, goodArgNum)
      end in
  match s with
  | EmptyString => (out +:+ "%!(NOVERB)", EmptyString)
  | _ =>
      let '(v, rest) := DecodeRune s in
      if String.eqb v "%" then (out +:+ "%", rest)
      else if goodArgNum then (out +:+ "%!" +:+ v +:+ "(MISSING)", rest)
      else (out +:+ "%!" +:+ v +:+ "(BADINDEX)", rest)
  end.

Fixpoint Sprintf_loop (fuel : nat) (s : string) : string :=
  match fuel with
  | O => EmptyString
  | S fuel' =>
      match s with
      | EmptyString => EmptyString
      | String c rest =>
          if Ascii.eqb c "%" then
            let '(out, r) := verb rest in out +:+ Sprintf_loop fuel' r
          else String c (Sprintf_loop fuel' rest)
      end
  end.

(** [fmt.Sprintf(format)] without operands: the text is copied, and every
    verb reports that its operand is missing. *)
Definition Sprintf (format : string) : string :=
  Sprintf_loop (S (String.length format)) format.

(** ** net/http *)

(** The error of [http.NewRequest]: the URL must hold no control
    character and no malformed percent escape. *)
Fixpoint url_error (u : string) : option string :=
  match u with
  | EmptyString => None
  | String c rest =>
      let n := N_of_ascii c in
      if ((n <? 32) || (n =? 127))%N
      then Some "net/url: invalid control character in URL"
      else if Ascii.eqb c "%" then
        match rest with
        | String a (String b _) =>
            match hex_val a, hex_val b with
            | Some _, Some _ => url_error rest
            | _, _ => Some "invalid URL escape"
            end
        | _ => Some "invalid URL escape"
        end
      else url_error rest
  end.

Definition NewRequest_error (method url : string) : option string :=
  match url_error url with
  | Some e => Some ("parse " +:+ dquote +:+ url +:+ dquote +:+ ": " +:+ e)
  | None => None
  end.

(** The library, assembled. *)
Definition lib : GoLib :=
  {| sha256_Sum := Sum256;
     hmac_sha512_Sum := Sum_hmac_sha512;
     base64_EncodeToString := EncodeToString;
     base64_DecodeString := DecodeString;
     strconv_ParseFloat := ParseFloat;
     strconv_ParseInt := ParseInt;
     mime_ParseMediaType := ParseMediaType;
     json_parse := parse_document;
     fmt_Sprintf := Sprintf;
     http_NewRequest_error := NewRequest_error |}.

(** A server that answers every request with the same JSON body. *)
Definition json_response (body : string) : Response :=
  {| resp_Header := {[ "Content-Type" := ["application/json; charset=utf-8"] ]};
     resp_Body := inl (bytes_of_string body) |}.

Definition answering (resp : Response) : HttpClient := fun _ _ => inl resp.

Definition world0 : World := {| sent := []; now := 1616492376594 |}.

(** [q s] is [s] between double quotes. *)
Definition q (s : string) : string := dquote +:+ s +:+ dquote.

(** Clients whose transport answers with a given response. *)
Definition http (resp : Response) : KrakenClient :=
  {| client := answering resp |}.

Definition public (resp : Response) : KrakenPublic :=
  {| public_KrakenClient := http resp |}.

Definition private (secret : string) (resp : Response) : KrakenPrivate :=
  {| key := "API-KEY"; secret := secret; private_KrakenClient := http resp |}.

(** An envelope without errors around a result. *)
Definition envelope (result : string) : string :=
  "{" +:+ q "error" +:+ ":[]," +:+ q "result" +:+ ":" +:+ result +:+ "}".

(** The envelope of the specification's example of an exchange error. *)
Definition unknown_order : string :=
  "{" +:+ q "error" +:+ ":[" +:+ q "EOrder:Unknown order" +:+ "],"
      +:+ q "result" +:+ ":null}".

(** Trades of a pair: one trade array, and the [last] identifier. *)
Definition trades_body (trade : string) : string :=
  envelope ("{" +:+ q "XXBTZEUR" +:+ ":[" +:+ trade +:+ "]," +:+ q "last"
              +:+ ":" +:+ q "1600000000000000000" +:+ "}").

Definition trade_text (price volume side kind : string) : string :=
  "[" +:+ q price +:+ "," +:+ q volume +:+ ",1600000000.0," +:+ q side
      +:+ "," +:+ q kind +:+ "," +:+ q "text" +:+ "]".

(** The trade of the specification's example. *)
Definition example_trade : trade_fields :=
  {| f_price := "4000.0"; f_volume := "0.5"; f_time := 1600000000;
     f_side := "b"; f_kind := "m"; f_misc := "text" |}.

(** Candles: one complete, one cut short after three fields. *)
Definition good_candle : list json :=
  [JNumber 1600000000; JString "4000.0"; JString "4010.5"; JString "3990.0";
   JString "4005.0"; JString "4001.2"; JString "12.5"; JNumber 42].

Definition short_candle : list json :=
  [JNumber 1600000060; JString "4005.0"; JString "4006.0"].

Definition ohlc_body : string :=
  envelope ("{" +:+ q "XXBTZEUR" +:+ ":[[1600000000," +:+ q "4000.0" +:+ ","
              +:+ q "4010.5" +:+ "," +:+ q "3990.0" +:+ "," +:+ q "4005.0"
              +:+ "," +:+ q "4001.2" +:+ "," +:+ q "12.5" +:+ ",42],"
              +:+ "[1600000060," +:+ q "4005.0" +:+ "," +:+ q "4006.0" +:+ "]],"
              +:+ q "last" +:+ ":1600000060}").

(** The balances of the specification's example. *)
Definition balance_body : string :=
  envelope ("{" +:+ q "ZUSD" +:+ ":" +:+ q "100.5000" +:+ "," +:+ q "XXBT"
              +:+ ":" +:+ q "0.0010" +:+ "}").

(** An order book of [n] ask levels and one bid level. *)
Definition level_text (i : nat) : string :=
  "[" +:+ q (pretty (200 + Z.of_nat i) +:+ ".5") +:+ "," +:+ q "1.25"
      +:+ ",1600000000]".

Definition depth_body (n : nat) : string :=
  envelope ("{" +:+ q "XETHZEUR" +:+ ":{" +:+ q "asks" +:+ ":["
              +:+ String.concat "," (level_text <$> seq 0 n) +:+ "],"
              +:+ q "bids" +:+ ":[" +:+ level_text 0 +:+ "]}}").

(** The same book in an envelope whose keys are written in other cases. *)
Definition depth_body_cased (n : nat) : string :=
  "{" +:+ q "error" +:+ ":[]," +:+ q "Result" +:+ ":{" +:+ q "XETHZEUR"
      +:+ ":{" +:+ q "Asks" +:+ ":["
      +:+ String.concat "," (level_text <$> seq 0 n) +:+ "],"
      +:+ q "BIDS" +:+ ":[" +:+ level_text 0 +:+ "]}}}".

(** A page that is not JSON. *)
Definition html_response : Response :=
  {| resp_Header := {[ "Content-Type" := ["text/html"] ]};
     resp_Body := inl (bytes_of_string "<html></html>") |}.

End Ref.

(** * Further code of the package *)

(** ** privateapi.go: the parameters of the private methods *)

(** [if value, ok := args[name]; ok { params.Add(param, value) }]. *)
Definition add_arg (args : gmap string string) (name param : string)
  (params : Values) : Values :=
  match args !! name with
  | Some value => Values_Add params param value
  | None => params
  end.

(** The parameters [TradesHistory] assembles: the part of [TradesHistory]
    before the query. *)
Definition TradesHistory_params (start end_ : Z) (args : gmap string string)
  : Values :=
  let params : Values := ∅ in
  let params :=
    if 0 <? start then Values_Add params "start" (pretty start) else params in
  let params :=
    if 0 <? end_ then Values_Add params "end" (pretty end_) else params in
  let params := add_arg args "type" "type" params in
  let params := add_arg args "trades" "trades" params in
  add_arg args "ofs" "ofs" params.

(** The parameters [AddOrder] assembles: the four mandatory fields, then
    the optional ones that [args] holds. *)
Definition AddOrder_params (pair direction orderType volume : string)
  (args : gmap string string) : Values :=
  let params : Values :=
    <["volume" := [volume]]>
      (<["ordertype" := [orderType]]>
         (<["type" := [direction]]> {[ "pair" := [pair] ]})) in
  let params := add_arg args "price" "price" params in
  let params := add_arg args "price2" "price2" params in
  let params := add_arg args "leverage" "leverage" params in
  let params := add_arg args "oflags" "oflags" params in
  let params := add_arg args "starttm" "starttm" params in
  let params := add_arg args "expiretm" "expiretm" params in
  let params := add_arg args "validate" "validate" params in
  let params := add_arg args "close_order_type" "close[ordertype]" params in
  let params := add_arg args "close_price" "close[price]" params in
  let params := add_arg args "close_price2" "close[price2]" params in
  let params := add_arg args "trading_agreement" "trading_agreement" params in
  add_arg args "userref" "userref" params.

(** The optional arguments of [AddOrder]: the key read in [args] and the
    parameter it is sent as. *)
Definition AddOrder_optional : list (string * string) :=
  [("price", "price"); ("price2", "price2"); ("leverage", "leverage");
   ("oflags", "oflags"); ("starttm", "starttm"); ("expiretm", "expiretm");
   ("validate", "validate"); ("close_order_type", "close[ordertype]");
   ("close_price", "close[price]"); ("close_price2", "close[price2]");
   ("trading_agreement", "trading_agreement"); ("userref", "userref")].

(** ** Notions used to state further properties *)

(** The transport answers the request [req], sent in the world [w], with
    a JSON response whose body is the document [doc]. *)
Definition answers (L : GoLib) (c : KrakenClient) (w : World) (req : Request)
  (doc : document) : Prop :=
  http_NewRequest_error L "POST" (req_URL req) = None
  ∧ ∃ (resp : Response) (body : bytes),
      client c (sent w) req = inl resp
      ∧ resp_Body resp = inl body
      ∧ is_json_response L resp
      ∧ json_parse L body = inl doc.

(** The request of the public method [method] with the parameters
    [values]. *)
Definition public_request (method : string) (values : Values) : Request :=
  new_request (public_url method) values ∅.

(** ** Concrete cases *)

Module Cases.

(** A transport that cannot connect. *)
Definition refused : HttpClient :=
  fun _ _ => inr "dial tcp: connection refused".

(** An order book of another pair than the one asked for. *)
Definition other_pair_body : string :=
  Ref.envelope ("{" +:+ Ref.q "XXBTZEUR" +:+ ":{" +:+ Ref.q "asks" +:+ ":[],"
                  +:+ Ref.q "bids" +:+ ":[]}}").

(** Two books, the second with a level whose price is no number, under
    the key [Bids]. *)
Definition bad_level_body : string :=
  Ref.envelope ("{" +:+ Ref.q "XETHZEUR" +:+ ":{" +:+ Ref.q "asks" +:+ ":["
                  +:+ Ref.level_text 0 +:+ "]},"
                  +:+ Ref.q "XXBTZEUR" +:+ ":{" +:+ Ref.q "Bids" +:+ ":[["
                  +:+ Ref.q "n/a" +:+ "," +:+ Ref.q "1.25" +:+ ",1600000000]]}}").

(** Balances in an envelope whose result is keyed in upper case. *)
Definition cased_balance_body : string :=
  "{" +:+ Ref.q "error" +:+ ":[]," +:+ Ref.q "RESULT" +:+ ":{"
      +:+ Ref.q "ZUSD" +:+ ":" +:+ Ref.q "1.5" +:+ "}}".

(** Trades whose [last] is no integer. *)
Definition bad_last_body : string :=
  Ref.envelope ("{" +:+ Ref.q "XXBTZEUR" +:+ ":["
                  +:+ Ref.trade_text "4000.0" "0.5" "b" "m" +:+ "],"
                  +:+ Ref.q "last" +:+ ":" +:+ Ref.q "16e17" +:+ "}").

(** Trades with a trade array of five elements. *)
Definition short_trade_body : string :=
  Ref.trades_body
    ("[" +:+ Ref.q "4000.0" +:+ "," +:+ Ref.q "0.5" +:+ ",1600000000.0,"
         +:+ Ref.q "b" +:+ "," +:+ Ref.q "m" +:+ "]").

(** Two complete candles. *)
Definition candles_body : string :=
  Ref.envelope ("{" +:+ Ref.q "XXBTZEUR" +:+ ":[[1600000000," +:+ Ref.q "4000.0"
                  +:+ "," +:+ Ref.q "4010.5" +:+ "," +:+ Ref.q "3990.0" +:+ ","
                  +:+ Ref.q "4005.0" +:+ "," +:+ Ref.q "4001.2" +:+ ","
                  +:+ Ref.q "12.5" +:+ ",42],[1600000060," +:+ Ref.q "4005.0"
                  +:+ "," +:+ Ref.q "4006.0" +:+ "," +:+ Ref.q "4004.0" +:+ ","
                  +:+ Ref.q "4005.5" +:+ "," +:+ Ref.q "4005.1" +:+ ","
                  +:+ Ref.q "3.0" +:+ ",7]]," +:+ Ref.q "last" +:+ ":1600000060}").

Definition second_candle : list json :=
  [JNumber 1600000060; JString "4005.0"; JString "4006.0"; JString "4004.0";
   JString "4005.5"; JString "4005.1"; JString "3.0"; JNumber 7].

(** Arguments of an order, one of them unknown to [AddOrder]. *)
Definition order_args : gmap string string :=
  {[ "price" := "37500"; "close_price" := "38000"; "timeinforce" := "GTC";
     "type" := "sell" ]}.

End Cases.

(** * Properties *)

(** ** Strings and substrings *)

Lemma append_cons (x : ascii) (a b : string) :
  String x a +:+ b = String x (a +:+ b).
Proof. reflexivity. Qed.

Lemma append_assoc (a b c : string) : (a +:+ b) +:+ c = a +:+ b +:+ c.
Proof.
  induction a as [|x a IH]; [reflexivity|].
  rewrite !append_cons. by f_equal.
Qed.

Lemma append_nil_r (a : string) : a +:+ "" = a.
Proof.
  induction a as [|x a IH]; [reflexivity|].
  rewrite append_cons. by f_equal.
Qed.

Lemma bytes_of_string_app (a b : string) :
  bytes_of_string (a +:+ b) = bytes_of_string a ++ bytes_of_string b.
Proof.
  unfold bytes_of_string, list_byte_of_string.
  induction a as [|x a IH]; [reflexivity|].
  rewrite append_cons. cbn [String.list_ascii_of_string map].
  by rewrite IH.
Qed.

Lemma contains_refl (s : string) : contains s s.
Proof. exists "", "". by rewrite append_nil_r. Qed.

Lemma contains_trans (a b c : string) :
  contains a b → contains b c → contains a c.
Proof.
  intros (p1 & q1 & ->) (p2 & q2 & ->).
  exists (p1 +:+ p2), (q2 +:+ q1). by rewrite !append_assoc.
Qed.

Lemma contains_app_l (a b s : string) : contains a s → contains (a +:+ b) s.
Proof.
  intros (p & q & ->). exists p, (q +:+ b). by rewrite !append_assoc.
Qed.

Lemma contains_app_r (a b s : string) : contains b s → contains (a +:+ b) s.
Proof.
  intros (p & q & ->). exists (a +:+ p), q. by rewrite !append_assoc.
Qed.

Create HintDb strings.
#[global] Hint Resolve contains_refl contains_app_l contains_app_r : strings.

(** ** url.Values *)

Lemma Values_Get_Set (v : Values) (k x : string) :
  Values_Get (Values_Set v k x) k = x.
Proof. unfold Values_Get, Values_Set. by rewrite lookup_insert_eq. Qed.

Lemma Encode_write_keeps (k buf x s : string) :
  contains buf s → contains (Encode_write k buf x) s.
Proof.
  intros H. unfold Encode_write.
  destruct (String.eqb_spec buf "") as [-> | _].
  - destruct H as (p & q & H). destruct p; [|discriminate].
    destruct s; [|discriminate]. exists "", (k +:+ "=" +:+ QueryEscape x).
    reflexivity.
  - rewrite append_assoc. by apply contains_app_l.
Qed.

Lemma Encode_write_adds (k buf x : string) :
  contains (Encode_write k buf x) (k +:+ "=" +:+ QueryEscape x).
Proof. unfold Encode_write. apply contains_app_r, contains_refl. Qed.

Lemma Encode_values_keeps (k : string) (xs : list string) (buf s : string) :
  contains buf s → contains (foldl (Encode_write k) buf xs) s.
Proof.
  revert buf. induction xs as [|x xs IH]; intros buf H; simpl; [done|].
  by apply IH, Encode_write_keeps.
Qed.

Lemma Encode_values_adds (k : string) (xs : list string) (buf x : string) :
  x ∈ xs →
  contains (foldl (Encode_write k) buf xs) (k +:+ "=" +:+ QueryEscape x).
Proof.
  revert buf. induction xs as [|y xs IH]; intros buf Hin; simpl.
  - by apply elem_of_nil in Hin.
  - apply elem_of_cons in Hin as [-> | Hin].
    + apply Encode_values_keeps, Encode_write_adds.
    + by apply IH.
Qed.

Lemma Encode_keys_adds (v : Values) (keys : list string) (buf k x : string)
  (xs : list string) :
  k ∈ keys → v !! k = Some xs → x ∈ xs →
  contains
    (foldl (fun buf k =>
              foldl (Encode_write (QueryEscape k)) buf (default [] (v !! k)))
       buf keys)
    (QueryEscape k +:+ "=" +:+ QueryEscape x).
Proof.
  intros Hk Hv Hx. revert buf.
  induction keys as [|k' keys IH]; intros buf; simpl.
  - by apply elem_of_nil in Hk.
  - apply elem_of_cons in Hk as [<- | Hk].
    + rewrite Hv. simpl.
      assert (Hkeep : ∀ ks b s, contains b s →
        contains (foldl (fun buf k0 => foldl (Encode_write (QueryEscape k0)) buf
                                         (default [] (v !! k0))) b ks) s).
      { induction ks as [|k0 ks IHks]; intros b s Hs; simpl; [done|].
        by apply IHks, Encode_values_keeps. }
      by apply Hkeep, Encode_values_adds.
    + by apply IH.
Qed.

Lemma sorted_keys_elem (v : Values) (k : string) :
  k ∈ sorted_keys v ↔ is_Some (v !! k).
Proof.
  unfold sorted_keys. rewrite merge_sort_Permutation.
  rewrite list_elem_of_fmap. split.
  - intros ([k' xs] & -> & Hin). apply elem_of_map_to_list in Hin. eauto.
  - intros [xs Hxs]. exists (k, xs). split; [done|].
    by apply elem_of_map_to_list.
Qed.

(** Every value of every key shows in the encoded form. *)
Lemma Values_Encode_contains (v : Values) (k x : string) (xs : list string) :
  v !! k = Some xs → x ∈ xs →
  contains (Values_Encode v) (QueryEscape k +:+ "=" +:+ QueryEscape x).
Proof.
  intros Hv Hx. unfold Values_Encode.
  eapply Encode_keys_adds; eauto. apply sorted_keys_elem; eauto.
Qed.

(** ** C1: the signature *)

(** C1.  For every path, parameter set and secret, [createSignature] is
    the base64 encoding of HMAC-SHA-512, keyed with the secret, of the path
    bytes followed by the SHA-256 digest of the nonce followed by the encoded
    parameters; and once the nonce is set in the parameters, as
    [queryPrivate] does before signing, it is the nonce [Get] reads and the
    encoded parameters hold the nonce key with it. *)
Theorem createSignature_spec (L : GoLib) (urlPath : string) (values : Values)
  (secret : bytes) :
  createSignature L urlPath values secret
  = sign_spec L urlPath (Values_Encode values) (Values_Get values "nonce") secret
  ∧ ∀ nonce : string,
      Values_Get (Values_Set values "nonce" nonce) "nonce" = nonce
      ∧ contains (Values_Encode (Values_Set values "nonce" nonce))
          ("nonce=" +:+ QueryEscape nonce).
Proof.
  split.
  - unfold createSignature, sign_spec, getSha256, getHMacSha512.
    by rewrite bytes_of_string_app.
  - intros nonce. split; [apply Values_Get_Set|].
    change ("nonce=" +:+ QueryEscape nonce)
      with (QueryEscape "nonce" +:+ "=" +:+ QueryEscape nonce).
    eapply Values_Encode_contains.
    + unfold Values_Set. apply lookup_insert_eq.
    + apply list_elem_of_here.
Qed.

(** The example of the Kraken API documentation: the published key,
    nonce and order give the published signature. *)
Example createSignature_documented :
  createSignature Ref.lib "/0/private/AddOrder"
    (list_to_map [("nonce", ["1616492376594"]); ("ordertype", ["limit"]);
                  ("pair", ["XBTUSD"]); ("price", ["37500"]);
                  ("type", ["buy"]); ("volume", ["1.25"])])
    (fst (Ref.DecodeString
            "kQH5HW/8p1uGOVjbgWA7FunAmGO8lsSUXNsu3eow76sz84Q18fWxnyRzBHCd3pd5nE9qa99HAZtuZuj6F1huXg=="))
  = "4/dpxb3iT4tp/ZCVEwSnEsLxx0bqyhLpdfOpc6fn7OR8+UClSV5n9E6aSS8MPtnRfp32bAb0nmbRn6H8ndwLUQ==".
Proof. vm_compute. reflexivity. Qed.

(** ** krakenclient.go: [doRequest] *)

Lemma concat_contains (sep : string) (l : list string) (e : string) :
  e ∈ l → contains (String.concat sep l) e.
Proof.
  induction l as [|x l IH]; intros Hin.
  - by apply elem_of_nil in Hin.
  - apply elem_of_cons in Hin as [-> | Hin].
    + destruct l; cbn [String.concat]; auto with strings.
    + destruct l as [|y l]; [by apply elem_of_nil in Hin|].
      cbn [String.concat]. auto with strings.
Qed.

Lemma fmt_strings_contains (l : list string) (e : string) :
  e ∈ l → contains (fmt_strings l) e.
Proof.
  intros Hin. unfold fmt_strings.
  apply contains_app_r, contains_app_l. by apply concat_contains.
Qed.

(** One run of [doRequest]: either the request cannot be created, or it is
    sent and the transport's answer decides the reply. *)
Lemma doRequest_run (L : GoLib) (api : KrakenClient) (reqURL : string)
  (values : Values) (headers : gmap string string) (typ : option target)
  (w : World) :
  doRequest L api reqURL values headers typ w
  = match http_NewRequest_error L "POST" reqURL with
    | Some err =>
        (Returned (nil_iface,
                   Some (errorString
                           ("Could not execute request! #1 (" +:+ err +:+ ")")),
                   typ), w)
    | None =>
        let req := new_request reqURL values headers in
        (Returned (doRequest_reply L typ (client api (sent w) req)),
         sending w req)
    end.
Proof.
  unfold doRequest, doRequest_reply.
  destruct (http_NewRequest_error L "POST" reqURL) as [err|]; [reflexivity|].
  cbn zeta. unfold bind, Do, ret, sending.
  destruct (client api (sent w) _) as [resp|err]; [|reflexivity].
  destruct (resp_Body resp) as [body|err]; [|reflexivity].
  destruct (mime_ParseMediaType L _) as [mimeType [err|]]; [reflexivity|].
  destruct (negb _); [reflexivity|].
  destruct (json_Unmarshal L body typ) as [[jsonData typ']|err]; [|reflexivity].
  by destruct (0 <? length (Error jsonData))%nat.
Qed.

(** [doRequest] never panics, and sends at most one request. *)
Lemma doRequest_returns (L : GoLib) (api : KrakenClient) (reqURL : string)
  (values : Values) (headers : gmap string string) (typ : option target)
  (w : World) :
  ∃ r w', doRequest L api reqURL values headers typ w = (Returned r, w')
          ∧ (w' = w ∨ w' = sending w (new_request reqURL values headers)).
Proof.
  rewrite doRequest_run.
  destruct (http_NewRequest_error L "POST" reqURL); eauto.
Qed.

(** A reply without error comes from a JSON response whose envelope was
    decoded and holds no error. *)
Lemma doRequest_reply_ok (L : GoLib) (typ : option target)
  (r : Response + string) (v : iface) (typ' : option target) :
  doRequest_reply L typ r = (v, None, typ') →
  ∃ resp body jsonData,
    r = inl resp ∧ resp_Body resp = inl body ∧ is_json_response L resp
    ∧ json_Unmarshal L body typ = inl (jsonData, typ')
    ∧ Error jsonData = [] ∧ v = Result jsonData.
Proof.
  unfold doRequest_reply, is_json_response.
  destruct r as [resp|err]; [|discriminate].
  destruct (resp_Body resp) as [body|err] eqn:Hbody; [|discriminate].
  destruct (mime_ParseMediaType L _) as [mimeType [err|]] eqn:Hmime;
    [discriminate|].
  destruct (String.eqb_spec mimeType "application/json") as [-> | _];
    [|discriminate].
  cbn [negb].
  destruct (json_Unmarshal L body typ) as [[jsonData t]|err] eqn:Hjson;
    [|discriminate].
  destruct (Error jsonData) as [|e es] eqn:HE; cbn; [|discriminate].
  intros [= <- <-]. by exists resp, body, jsonData.
Qed.

(** C2, as amended.  When the request is sent and answered with a JSON
    response, [doRequest] fails with error #6 if [json.Unmarshal] cannot
    decode the body into the envelope with the caller's target; otherwise it
    returns an error exactly when the error sequence of the envelope is not
    empty, the text of that error holds every error string of the server,
    and with an empty error sequence it returns the populated result and no
    error. *)
Theorem doRequest_envelope (L : GoLib) (api : KrakenClient) (reqURL : string)
  (values : Values) (headers : gmap string string) (typ : option target)
  (w : World) (resp : Response) (body : bytes) :
  http_NewRequest_error L "POST" reqURL = None →
  client api (sent w) (new_request reqURL values headers) = inl resp →
  resp_Body resp = inl body →
  is_json_response L resp →
  ∃ (v : iface) (err : option error) (typ' : option target),
    doRequest L api reqURL values headers typ w
    = (Returned (v, err, typ'),
       sending w (new_request reqURL values headers))
    ∧ match json_Unmarshal L body typ with
      | inr e =>
          v = nil_iface ∧ typ' = typ
          ∧ err = Some (errorString
                          ("Could not execute request! #6 (" +:+ e +:+ ")"))
      | inl (jsonData, t) =>
          typ' = t
          ∧ (is_Some err ↔ Error jsonData ≠ [])
          ∧ (Error jsonData ≠ [] →
             v = nil_iface
             ∧ ∃ msg, err = Some (errorString msg)
                      ∧ ∀ e, e ∈ Error jsonData → contains msg e)
          ∧ (Error jsonData = [] → v = Result jsonData ∧ err = None)
      end.
Proof.
  intros Hreq Hdo Hbody Hmime.
  rewrite doRequest_run, Hreq. cbn zeta. rewrite Hdo.
  unfold doRequest_reply. rewrite Hbody. unfold is_json_response in Hmime.
  rewrite Hmime. cbn [String.eqb negb].
  change (String.eqb "application/json" "application/json") with true.
  cbn [negb].
  destruct (json_Unmarshal L body typ) as [[jsonData t]|e].
  - destruct (Error jsonData) as [|e es] eqn:HE; cbn.
    + eexists _, _, _. split; [reflexivity|].
      split; [done|]. split; [|split]; [|done|done].
      split; [by intros [? [=]]|done].
    + eexists _, _, _. split; [reflexivity|].
      split; [done|]. split; [|split]; [| |done].
      * split; [done|eauto].
      * intros _. split; [done|]. eexists. split; [reflexivity|].
        intros e' He'. apply contains_app_r, contains_app_l.
        rewrite <- HE in He'. rewrite <- HE. by apply fmt_strings_contains.
  - eexists _, _, _. split; [reflexivity|]. done.
Qed.

(** C4.  When the media type of the response is not exactly
    [application/json] (or cannot be parsed), [doRequest] returns an error
    whatever the JSON decoder would make of the body, and leaves the value
    behind [typ] as it was; when it is [application/json], the reply is the
    one decoded from the body. *)
Theorem doRequest_content_type (L : GoLib) (api : KrakenClient)
  (reqURL : string) (values : Values) (headers : gmap string string)
  (typ : option target) (w : World) (resp : Response) (body : bytes) :
  client api (sent w) (new_request reqURL values headers) = inl resp →
  resp_Body resp = inl body →
  (¬ is_json_response L resp →
   ∃ (err : error) (w' : World), ∀ parse : bytes → document + string,
     doRequest (with_json_parse L parse) api reqURL values headers typ w
     = (Returned (nil_iface, Some err, typ), w'))
  ∧ (is_json_response L resp →
     http_NewRequest_error L "POST" reqURL = None →
     doRequest L api reqURL values headers typ w
     = (Returned
          match json_Unmarshal L body typ with
          | inr e =>
              (nil_iface,
               Some (errorString
                       ("Could not execute request! #6 (" +:+ e +:+ ")")),
               typ)
          | inl (jsonData, typ') =>
              if (0 <? length (Error jsonData))%nat then
                (nil_iface,
                 Some (errorString
                         ("Could not execute request! #7 ("
                            +:+ fmt_strings (Error jsonData) +:+ ")")),
                 typ')
              else (Result jsonData, None, typ')
          end,
        sending w (new_request reqURL values headers))).
Proof.
  intros Hdo Hbody. unfold is_json_response. split.
  - intros Hmime.
    destruct (http_NewRequest_error L "POST" reqURL) as [e1|] eqn:Hreq.
    + eexists _, _. intros parse. rewrite doRequest_run. cbn.
      rewrite Hreq. reflexivity.
    + destruct (mime_ParseMediaType L
                  (Values_Get (resp_Header resp) "Content-Type"))
        as [mimeType [e4|]] eqn:Hm.
      * eexists _, _. intros parse. rewrite doRequest_run. cbn.
        rewrite Hreq, Hdo. cbn. rewrite Hbody, Hm. reflexivity.
      * destruct (String.eqb_spec mimeType "application/json") as [-> | Hne];
          [done|].
        eexists _, _. intros parse. rewrite doRequest_run. cbn.
        rewrite Hreq, Hdo. cbn. rewrite Hbody, Hm.
        destruct (String.eqb_spec mimeType "application/json"); [done|].
        reflexivity.
  - intros Hmime Hreq. rewrite doRequest_run, Hreq. cbn zeta. rewrite Hdo.
    unfold doRequest_reply. rewrite Hbody, Hmime.
    change (String.eqb "application/json" "application/json") with true.
    reflexivity.
Qed.

(** The exchange error of the specification: the decoder returns an error
    that holds the server's text, and no result. *)
Lemma doRequest_envelope_witness :
  ∃ msg : string,
    fst (doRequest Ref.lib (Ref.http (Ref.json_response Ref.unknown_order))
           (public_url "Time") ∅ ∅ None Ref.world0)
    = Returned (nil_iface, Some (errorString msg), None)
    ∧ contains msg "EOrder:Unknown order".
Proof.
  destruct (doRequest_envelope Ref.lib
              (Ref.http (Ref.json_response Ref.unknown_order))
              (public_url "Time") ∅ ∅ None Ref.world0
              (Ref.json_response Ref.unknown_order)
              (bytes_of_string Ref.unknown_order)
              eq_refl eq_refl eq_refl eq_refl)
    as (v & err & typ' & Hrun & Hcase).
  assert (Hu : json_Unmarshal Ref.lib (bytes_of_string Ref.unknown_order) None
               = inl ({| Error := ["EOrder:Unknown order"];
                         Result := nil_iface |}, None))
    by (vm_compute; reflexivity).
  rewrite Hu in Hcase. destruct Hcase as (-> & _ & Herr & _).
  destruct Herr as (-> & msg & -> & Hmsg); [discriminate|].
  exists msg. rewrite Hrun. split; [reflexivity|].
  apply Hmsg. apply list_elem_of_here.
Defined.

(** A well-formed JSON body with an empty error sequence whose result does
    not fit the target of the caller: [doRequest] returns error #6. *)
Lemma doRequest_error_with_empty_error_sequence :
  json_parse Ref.lib (bytes_of_string (Ref.envelope "5"))
  = inl (DObject [("error", DArray []); ("result", DNumber 5)])
  ∧ fst (doRequest Ref.lib (Ref.http (Ref.json_response (Ref.envelope "5")))
           (APIURL +:+ private_path "Balance") ∅ ∅ (Some (StringMap ∅)) Ref.world0)
    = Returned
        (nil_iface,
         Some (errorString
                 "Could not execute request! #6 (json: cannot unmarshal number into Go struct field KrakenResponse.result of type map[string]string)"),
         Some (StringMap ∅)).
Proof. split; vm_compute; reflexivity. Qed.

(** A page served as [text/html] is refused whatever a JSON decoder would
    make of it. *)
Lemma doRequest_content_type_witness :
  ∃ (err : error) (w' : World), ∀ parse : bytes → document + string,
    doRequest (with_json_parse Ref.lib parse) (Ref.http Ref.html_response)
      (public_url "Time") ∅ ∅ None Ref.world0
    = (Returned (nil_iface, Some err, None), w').
Proof.
  refine (proj1 (doRequest_content_type Ref.lib (Ref.http Ref.html_response)
                   (public_url "Time") ∅ ∅ None Ref.world0
                   Ref.html_response (bytes_of_string "<html></html>")
                   eq_refl eq_refl) _).
  intros H. vm_compute in H. discriminate H.
Defined.

(** ** publicapi.go: [OHLC] *)

Lemma bind_run {A B} (m : M A) (k : A → M B) (w w' : World) (a : A) :
  m w = (Returned a, w') → bind m k w = k a w'.
Proof. intros H. unfold bind. by rewrite H. Qed.

Lemma queryPublic_run (L : GoLib) (api : KrakenPublic) (method : string)
  (values : Values) (typ : option target) (w : World) :
  queryPublic L api method values typ w
  = doRequest L (public_KrakenClient api) (public_url method) values ∅ typ w.
Proof. reflexivity. Qed.

(** The parameters sent for an empty interval. *)
Lemma OHLC_urlValue_empty (pair : string) (since : Z) :
  ∃ urlValue : Values,
    OHLC_urlValue pair "" since = inl urlValue
    ∧ OHLC_urlValue pair "1" since = inl urlValue
    ∧ urlValue !! "interval" = Some ["1"]
    ∧ Values_Encode urlValue
      = "interval=1&pair=" +:+ QueryEscape pair
          +:+ (if 0 <? since then "&since=" +:+ QueryEscape (pretty since)
               else "").
Proof.
  unfold OHLC_urlValue. destruct (0 <? since); eexists;
    (split; [reflexivity|]); (split; [reflexivity|]);
    (split; [reflexivity|]).
  - change ("&since=" +:+ QueryEscape (pretty since))
      with ("&" +:+ "since=" +:+ QueryEscape (pretty since)).
    rewrite <- (append_assoc (QueryEscape pair) "&").
    vm_compute; reflexivity.
  - rewrite append_nil_r. vm_compute; reflexivity.
Qed.

(** C10.  An interval that is neither empty nor one of the nine supported
    values makes [OHLC] return no response and an error, in the world it
    started in: no request is sent.  The error is the one [fmt.Errorf] makes
    of the text "Unsupported value for Interval: " followed by the interval,
    which it reads as a format.  An empty interval behaves as "1": the
    request that goes out carries [interval=1]. *)
Theorem OHLC_unsupported_interval (L : GoLib) (api : KrakenPublic) (pair interval : string)
  (since : Z) (w : World) :
  (interval ≠ "" →
   interval ∉ ["1"; "5"; "15"; "30"; "60"; "240"; "1440"; "10080"; "21600"] →
   OHLC L api pair interval since w
   = (Returned
        (None,
         Some (fmt_Errorf L ("Unsupported value for Interval: " +:+ interval))),
      w))
  ∧ OHLC L api pair "" since w = OHLC L api pair "1" since w
  ∧ (http_NewRequest_error L "POST" (public_url "OHLC") = None →
     ∃ req : Request,
       sent (snd (OHLC L api pair "" since w)) = sent w ++ [req]
       ∧ req_URL req = public_url "OHLC"
       ∧ req_Body req
         = "interval=1&pair=" +:+ QueryEscape pair
             +:+ (if 0 <? since then "&since=" +:+ QueryEscape (pretty since)
                  else "")).
Proof.
  split; [|split].
  - intros Hne Hnot. unfold OHLC, OHLC_urlValue.
    destruct (String.eqb_spec interval "") as [->|_]; [done|].
    rewrite bool_decide_eq_false_2 by exact Hnot. reflexivity.
  - destruct (OHLC_urlValue_empty pair since) as (u & H0 & H1 & _).
    unfold OHLC. by rewrite H0, H1.
  - intros Hreq.
    destruct (OHLC_urlValue_empty pair since) as (u & H0 & _ & _ & Henc).
    exists (new_request (public_url "OHLC") u ∅).
    split; [|split]; [|reflexivity|exact Henc].
    unfold OHLC. rewrite H0. unfold bind.
    rewrite queryPublic_run, doRequest_run, Hreq. cbn zeta.
    destruct (doRequest_reply L None _) as [[v [e|]] t]; [reflexivity|].
    reflexivity.
Qed.

(** An interval of seven minutes is refused before anything is sent; so
    is an interval that holds a verb, with the text [fmt.Errorf] makes of
    it. *)
Lemma OHLC_unsupported_interval_witness :
  OHLC Ref.lib (Ref.public (Ref.json_response (Ref.envelope "{}")))
    "XXBTZEUR" "7" 0 Ref.world0
  = (Returned
       (None, Some (errorString "Unsupported value for Interval: 7")),
     Ref.world0)
  ∧ OHLC Ref.lib (Ref.public (Ref.json_response (Ref.envelope "{}")))
      "XXBTZEUR" "%d" 0 Ref.world0
    = (Returned
         (None,
          Some (errorString "Unsupported value for Interval: %!d(MISSING)")),
       Ref.world0).
Proof.
  split.
  - rewrite (proj1 (OHLC_unsupported_interval Ref.lib _ "XXBTZEUR" "7" 0
                      Ref.world0)).
    + vm_compute. reflexivity.
    + discriminate.
    + intros H.
      repeat (apply elem_of_cons in H as [H|H]; [discriminate H|]).
      by apply elem_of_nil in H.
  - rewrite (proj1 (OHLC_unsupported_interval Ref.lib _ "XXBTZEUR" "%d" 0
                      Ref.world0)).
    + vm_compute. reflexivity.
    + discriminate.
    + intros H.
      repeat (apply elem_of_cons in H as [H|H]; [discriminate H|]).
      by apply elem_of_nil in H.
Defined.

Lemma candle_number_inl (L : GoLib) (x : json) (z : Z) (i : nat) :
  candle_number x = inl z → i = 0%nat ∨ i = 7%nat →
  candle_field_numeric L i x = true.
Proof.
  destruct x; try discriminate. intros _ Hi. cbn.
  by apply bool_decide_eq_true_2.
Qed.

Lemma candle_float_inl (L : GoLib) (x : json) (f : float64) (i : nat) :
  candle_float L x = inl f → (1 ≤ i ≤ 6)%nat →
  candle_field_numeric L i x = true.
Proof.
  destruct x; try discriminate. cbn. intros H Hi.
  rewrite bool_decide_eq_true_2 by exact Hi.
  by destruct (strconv_ParseFloat L s) as [? [k|]].
Qed.

(** A candle that [NewOHLC] accepts has eight fields, all numeric. *)
Lemma NewOHLC_accepts (L : GoLib) (input : list json) (c : Candle) :
  NewOHLC L input = inl c →
  length input = 8%nat
  ∧ ∀ i x, input !! i = Some x → candle_field_numeric L i x = true.
Proof.
  destruct input as [|t [|o [|h [|l [|cl [|vw [|vol [|cnt [|? ?]]]]]]]]];
    try discriminate.
  unfold NewOHLC, bindE.
  destruct (candle_number t) eqn:Ht; [|discriminate].
  destruct (candle_float L o) eqn:Ho; [|discriminate].
  destruct (candle_float L h) eqn:Hh; [|discriminate].
  destruct (candle_float L l) eqn:Hl; [|discriminate].
  destruct (candle_float L cl) eqn:Hcl; [|discriminate].
  destruct (candle_float L vw) eqn:Hvw; [|discriminate].
  destruct (candle_float L vol) eqn:Hvol; [|discriminate].
  destruct (candle_number cnt) eqn:Hcnt; [|discriminate].
  intros _. split; [reflexivity|].
  intros i x Hx.
  do 8 (destruct i as [|i];
        [injection Hx as <-;
         first [ eapply candle_number_inl; [eassumption | lia]
               | eapply candle_float_inl; [eassumption | lia] ] |]).
  discriminate Hx.
Qed.

(** A candle of the wrong length or with a field that is not numeric is
    rejected by [NewOHLC]. *)
Lemma NewOHLC_rejects (L : GoLib) (input : list json) :
  (length input ≠ 8%nat
   ∨ ∃ i x, input !! i = Some x ∧ candle_field_numeric L i x = false) →
  ∃ err, NewOHLC L input = inr err.
Proof.
  intros Hbad. destruct (NewOHLC L input) as [c|err] eqn:HN; [|eauto].
  apply NewOHLC_accepts in HN as [Hlen Hall].
  destruct Hbad as [Hne | (i & x & Hx & Hfalse)]; [done|].
  rewrite (Hall i x Hx) in Hfalse. discriminate.
Qed.

(** The loop of [OHLC] stops with an error as soon as one candle of the
    list is rejected, whatever was accumulated. *)
Lemma OHLC_loop_rejects (L : GoLib) (candles : list (list json))
  (acc : list Candle) :
  (∃ c, c ∈ candles ∧ ∃ err, NewOHLC L c = inr err) →
  ∃ err, OHLC_loop L (JArray <$> candles) acc = Returned (inr err).
Proof.
  revert acc. induction candles as [|c0 candles IH]; intros acc (c & Hin & Hbad).
  - by apply elem_of_nil in Hin.
  - cbn. destruct (NewOHLC L c0) as [cd|err] eqn:H0; [|eauto].
    apply IH. exists c. split; [|done].
    apply elem_of_cons in Hin as [-> | Hin]; [|done].
    destruct Hbad as [e He]. congruence.
Qed.

(** C9.  When the list the server sent for the pair holds a candle array
    with fewer than eight elements, or with a field that is not numeric,
    [OHLC] returns an error and no response: no partial list, no truncated or
    skipped candle. *)
Theorem OHLC_malformed_candle (L : GoLib) (api : KrakenPublic)
  (pair interval : string) (since : Z) (w w' : World) (urlValue : Values)
  (mapResponse : gmap string json) (candles : list (list json))
  (t : option target) :
  OHLC_urlValue pair interval since = inl urlValue →
  queryPublic L api "OHLC" urlValue None w
  = (Returned (Generic (JObject mapResponse), None, t), w') →
  mapResponse !! pair = Some (JArray (JArray <$> candles)) →
  (∃ c, c ∈ candles
        ∧ ((length c < 8)%nat
           ∨ ∃ i x, c !! i = Some x ∧ candle_field_numeric L i x = false)) →
  ∃ err, OHLC L api pair interval since w = (Returned (None, Some err), w').
Proof.
  intros Hurl Hquery Hpair (c & Hin & Hbad).
  destruct (OHLC_loop_rejects L candles []) as [err Hloop].
  { exists c. split; [done|]. apply NewOHLC_rejects.
    destruct Hbad as [Hlen | Hfield]; [left; lia | by right]. }
  exists err. unfold OHLC. rewrite Hurl.
  rewrite (bind_run _ _ _ _ _ Hquery).
  unfold liftO, assert_map_iface, assert_map, map_index. cbn [bindO].
  rewrite Hpair. cbn [default from_option id assert_slice bindO].
  by rewrite Hloop.
Qed.

(** A list whose second candle was cut short: the whole call fails. *)
Lemma OHLC_malformed_candle_witness :
  ∃ (err : error) (w' : World),
    OHLC Ref.lib (Ref.public (Ref.json_response Ref.ohlc_body))
      "XXBTZEUR" "1" 0 Ref.world0
    = (Returned (None, Some err), w').
Proof.
  cut (∃ (w' : World) (err : error),
         OHLC Ref.lib (Ref.public (Ref.json_response Ref.ohlc_body))
           "XXBTZEUR" "1" 0 Ref.world0
         = (Returned (None, Some err), w')).
  { intros (w' & err & H). by exists err, w'. }
  eexists.
  eapply OHLC_malformed_candle
    with (mapResponse :=
            {[ "XXBTZEUR" :=
                 JArray (JArray <$> [Ref.good_candle; Ref.short_candle]);
               "last" := JNumber 1600000060 ]})
         (candles := [Ref.good_candle; Ref.short_candle]) (t := None).
  - reflexivity.
  - vm_compute. reflexivity.
  - vm_compute. reflexivity.
  - exists Ref.short_candle. split; [|left; cbn; lia].
    apply list_elem_of_further, list_elem_of_here.
Defined.

(** ** publicapi.go: [Trades] *)

(** The loop body of [Trades] on a trade array. *)
Lemma Trades_tradeInfo_array (L : GoLib) (r : trade_fields) :
  Trades_tradeInfo L (trade_array r) = Returned (TradeInfo_of L r).
Proof. reflexivity. Qed.

(** A trade that [Trades] decodes comes from an array that starts with the
    six positional fields. *)
Lemma Trades_tradeInfo_inv (L : GoLib) (v : json) (ti : TradeInfo) :
  Trades_tradeInfo L v = Returned ti →
  ∃ (r : trade_fields) (rest : list json),
    v = JArray (JString (f_price r) :: JString (f_volume r)
                :: JNumber (f_time r) :: JString (f_side r)
                :: JString (f_kind r) :: JString (f_misc r) :: rest)
    ∧ ti = TradeInfo_of L r.
Proof.
  unfold Trades_tradeInfo.
  destruct v as [| | | |trade|]; try discriminate. cbn [assert_slice bindO].
  destruct trade as [|t0 [|t1 [|t2 [|t3 [|t4 [|t5 rest]]]]]]; try discriminate;
    cbn [slice_index lookup list_lookup bindO];
    destruct t0; try discriminate; cbn [assert_string bindO];
    try (destruct t1; try discriminate; cbn [assert_string bindO]);
    try (destruct t2; try discriminate; cbn [assert_float64 bindO]);
    try (destruct t3; try discriminate; cbn [assert_string bindO]);
    try (destruct t4; try discriminate; cbn [assert_string bindO]);
    try discriminate.
  destruct t5; try discriminate. cbn [assert_string bindO].
  intros [= <-].
  by exists {| f_price := s; f_volume := s0; f_time := f; f_side := s1;
               f_kind := s2; f_misc := s3 |}, rest.
Qed.

Lemma Trades_loop_Forall2 (L : GoLib) (trades : list json)
  (acc infos : list TradeInfo) :
  Trades_loop L trades acc = Returned infos →
  ∃ new, infos = acc ++ new
         ∧ Forall2 (fun v ti => Trades_tradeInfo L v = Returned ti) trades new.
Proof.
  revert acc. induction trades as [|v trades IH]; intros acc; cbn.
  - intros [= <-]. exists []. by rewrite app_nil_r.
  - destruct (Trades_tradeInfo L v) as [ti|] eqn:Hv; [|discriminate].
    cbn. intros H. apply IH in H as (new & -> & Hall).
    exists (ti :: new). split; [by rewrite <- app_assoc|].
    by constructor.
Qed.

Lemma Trades_loop_arrays (L : GoLib) (rows : list trade_fields)
  (acc : list TradeInfo) :
  Trades_loop L (trade_array <$> rows) acc
  = Returned (acc ++ (TradeInfo_of L <$> rows)).
Proof.
  revert acc. induction rows as [|r rows IH]; intros acc.
  - cbn. by rewrite app_nil_r.
  - cbn [fmap list_fmap Trades_loop]. rewrite Trades_tradeInfo_array.
    cbn [bindO]. rewrite IH. by rewrite <- app_assoc.
Qed.

(** What a successful call of [Trades] was given by the server. *)
Lemma Trades_inv (L : GoLib) (api : KrakenPublic) (pair : string) (since : Z)
  (w w' : World) (resp : TradesResponse) :
  Trades L api pair since w = (Returned (Some resp, None), w') →
  ∃ (v : gmap string json) (t : option target) (trades : list json),
    queryPublic L api "Trades" (Trades_values pair since) None w
    = (Returned (Generic (JObject v), None, t), w')
    ∧ v !! pair = Some (JArray trades)
    ∧ Forall2 (fun j ti => Trades_tradeInfo L j = Returned ti) trades
        (TradesResponse_Trades resp).
Proof.
  unfold Trades. cbn zeta. unfold bind.
  destruct (queryPublic L api "Trades" _ None w) as [[[[r e] t]|msg] w1] eqn:Hq;
    [|discriminate].
  destruct e as [e|]; [discriminate|].
  unfold liftO, assert_map_iface.
  destruct r as [[| | | | |v]|]; try discriminate.
  cbn [assert_map bindO]. unfold map_index.
  destruct (v !! "last") as [[| | |lastString| |]|] eqn:Hlast; try discriminate.
  cbn [default from_option id assert_string bindO].
  destruct (strconv_ParseInt L lastString) as [last [k|]]; [discriminate|].
  destruct (v !! pair) as [[| | | |trades|]|] eqn:Hpair; try discriminate.
  cbn [default from_option id assert_slice bindO].
  destruct (Trades_loop L trades []) as [infos|] eqn:Hloop; [|discriminate].
  cbn [bindO]. intros [= <- <-].
  apply Trades_loop_Forall2 in Hloop as (new & -> & Hall).
  exists v, t, trades. by rewrite Hpair.
Qed.

Lemma TradeInfo_of_sides (L : GoLib) (r : trade_fields) :
  Buy (TradeInfo_of L r) && Sell (TradeInfo_of L r) = false
  ∧ Market (TradeInfo_of L r) && Limit (TradeInfo_of L r) = false
  ∧ (xorb (Buy (TradeInfo_of L r)) (Sell (TradeInfo_of L r)) = true
     ↔ f_side r = "b" ∨ f_side r = "s")
  ∧ (xorb (Market (TradeInfo_of L r)) (Limit (TradeInfo_of L r)) = true
     ↔ f_kind r = "m" ∨ f_kind r = "l").
Proof.
  cbn [TradeInfo_of Buy Sell Market Limit].
  destruct (String.eqb_spec (f_side r) "b") as [Hb|Hb],
           (String.eqb_spec (f_side r) "s") as [Hs|Hs],
           (String.eqb_spec (f_kind r) "m") as [Hm|Hm],
           (String.eqb_spec (f_kind r) "l") as [Hl|Hl];
    try (rewrite Hb in Hs; discriminate Hs);
    try (rewrite Hm in Hl; discriminate Hl);
    cbn; repeat split; intros; try discriminate; try tauto.
Qed.

(** C3, as amended.  For every trade decoded by [Trades], the fields [Buy]
    and [Sell] are never both true and the fields [Market] and [Limit] are
    never both true; exactly one of [Buy] and [Sell] is true precisely when
    position 3 of the trade array is "b" or "s", and exactly one of [Market]
    and [Limit] precisely when position 4 is "m" or "l".  The array
    ["4000.0", "0.5", 1600000000.0, "b", "m", "text"] decodes to price 4000,
    volume 0.5, buy and market true, sell and limit false. *)
Theorem Trades_sides :
  (∀ (L : GoLib) (api : KrakenPublic) (pair : string) (since : Z)
     (w w' : World) (resp : TradesResponse),
     Trades L api pair since w = (Returned (Some resp, None), w') →
     Forall (fun ti => Buy ti && Sell ti = false
                       ∧ Market ti && Limit ti = false)
       (TradesResponse_Trades resp)
     ∧ ∃ (v : gmap string json) (t : option target) (trades : list json),
         queryPublic L api "Trades" (Trades_values pair since) None w
         = (Returned (Generic (JObject v), None, t), w')
         ∧ v !! pair = Some (JArray trades)
         ∧ Forall2
             (fun j ti =>
                ∃ (r : trade_fields) (rest : list json),
                  j = JArray (JString (f_price r) :: JString (f_volume r)
                              :: JNumber (f_time r) :: JString (f_side r)
                              :: JString (f_kind r) :: JString (f_misc r)
                              :: rest)
                  ∧ ti = TradeInfo_of L r
                  ∧ (xorb (Buy ti) (Sell ti) = true
                     ↔ f_side r = "b" ∨ f_side r = "s")
                  ∧ (xorb (Market ti) (Limit ti) = true
                     ↔ f_kind r = "m" ∨ f_kind r = "l"))
             trades (TradesResponse_Trades resp))
  ∧ Trades_tradeInfo Ref.lib (trade_array Ref.example_trade)
    = Returned {| Price := "4000.0"; PriceFloat := 4000.0;
                  Volume := "0.5"; VolumeFloat := 0.5;
                  Time := 1600000000;
                  Buy := true; Sell := false; Market := true; Limit := false;
                  Miscellaneous := "text" |}.
Proof.
  split; [|vm_compute; reflexivity].
  intros L api pair since w w' resp H.
  apply Trades_inv in H as (v & t & trades & Hq & Hpair & Hall).
  assert (Hinv : Forall2
            (fun j ti =>
               ∃ (r : trade_fields) (rest : list json),
                 j = JArray (JString (f_price r) :: JString (f_volume r)
                             :: JNumber (f_time r) :: JString (f_side r)
                             :: JString (f_kind r) :: JString (f_misc r)
                             :: rest)
                 ∧ ti = TradeInfo_of L r
                 ∧ (xorb (Buy ti) (Sell ti) = true
                    ↔ f_side r = "b" ∨ f_side r = "s")
                 ∧ (xorb (Market ti) (Limit ti) = true
                    ↔ f_kind r = "m" ∨ f_kind r = "l"))
            trades (TradesResponse_Trades resp)).
  { eapply Forall2_impl; [exact Hall|].
    intros j ti Hj. apply Trades_tradeInfo_inv in Hj as (r & rest & -> & ->).
    exists r, rest. split; [done|]. split; [done|].
    apply TradeInfo_of_sides. }
  split; [|by exists v, t, trades].
  clear Hall Hpair Hq.
  induction Hinv as [|j ti trades' infos Hj _ IH]; constructor; [|exact IH].
  destruct Hj as (r & rest & _ & -> & _).
  pose proof (TradeInfo_of_sides L r) as (H1 & H2 & _). by split.
Qed.

(** The example of the specification, decoded from the body the server
    sends for the pair. *)
Lemma Trades_sides_witness :
  Forall (fun ti => Buy ti && Sell ti = false ∧ Market ti && Limit ti = false)
    [TradeInfo_of Ref.lib Ref.example_trade].
Proof.
  refine (proj1 (proj1 Trades_sides Ref.lib
    (Ref.public (Ref.json_response
       (Ref.trades_body (Ref.trade_text "4000.0" "0.5" "b" "m"))))
    "XXBTZEUR" 0 Ref.world0 _
    {| TradesResponse_Last := 1600000000000000000;
       TradesResponse_Trades := [TradeInfo_of Ref.lib Ref.example_trade] |} _)).
  vm_compute. reflexivity.
Defined.

(** A trade whose side is neither "b" nor "s" is decoded with [Buy] and
    [Sell] both false. *)
Lemma Trades_neither_buy_nor_sell :
  ∃ (ti : TradeInfo) (w' : World),
    Trades Ref.lib
      (Ref.public (Ref.json_response
         (Ref.trades_body (Ref.trade_text "4000.0" "0.5" "x" "m"))))
      "XXBTZEUR" 0 Ref.world0
    = (Returned (Some {| TradesResponse_Last := 1600000000000000000;
                         TradesResponse_Trades := [ti] |}, None), w')
    ∧ Buy ti = false ∧ Sell ti = false.
Proof. eexists _, _. split; [vm_compute; reflexivity|]. split; reflexivity. Qed.

Lemma Ref_ParseFloat_syntax (s : string) :
  snd (Ref.ParseFloat s) = Some ErrSyntax → fst (Ref.ParseFloat s) = 0%float.
Proof.
  unfold Ref.ParseFloat.
  destruct (Ref.special s); [discriminate|].
  destruct (Ref.readFloat s) as [[[[neg hex] m] e]|]; [|reflexivity].
  destruct (m =? 0); [discriminate|].
  destruct ((if hex then Ref.round_binary else Ref.round_decimal) neg m e);
    discriminate.
Qed.

(** C6, as amended.  When the server sends well-shaped trade arrays,
    [Trades] succeeds whatever [ParseFloat] makes of the price and volume
    strings: each trade keeps its raw strings, and its numeric price and
    volume are the values [ParseFloat] returns beside its error, with no
    separate error path for either.  That value is zero for a string that is
    not the syntax of a float; for a literal out of range it is an
    infinity. *)
Theorem Trades_parse_errors_dropped :
  (∀ (L : GoLib) (api : KrakenPublic) (pair : string) (since : Z)
     (w w' : World) (v : gmap string json) (t : option target)
     (lastString : string) (last : Z) (rows : list trade_fields),
     queryPublic L api "Trades" (Trades_values pair since) None w
     = (Returned (Generic (JObject v), None, t), w') →
     v !! "last" = Some (JString lastString) →
     strconv_ParseInt L lastString = (last, None) →
     v !! pair = Some (JArray (trade_array <$> rows)) →
     Trades L api pair since w
     = (Returned (Some {| TradesResponse_Last := last;
                          TradesResponse_Trades := TradeInfo_of L <$> rows |},
                  None), w')
     ∧ Forall (fun r =>
                 Volume (TradeInfo_of L r) = f_volume r
                 ∧ VolumeFloat (TradeInfo_of L r)
                   = fst (strconv_ParseFloat L (f_volume r))
                 ∧ Price (TradeInfo_of L r) = f_price r
                 ∧ PriceFloat (TradeInfo_of L r)
                   = fst (strconv_ParseFloat L (f_price r))) rows)
  ∧ (∀ s : string, snd (strconv_ParseFloat Ref.lib s) = Some ErrSyntax →
                   fst (strconv_ParseFloat Ref.lib s) = 0%float)
  ∧ strconv_ParseFloat Ref.lib "1e999" = (infinity, Some ErrRange).
Proof.
  split; [|split; [exact Ref_ParseFloat_syntax | vm_compute; reflexivity]].
  intros L api pair since w w' v t lastString last rows Hq Hlast Hint Hpair.
  split; [|by apply Forall_forall].
  unfold Trades. cbn zeta. rewrite (bind_run _ _ _ _ _ Hq).
  unfold liftO, assert_map_iface, map_index. cbn [assert_map bindO].
  rewrite Hlast. cbn [default from_option id assert_string bindO].
  rewrite Hint, Hpair. cbn [default from_option id assert_slice bindO].
  rewrite Trades_loop_arrays. reflexivity.
Qed.

(** A volume that is no float at all: the call succeeds, the raw string
    is kept and the numeric volume is zero. *)
Lemma Trades_parse_errors_dropped_witness :
  ∃ w' : World,
    Trades Ref.lib
      (Ref.public (Ref.json_response
         (Ref.trades_body (Ref.trade_text "4000.0" "n/a" "s" "l"))))
      "XXBTZEUR" 0 Ref.world0
    = (Returned
         (Some {| TradesResponse_Last := 1600000000000000000;
                  TradesResponse_Trades :=
                    [{| Price := "4000.0"; PriceFloat := 4000.0;
                        Volume := "n/a"; VolumeFloat := 0;
                        Time := 1600000000;
                        Buy := false; Sell := true;
                        Market := false; Limit := true;
                        Miscellaneous := "text" |}] |},
          None), w').
Proof.
  eexists.
  refine (proj1 (proj1 Trades_parse_errors_dropped Ref.lib _ "XXBTZEUR" 0
                   Ref.world0 _
                   {[ "XXBTZEUR" :=
                        JArray [trade_array
                                  {| f_price := "4000.0"; f_volume := "n/a";
                                     f_time := 1600000000; f_side := "s";
                                     f_kind := "l"; f_misc := "text" |}];
                      "last" := JString "1600000000000000000" ]}
                   None "1600000000000000000" 1600000000000000000
                   [{| f_price := "4000.0"; f_volume := "n/a";
                       f_time := 1600000000; f_side := "s";
                       f_kind := "l"; f_misc := "text" |}] _ _ _ _));
    vm_compute; reflexivity.
Defined.

(** A volume out of the range of [float64] does not parse, and the trade
    is decoded with an infinite volume, not zero. *)
Lemma Trades_volume_out_of_range :
  snd (strconv_ParseFloat Ref.lib "1e999") = Some ErrRange
  ∧ ∃ (ti : TradeInfo) (w' : World),
      Trades Ref.lib
        (Ref.public (Ref.json_response
           (Ref.trades_body (Ref.trade_text "4000.0" "1e999" "b" "m"))))
        "XXBTZEUR" 0 Ref.world0
      = (Returned (Some {| TradesResponse_Last := 1600000000000000000;
                           TradesResponse_Trades := [ti] |}, None), w')
      ∧ Volume ti = "1e999"
      ∧ VolumeFloat ti = infinity
      ∧ VolumeFloat ti ≠ 0%float.
Proof.
  split; [vm_compute; reflexivity|].
  eexists _, _. split; [vm_compute; reflexivity|].
  split; [reflexivity|]. split; [reflexivity|].
  cbn. intros H. apply (f_equal Prim2SF) in H. vm_compute in H. discriminate H.
Qed.

(** ** privateapi.go: [queryPrivate] and [Balance] *)

(** One run of [queryPrivate]: the clock is read, the nonce set, the
    request signed with whatever bytes the secret decoded to, and
    [doRequest] called. *)
Lemma queryPrivate_run (L : GoLib) (api : KrakenPrivate) (method : string)
  (values : Values) (typ : option target) (w : World) :
  queryPrivate L api method values typ w
  = let values' := Values_Set values "nonce" (pretty (now w)) in
    doRequest L (private_KrakenClient api) (APIURL +:+ private_path method)
      values'
      (<["API-Sign" := createSignature L (private_path method) values'
                         (fst (base64_DecodeString L (secret api)))]>
         {[ "API-Key" := key api ]})
      typ w.
Proof. reflexivity. Qed.

(** C7.  When the secret is not valid base64, [queryPrivate] behaves as
    if the decoder had reported no error: the failure is ignored.  The
    request carries under API-Sign the signature of the specification
    (base64 of HMAC-SHA-512, keyed with the bytes that were decoded, over the
    path followed by the SHA-256 of the nonce and the body sent); it is
    handed to the transport, and the reply is what [doRequest] makes of the
    transport's answer. *)
Theorem queryPrivate_bad_secret (L : GoLib) (api : KrakenPrivate)
  (method : string) (values : Values) (typ : option target) (w : World)
  (e : string) :
  snd (base64_DecodeString L (secret api)) = Some e →
  let decoded := fst (base64_DecodeString L (secret api)) in
  let req := private_request L api method values decoded (now w) in
  queryPrivate L api method values typ w
  = queryPrivate
      (with_DecodeString L (fun s => (fst (base64_DecodeString L s), None)))
      api method values typ w
  ∧ Values_Get (req_Header req) "API-Sign"
    = sign_spec L (private_path method) (req_Body req) (pretty (now w)) decoded
  ∧ req_Body req = Values_Encode (<["nonce" := [pretty (now w)]]> values)
  ∧ (http_NewRequest_error L "POST" (APIURL +:+ private_path method) = None →
     queryPrivate L api method values typ w
     = (Returned
          (doRequest_reply L typ
             (client (private_KrakenClient api) (sent w) req)),
        sending w req)).
Proof.
  intros _ decoded req. split; [reflexivity|]. split; [|split].
  - assert (Hget : Values_Get (req_Header req) "API-Sign"
                   = createSignature L (private_path method)
                       (Values_Set values "nonce" (pretty (now w))) decoded).
    { unfold req, private_request, new_request, request_header.
      cbn [req_Header]. vm_compute. reflexivity. }
    rewrite Hget. unfold req, private_request, new_request. cbn [req_Body].
    unfold createSignature, sign_spec, getSha256, getHMacSha512.
    rewrite bytes_of_string_app, Values_Get_Set. reflexivity.
  - reflexivity.
  - intros Hreq. rewrite queryPrivate_run. cbn zeta.
    rewrite doRequest_run, Hreq. reflexivity.
Qed.

(** A secret that is not base64: the request still goes out, signed. *)
Lemma queryPrivate_bad_secret_witness :
  ∃ w' : World,
    queryPrivate Ref.lib
      (Ref.private "not base64!" (Ref.json_response Ref.balance_body))
      "Balance" ∅ (Some (StringMap ∅)) Ref.world0
    = (Returned
         (Pointer, None,
          Some (StringMap {[ "ZUSD" := "100.5000"; "XXBT" := "0.0010" ]})),
       w')
    ∧ length (sent w') = 1%nat.
Proof.
  eexists.
  pose proof (queryPrivate_bad_secret Ref.lib
                (Ref.private "not base64!"
                   (Ref.json_response Ref.balance_body))
                "Balance" ∅ (Some (StringMap ∅)) Ref.world0
                "illegal base64 data at input byte 3" eq_refl)
    as (_ & _ & _ & Hrun).
  rewrite (Hrun eq_refl). split; [vm_compute; reflexivity | reflexivity].
Defined.

Lemma Balance_loop_ok (L : GoLib) (entries : list (string * string))
  (balances : Balances) :
  NoDup entries.*1 →
  (∀ k v, (k, v) ∈ entries → snd (strconv_ParseFloat L v) = None) →
  Balance_loop L entries balances
  = (Some (list_to_map
             (prod_map id (fun v => fst (strconv_ParseFloat L v)) <$> entries)
           ∪ balances), None).
Proof.
  revert balances.
  induction entries as [|[k v] entries IH]; intros balances Hnd Hok.
  - cbn. by rewrite (left_id_L ∅ (∪)).
  - cbn [Balance_loop].
    pose proof (Hok k v (list_elem_of_here _ _)) as Hv.
    destruct (strconv_ParseFloat L v) as [f err] eqn:Hf. cbn in Hv.
    subst err. apply NoDup_cons in Hnd as [Hk Hnd].
    rewrite IH; [|done|intros k' v' Hin; apply (Hok k'); by right].
    cbn [fmap list_fmap prod_map fst snd list_to_map foldr uncurry id].
    rewrite Hf. cbn [fst]. f_equal. f_equal.
    rewrite <- insert_union_l. rewrite insert_union_r; [done|].
    apply not_elem_of_list_to_map_1.
    rewrite <- list_fmap_compose.
    by replace (fst ∘ prod_map id (fun v0 => (strconv_ParseFloat L v0).1))
      with (@fst string string) by reflexivity.
Qed.

Lemma Balance_loop_error (L : GoLib) (entries : list (string * string))
  (balances : Balances) :
  (∃ k v, (k, v) ∈ entries ∧ snd (strconv_ParseFloat L v) ≠ None) →
  ∃ err, Balance_loop L entries balances = (None, Some err).
Proof.
  revert balances.
  induction entries as [|[k0 v0] entries IH]; intros balances (k & v & Hin & Hbad).
  - by apply elem_of_nil in Hin.
  - cbn [Balance_loop].
    destruct (strconv_ParseFloat L v0) as [f [kind|]] eqn:Hf; [eauto|].
    apply IH. exists k, v. split; [|done].
    apply elem_of_cons in Hin as [[= -> ->] | Hin]; [|done].
    rewrite Hf in Hbad. done.
Qed.

(** Storing the members of a flat object of strings: with keys that are
    not repeated, the map holds every member. *)
Lemma unmarshal_StringMap_members (field : option string)
  (entries : list (string * string)) (cur : gmap string string) :
  NoDup entries.*1 →
  decode_members
    (fun m k v =>
       match unmarshal_string field v with
       | inl s => inl (<[k := s]> m)
       | inr e => inr e
       end)
    (prod_map id DString <$> entries) cur
  = inl (list_to_map entries ∪ cur).
Proof.
  revert cur. induction entries as [|[k v] entries IH]; intros cur Hnd.
  - cbn. by rewrite (left_id_L ∅ (∪)).
  - apply NoDup_cons in Hnd as [Hk Hnd].
    cbn [fmap list_fmap prod_map fst snd id decode_members unmarshal_string].
    rewrite (IH _ Hnd). f_equal.
    cbn [list_to_map foldr uncurry].
    rewrite <- insert_union_l. rewrite insert_union_r; [done|].
    by apply not_elem_of_list_to_map_1.
Qed.

(** A flat JSON object of strings lands behind the pointer as it is. *)
Lemma unmarshal_StringMap_flat (field : option string)
  (assets : gmap string string) :
  unmarshal_StringMap field
    (DObject (prod_map id DString <$> map_to_list assets)) ∅
  = inl assets.
Proof.
  unfold unmarshal_StringMap.
  rewrite unmarshal_StringMap_members by apply NoDup_fst_map_to_list.
  by rewrite (right_id_L ∅ (∪)), list_to_map_to_list.
Qed.

(** C5.  [Balance] reads a flat map from asset code to string-encoded
    float.  When every value parses, the result holds every asset with its
    parsed value and nothing else; when some value does not parse, the call
    returns an error and no balances at all. *)
Theorem Balance_all_or_nothing (L : GoLib) (api : KrakenPrivate)
  (w w' : World) (assets : gmap string string) :
  queryPrivate L api "Balance" ∅ (Some (StringMap ∅)) w
  = (Returned (Pointer, None, Some (StringMap assets)), w') →
  unmarshal_target L (DObject (prod_map id DString <$> map_to_list assets))
    (StringMap ∅)
  = inl (StringMap assets)
  ∧ ((∀ k v, assets !! k = Some v → snd (strconv_ParseFloat L v) = None) →
     Balance L api w
     = (Returned (Some ((fun v => fst (strconv_ParseFloat L v)) <$> assets),
                  None), w'))
  ∧ ((∃ k v, assets !! k = Some v ∧ snd (strconv_ParseFloat L v) ≠ None) →
     ∃ err, Balance L api w = (Returned (None, Some err), w')).
Proof.
  intros Hq. split; [|split].
  - cbn [unmarshal_target]. by rewrite unmarshal_StringMap_flat.
  - intros Hok. unfold Balance. rewrite (bind_run _ _ _ _ _ Hq).
    unfold liftO. cbn [assert_StringMap bindO].
    rewrite Balance_loop_ok.
    + rewrite (right_id_L ∅ (∪)), list_to_map_fmap, list_to_map_to_list.
      reflexivity.
    + apply NoDup_fst_map_to_list.
    + intros k v Hin. apply (Hok k). by apply elem_of_map_to_list.
  - intros (k & v & Hk & Hbad). unfold Balance.
    rewrite (bind_run _ _ _ _ _ Hq). unfold liftO.
    cbn [assert_StringMap bindO].
    destruct (Balance_loop_error L (map_to_list assets) ∅) as [err Herr].
    { exists k, v. split; [|done]. by apply elem_of_map_to_list. }
    exists err. by rewrite Herr.
Qed.

(** The balances of the specification's example. *)
Lemma Balance_all_or_nothing_witness :
  ∃ w' : World,
    Balance Ref.lib
      (Ref.private "c2VjcmV0" (Ref.json_response Ref.balance_body))
      Ref.world0
    = (Returned (Some {[ "ZUSD" := 100.5%float; "XXBT" := 0.001%float ]}, None),
       w').
Proof.
  eexists. etrans.
  - refine (proj1 (proj2 (Balance_all_or_nothing Ref.lib
                            (Ref.private "c2VjcmV0"
                               (Ref.json_response Ref.balance_body))
                            Ref.world0 _
                            {[ "ZUSD" := "100.5000"; "XXBT" := "0.0010" ]} _))
              _).
    + vm_compute. reflexivity.
    + intros k v Hk.
      apply lookup_insert_Some in Hk as [[_ <-] | [_ Hk]];
        [vm_compute; reflexivity|].
      apply lookup_singleton_Some in Hk as [_ <-]. vm_compute; reflexivity.
  - vm_compute. reflexivity.
Defined.

(** ** encoding/json: keys, fields and members *)

(** A key that names a field starts with the first letter of the name, in
    either case, when that letter is neither s nor k. *)
Lemma equalFold_head (c : ascii) (name key : string) :
  equalFold (String c name) key = true →
  upper c ≠ "S"%char → upper c ≠ "K"%char →
  ∃ d key', key = String d key' ∧ upper c = upper d.
Proof.
  destruct key as [|d key']; [discriminate|]. cbn [equalFold].
  intros H HS HK. exists d, key'. split; [done|].
  destruct (N_of_ascii d <? 128)%N.
  - apply andb_prop in H as [H _]. by apply Ascii.eqb_eq in H.
  - apply Ascii.eqb_neq in HS, HK.
    destruct key' as [|d1 key1]; [discriminate|].
    rewrite HS in H. cbn [andb] in H.
    destruct key1 as [|d2 key2]; [discriminate|].
    rewrite HK in H. discriminate.
Qed.

(** No key names both sides of a book. *)
Lemma equalFold_asks_bids (k : string) :
  equalFold "asks" k = true → equalFold "bids" k = false.
Proof.
  intros Ha. destruct (equalFold "bids" k) eqn:Hb; [|done].
  apply equalFold_head in Ha as (d & k' & -> & Hd);
    [|intros H; vm_compute in H; discriminate H ..].
  apply equalFold_head in Hb as (d' & k'' & [= <- <-] & Hd');
    [|intros H; vm_compute in H; discriminate H ..].
  rewrite <- Hd in Hd'. vm_compute in Hd'. discriminate Hd'.
Qed.

Lemma list_traverse_inl {A B} (f : A → B + string) (l : list A) (l' : list B) :
  list_traverse f l = inl l' → Forall2 (fun a b => f a = inl b) l l'.
Proof.
  revert l'. induction l as [|a l IH]; intros l'; cbn.
  - intros [= <-]. constructor.
  - destruct (f a) as [b|e] eqn:Ha; [|discriminate].
    destruct (list_traverse f l) as [bs|e]; [|discriminate].
    intros [= <-]. constructor; [done | by apply IH].
Qed.

(** What holds before the members of an object are decoded and is kept by
    every member that is decoded holds of the result. *)
Lemma decode_members_inv {S} (P : S → Prop)
  (member : S → string → document → S + string)
  (members : list (string * document)) (s s' : S) :
  decode_members member members s = inl s' →
  P s →
  (∀ s0 k v s1, (k, v) ∈ members → P s0 → member s0 k v = inl s1 → P s1) →
  P s'.
Proof.
  revert s. induction members as [|[k v] members IH]; intros s; cbn.
  - by intros [= <-].
  - destruct (member s k v) as [s1|e] eqn:Hm; [|discriminate].
    intros Hrest Hs Hstep. apply (IH s1 Hrest).
    + apply (Hstep s k v); [apply list_elem_of_here | done | done].
    + intros s0 k0 v0 s2 Hin. apply Hstep. by apply list_elem_of_further.
Qed.

(** ** publicapi.go: [Depth] *)

Lemma unmarshal_side_levels (L : GoLib) (field : string) (v : document)
  (items : list OrderBookItem) :
  unmarshal_side L field v = inl items →
  Forall2 (fun lv item => unmarshal_OrderBookItem L lv = inl item)
    (levels_of (Some v)) items.
Proof.
  unfold unmarshal_side, levels_of.
  destruct v as [| | | |l|]; try discriminate.
  - intros [= <-]. constructor.
  - apply list_traverse_inl.
Qed.

(** The sides of a book after its members: each holds the levels of the
    last member that names it. *)
Lemma OrderBook_members_levels (L : GoLib) (members : list (string * document))
  (acc book : OrderBook) (asks bids : option document) :
  decode_members (OrderBook_member L) members acc = inl book →
  Forall2 (fun lv item => unmarshal_OrderBookItem L lv = inl item)
    (levels_of asks) (Asks acc) →
  Forall2 (fun lv item => unmarshal_OrderBookItem L lv = inl item)
    (levels_of bids) (Bids acc) →
  Forall2 (fun lv item => unmarshal_OrderBookItem L lv = inl item)
    (levels_of (field_sent "asks" members asks)) (Asks book)
  ∧ Forall2 (fun lv item => unmarshal_OrderBookItem L lv = inl item)
      (levels_of (field_sent "bids" members bids)) (Bids book).
Proof.
  revert acc asks bids.
  induction members as [|[k v] members IH]; intros acc asks bids.
  - cbn. by intros [= <-].
  - cbn [decode_members field_sent]. unfold OrderBook_member.
    destruct (equalFold "asks" k) eqn:Ha.
    + rewrite (equalFold_asks_bids _ Ha).
      destruct (unmarshal_side L "asks" v) as [items|e] eqn:Hside;
        [|discriminate].
      intros Hrest Hasks Hbids. apply (IH _ _ _ Hrest); [|done].
      by apply unmarshal_side_levels in Hside.
    + destruct (equalFold "bids" k) eqn:Hb.
      * destruct (unmarshal_side L "bids" v) as [items|e] eqn:Hside;
          [|discriminate].
        intros Hrest Hasks Hbids. apply (IH _ _ _ Hrest); [done|].
        by apply unmarshal_side_levels in Hside.
      * intros Hrest Hasks Hbids. by apply (IH _ _ _ Hrest).
Qed.

(** The levels of a decoded side are the levels sent, one by one and in
    the order sent. *)
Lemma unmarshal_OrderBook_levels (L : GoLib) (d : document) (book : OrderBook) :
  unmarshal_OrderBook L d = inl book →
  Forall2 (fun lv item => unmarshal_OrderBookItem L lv = inl item)
    (levels_sent "asks" d) (Asks book)
  ∧ Forall2 (fun lv item => unmarshal_OrderBookItem L lv = inl item)
      (levels_sent "bids" d) (Bids book).
Proof.
  unfold unmarshal_OrderBook, levels_sent.
  destruct d as [| | | | |members]; try discriminate.
  - intros [= <-]. split; constructor.
  - intros H.
    apply (OrderBook_members_levels L members _ _ None None H); constructor.
Qed.

(** A book of the decoded map was there before, or was decoded from a
    member of the object under the same key. *)
Lemma unmarshal_DepthResponse_inv (L : GoLib) (d : document)
  (cur m : gmap string OrderBook) (pair : string) (book : OrderBook) :
  unmarshal_DepthResponse L d cur = inl m →
  m !! pair = Some book →
  cur !! pair = Some book
  ∨ ∃ members sentbook,
      d = DObject members ∧ (pair, sentbook) ∈ members
      ∧ unmarshal_OrderBook L sentbook = inl book.
Proof.
  unfold unmarshal_DepthResponse.
  destruct d as [| | | | |members]; try discriminate.
  { intros [= <-]. by rewrite lookup_empty. }
  intros Hdec Hm.
  cut (cur !! pair = Some book
       ∨ ∃ sentbook, (pair, sentbook) ∈ members
                     ∧ unmarshal_OrderBook L sentbook = inl book).
  { intros [?|(sb & ? & ?)]; [by left | right; by exists members, sb]. }
  revert Hm.
  apply (decode_members_inv
           (fun m : gmap string OrderBook =>
              m !! pair = Some book →
              cur !! pair = Some book
              ∨ ∃ sentbook, (pair, sentbook) ∈ members
                            ∧ unmarshal_OrderBook L sentbook = inl book)
           _ _ _ _ Hdec).
  - by left.
  - intros m0 k v m1 Hin Hm0.
    destruct (unmarshal_OrderBook L v) as [b|e] eqn:Hb; [|discriminate].
    intros [= <-] Hlook.
    destruct (decide (k = pair)) as [->|Hne].
    + rewrite lookup_insert_eq in Hlook. injection Hlook as ->.
      right. by exists v.
    + rewrite lookup_insert_ne in Hlook by done. by apply Hm0.
Qed.

(** A book behind the pointer after the envelope was decoded was there
    before, or was decoded from a member of an object that the document
    holds under a key that names the result. *)
Lemma Unmarshal_KrakenResponse_books (L : GoLib)
  (members : list (string * document))
  (s s' : KrakenResponse * option target) (pair : string) (book : OrderBook) :
  decode_members (KrakenResponse_member L) members s = inl s' →
  deref_DepthResponse s'.2 !! pair = Some book →
  deref_DepthResponse s.2 !! pair = Some book
  ∨ ∃ kr result sentbook,
      (kr, DObject result) ∈ members ∧ equalFold "result" kr = true
      ∧ (pair, sentbook) ∈ result
      ∧ unmarshal_OrderBook L sentbook = inl book.
Proof.
  intros Hdec. revert s' Hdec.
  cut (∀ s', decode_members (KrakenResponse_member L) members s = inl s' →
             (fun s' : KrakenResponse * option target =>
                deref_DepthResponse s'.2 !! pair = Some book →
                deref_DepthResponse s.2 !! pair = Some book
                ∨ ∃ kr result sentbook,
                    (kr, DObject result) ∈ members
                    ∧ equalFold "result" kr = true
                    ∧ (pair, sentbook) ∈ result
                    ∧ unmarshal_OrderBook L sentbook = inl book) s').
  { intros H s' Hdec. exact (H s' Hdec). }
  intros s' Hdec. apply (decode_members_inv _ _ _ _ _ Hdec); [by left|].
  intros [jsonData typ] k v s1 Hin IH. unfold KrakenResponse_member.
  cbn [fst snd].
  destruct (equalFold "error" k).
  { destruct (unmarshal_strings _ v); [|discriminate]. by intros [= <-]. }
  destruct (equalFold "result" k) eqn:Hk; [|by intros [= <-]].
  unfold unmarshal_Result.
  destruct (Result jsonData) as [j|]; [by intros [= <-]|].
  destruct typ as [t|]; [|by intros [= <-]].
  destruct (unmarshal_target L v t) as [t'|e] eqn:Ht.
  2:{ destruct v; [by intros [= <-] | discriminate ..]. }
  assert (Hs1 : s1 = ({| Error := Error jsonData; Result := nil_iface |}, Some t)
                ∨ s1 = ({| Error := Error jsonData; Result := Pointer |}, Some t')
                → deref_DepthResponse s1.2 !! pair = Some book →
                  deref_DepthResponse (Some t) !! pair = Some book
                  ∨ ∃ result sentbook,
                      v = DObject result ∧ (pair, sentbook) ∈ result
                      ∧ unmarshal_OrderBook L sentbook = inl book).
  { intros [-> | ->]; [by left|]. cbn [snd].
    destruct t as [cur|cur]; cbn [unmarshal_target] in Ht.
    - destruct (unmarshal_StringMap _ v cur); [|discriminate].
      injection Ht as <-. cbn. by rewrite lookup_empty.
    - destruct (unmarshal_DepthResponse L v cur) as [m|] eqn:Hm; [|discriminate].
      injection Ht as <-. cbn [deref_DepthResponse]. intros Hlook.
      destruct (unmarshal_DepthResponse_inv _ _ _ _ _ _ Hm Hlook)
        as [?|(result & sb & -> & ? & ?)]; [by left|].
      right. by exists result, sb. }
  intros Hs1' Hlook.
  destruct (Hs1 (ltac:(destruct v; injection Hs1' as <-; auto)) Hlook)
    as [Hold | (result & sb & -> & Hsb & Hb)].
  - by apply IH.
  - right. by exists k, result, sb.
Qed.

(** What a successful call of [Depth] was given by the server. *)
Lemma Depth_inv (L : GoLib) (api : KrakenPublic) (pair : string) (count : Z)
  (w w' : World) (book : OrderBook) :
  Depth L api pair count w = (Returned (Some book, None), w') →
  ∃ (resp : Response) (body : bytes) (members : list (string * document))
    (kr : string) (result : list (string * document)) (sentbook : document),
    client (public_KrakenClient api) (sent w)
      (new_request (public_url "Depth") (Depth_values pair count) ∅)
    = inl resp
    ∧ resp_Body resp = inl body
    ∧ json_parse L body = inl (DObject members)
    ∧ (kr, DObject result) ∈ members
    ∧ equalFold "result" kr = true
    ∧ (pair, sentbook) ∈ result
    ∧ unmarshal_OrderBook L sentbook = inl book.
Proof.
  unfold Depth. cbn zeta. unfold bind.
  rewrite queryPublic_run, doRequest_run.
  destruct (http_NewRequest_error L "POST" _); [discriminate|]. cbn zeta.
  destruct (doRequest_reply L _ _) as [[v [e|]] dr] eqn:Hreply; [discriminate|].
  apply doRequest_reply_ok in Hreply
    as (resp & body & jsonData & Hdo & Hbody & _ & Hjson & _ & _).
  destruct (deref_DepthResponse dr !! pair) as [book'|] eqn:Hbook;
    [|discriminate].
  intros [= -> <-].
  exists resp, body. unfold json_Unmarshal in Hjson.
  destruct (json_parse L body) as [doc|]; [|discriminate].
  unfold Unmarshal_KrakenResponse in Hjson.
  destruct doc as [| | | | |members]; try discriminate.
  { injection Hjson as _ <-. cbn in Hbook. by rewrite lookup_empty in Hbook. }
  destruct (Unmarshal_KrakenResponse_books _ _ _ _ _ _ Hjson Hbook)
    as [Hold | (kr & result & sb & ? & ? & ? & ?)].
  { cbn in Hold. by rewrite lookup_empty in Hold. }
  by exists members, kr, result, sb.
Qed.

(** C8.  An order book that [Depth] returns holds exactly the ask and bid
    levels of a book that the server sent for the pair, in an object under
    a key that names the result: the levels of each side, as its last member
    for that side gives them, decoded one by one in the order sent, as many
    levels as were sent, whatever [count] was requested. *)
Theorem Depth_verbatim (L : GoLib) (api : KrakenPublic) (pair : string)
  (count : Z) (w w' : World) (book : OrderBook) :
  Depth L api pair count w = (Returned (Some book, None), w') →
  ∃ (resp : Response) (body : bytes) (members : list (string * document))
    (kr : string) (result : list (string * document)) (sentbook : document),
    client (public_KrakenClient api) (sent w)
      (new_request (public_url "Depth") (Depth_values pair count) ∅)
    = inl resp
    ∧ resp_Body resp = inl body
    ∧ json_parse L body = inl (DObject members)
    ∧ (kr, DObject result) ∈ members
    ∧ equalFold "result" kr = true
    ∧ (pair, sentbook) ∈ result
    ∧ Forall2 (fun lv item => unmarshal_OrderBookItem L lv = inl item)
        (levels_sent "asks" sentbook) (Asks book)
    ∧ Forall2 (fun lv item => unmarshal_OrderBookItem L lv = inl item)
        (levels_sent "bids" sentbook) (Bids book)
    ∧ length (Asks book) = length (levels_sent "asks" sentbook)
    ∧ length (Bids book) = length (levels_sent "bids" sentbook).
Proof.
  intros H.
  apply Depth_inv in H
    as (resp & body & members & kr & result & sentbook & Hdo & Hbody & Hparse
        & Hres & Hkr & Hpair & Hdec).
  apply unmarshal_OrderBook_levels in Hdec as [Hasks Hbids].
  exists resp, body, members, kr, result, sentbook.
  repeat (split; [done|]).
  split; symmetry; by eapply Forall2_length.
Qed.

(** Ten levels requested, fifteen sent, under keys written [Result],
    [Asks] and [BIDS]: fifteen returned. *)
Lemma Depth_verbatim_witness :
  ∃ (book : OrderBook) (w' : World),
    Depth Ref.lib (Ref.public (Ref.json_response (Ref.depth_body_cased 15)))
      "XETHZEUR" 10 Ref.world0
    = (Returned (Some book, None), w')
    ∧ length (Asks book) = 15%nat
    ∧ length (Bids book) = 1%nat.
Proof.
  destruct (Depth Ref.lib
              (Ref.public (Ref.json_response (Ref.depth_body_cased 15)))
              "XETHZEUR" 10 Ref.world0) as [[[[book|] [e|]]|msg] w'] eqn:Hrun;
    try (vm_compute in Hrun; discriminate Hrun).
  exists book, w'. split; [reflexivity|].
  destruct (Depth_verbatim _ _ _ _ _ _ _ Hrun)
    as (resp & body & members & kr & result & sentbook & Hdo & Hbody & Hparse
        & Hres & _ & Hpair & _ & _ & Hasks & Hbids).
  rewrite Hasks, Hbids. injection Hdo as <-. injection Hbody as <-.
  vm_compute in Hparse. injection Hparse as <-.
  apply elem_of_cons in Hres as [[=] | Hres].
  apply elem_of_cons in Hres as [[= _ ->] | Hres];
    [|apply elem_of_nil in Hres; destruct Hres].
  apply elem_of_cons in Hpair as [[= ->] | Hpair];
    [|apply elem_of_nil in Hpair; destruct Hpair].
  split; vm_compute; reflexivity.
Defined.
(** * Further properties *)

(** ** krakenclient.go *)

(** The header of a request, with the keys as written: the user agent
    comes first under its key, and every other header is there once. *)
Lemma request_header_spec (headers : gmap string string) :
  (∃ rest, request_header headers !! "User-Agent" = Some (APIUserAgent :: rest))
  ∧ ∀ k, k ≠ "User-Agent" →
         request_header headers !! k = (fun v => [v]) <$> headers !! k.
Proof.
  unfold request_header.
  apply (map_fold_weak_ind
           (fun (r : Values) (m : gmap string string) =>
              (∃ rest, r !! "User-Agent" = Some (APIUserAgent :: rest))
              ∧ ∀ k, k ≠ "User-Agent" → r !! k = (fun v => [v]) <$> m !! k)).
  - split; [by exists []|]. intros k Hk. unfold Values_Add.
    rewrite lookup_insert_ne by done. by rewrite !lookup_empty.
  - intros i x m r Hi [[rest Hua] Hother]. unfold Values_Add. split.
    + destruct (decide (i = "User-Agent")) as [->|Hne].
      * rewrite lookup_insert_eq, Hua. cbn. eauto.
      * rewrite lookup_insert_ne by done. eauto.
    + intros k Hk. destruct (decide (i = k)) as [->|Hne].
      * rewrite !lookup_insert_eq, (Hother k Hk), Hi. reflexivity.
      * rewrite !lookup_insert_ne by done. by apply Hother.
Qed.

(** X1.  Whatever headers the caller passes, also one named User-Agent,
    the value [Get] reads under User-Agent in the request is the fixed user
    agent of the package: a caller cannot replace it. *)
Theorem request_header_user_agent (headers : gmap string string) :
  Values_Get (request_header headers) "User-Agent" = "Kraken-Go Agent".
Proof.
  destruct (request_header_spec headers) as [[rest Hua] _].
  unfold Values_Get. by rewrite Hua.
Qed.

(** X2.  When the request can be created, [doRequest] hands exactly one
    request to the transport: a POST to [reqURL] whose body is the encoded
    values.  When it cannot be created, nothing is handed to the transport,
    the error is #1 with the text of the failure, and the target is
    untouched. *)
Theorem doRequest_single_request (L : GoLib) (api : KrakenClient)
  (reqURL : string) (values : Values) (headers : gmap string string)
  (typ : option target) (w : World) :
  match http_NewRequest_error L "POST" reqURL with
  | None =>
      ∃ req,
        sent (snd (doRequest L api reqURL values headers typ w))
        = sent w ++ [req]
        ∧ req_Method req = "POST" ∧ req_URL req = reqURL
        ∧ req_Body req = Values_Encode values
  | Some e =>
      doRequest L api reqURL values headers typ w
      = (Returned
           (nil_iface,
            Some (errorString
                    ("Could not execute request! #1 (" +:+ e +:+ ")")),
            typ), w)
  end.
Proof.
  rewrite doRequest_run.
  destruct (http_NewRequest_error L "POST" reqURL) as [e|]; [reflexivity|].
  by exists (new_request reqURL values headers).
Qed.

Lemma doRequest_reply_error (L : GoLib) (typ : option target)
  (r : Response + string) (v : iface) (e : error) (t : option target) :
  doRequest_reply L typ r = (v, Some e, t) →
  v = nil_iface
  ∧ ∃ msg, e = errorString ("Could not execute request" +:+ msg).
Proof.
  unfold doRequest_reply.
  destruct r as [resp|err]; [|intros [= <- <- _]; split; [done|eauto]].
  destruct (resp_Body resp) as [body|err];
    [|intros [= <- <- _]; split; [done|eauto]].
  destruct (mime_ParseMediaType L _) as [mimeType [err|]];
    [intros [= <- <- _]; split; [done|eauto]|].
  destruct (negb _); [intros [= <- <- _]; split; [done|eauto]|].
  destruct (json_Unmarshal L body typ) as [[jsonData typ']|err];
    [|intros [= <- <- _]; split; [done|eauto]].
  destruct (0 <? length (Error jsonData))%nat; [|discriminate].
  intros [= <- <- _]. split; [done|eauto].
Qed.

(** X3.  Whenever [doRequest] returns an error, the interface it returns
    with it is nil, and the text of the error starts with "Could not execute
    request": a result and an error never come together. *)
Theorem doRequest_error_nil_result (L : GoLib) (api : KrakenClient)
  (reqURL : string) (values : Values) (headers : gmap string string)
  (typ : option target) (w w' : World) (v : iface) (e : error)
  (t : option target) :
  doRequest L api reqURL values headers typ w = (Returned (v, Some e, t), w') →
  v = nil_iface
  ∧ ∃ msg, e = errorString ("Could not execute request" +:+ msg).
Proof.
  rewrite doRequest_run.
  destruct (http_NewRequest_error L "POST" reqURL) as [e1|].
  - intros [= <- <- _ _]. split; [done|eauto].
  - cbn zeta. intros [= H _]. by eapply doRequest_reply_error.
Qed.

Lemma doRequest_error_nil_result_witness :
  ∃ msg : string,
    fst (doRequest Ref.lib (Ref.http Ref.html_response) (public_url "Time")
           ∅ ∅ (Some (StringMap ∅)) Ref.world0)
    = Returned (nil_iface,
                Some (errorString ("Could not execute request" +:+ msg)),
                Some (StringMap ∅)).
Proof.
  destruct (doRequest Ref.lib (Ref.http Ref.html_response) (public_url "Time")
              ∅ ∅ (Some (StringMap ∅)) Ref.world0)
    as [[[[v [e|]] t]|m] w'] eqn:Hrun;
    try (vm_compute in Hrun; discriminate Hrun).
  destruct (doRequest_error_nil_result _ _ _ _ _ _ _ _ _ _ _ Hrun)
    as (-> & msg & ->).
  exists msg. vm_compute in Hrun. injection Hrun as _ <- _. reflexivity.
Defined.

(** X4.  When the transport fails, or the body of its response cannot be
    read, [doRequest] returns error #2, respectively #3, with the text of the
    failure; the request counts as sent, nothing is decoded and the target is
    untouched. *)
Theorem doRequest_transport_failure (L : GoLib) (api : KrakenClient)
  (reqURL : string) (values : Values) (headers : gmap string string)
  (typ : option target) (w : World) (err : string) :
  http_NewRequest_error L "POST" reqURL = None →
  let req := new_request reqURL values headers in
  (client api (sent w) req = inr err →
   doRequest L api reqURL values headers typ w
   = (Returned (nil_iface,
                Some (errorString
                        ("Could not execute request! #2 (" +:+ err +:+ ")")),
                typ), sending w req))
  ∧ (∀ resp, client api (sent w) req = inl resp → resp_Body resp = inr err →
     doRequest L api reqURL values headers typ w
     = (Returned (nil_iface,
                  Some (errorString
                          ("Could not execute request! #3 (" +:+ err +:+ ")")),
                  typ), sending w req)).
Proof.
  intros Hreq req. split.
  - intros Hdo. rewrite doRequest_run, Hreq. cbn zeta. fold req.
    by rewrite Hdo.
  - intros resp Hdo Hbody. rewrite doRequest_run, Hreq. cbn zeta. fold req.
    rewrite Hdo. unfold doRequest_reply. by rewrite Hbody.
Qed.

Lemma doRequest_transport_failure_witness :
  doRequest Ref.lib {| client := Cases.refused |} (public_url "Time") ∅ ∅
    None Ref.world0
  = (Returned
       (nil_iface,
        Some (errorString
                "Could not execute request! #2 (dial tcp: connection refused)"),
        None),
     sending Ref.world0 (new_request (public_url "Time") ∅ ∅)).
Proof.
  exact (proj1 (doRequest_transport_failure Ref.lib
                  {| client := Cases.refused |} (public_url "Time") ∅ ∅ None
                  Ref.world0 "dial tcp: connection refused" eq_refl)
           eq_refl).
Defined.

(** What [doRequest] returns when the server answers with a JSON
    document. *)
Lemma doRequest_answers (L : GoLib) (api : KrakenClient) (reqURL : string)
  (values : Values) (headers : gmap string string) (typ : option target)
  (w : World) (doc : document) :
  answers L api w (new_request reqURL values headers) doc →
  doRequest L api reqURL values headers typ w
  = (Returned
       match Unmarshal_KrakenResponse L doc typ with
       | inr e =>
           (nil_iface,
            Some (errorString
                    ("Could not execute request! #6 (" +:+ e +:+ ")")),
            typ)
       | inl (jsonData, typ') =>
           if (0 <? length (Error jsonData))%nat then
             (nil_iface,
              Some (errorString
                      ("Could not execute request! #7 ("
                         +:+ fmt_strings (Error jsonData) +:+ ")")),
              typ')
           else (Result jsonData, None, typ')
       end,
     sending w (new_request reqURL values headers)).
Proof.
  intros (Hreq & resp & body & Hdo & Hbody & Hmime & Hparse).
  cbn [req_URL new_request] in Hreq.
  rewrite doRequest_run, Hreq. cbn zeta. rewrite Hdo.
  unfold doRequest_reply. rewrite Hbody. unfold is_json_response in Hmime.
  rewrite Hmime.
  change (String.eqb "application/json" "application/json") with true.
  cbn [negb]. unfold json_Unmarshal. by rewrite Hparse.
Qed.

(** ** publicapi.go and privateapi.go: the requests *)

(** X5.  A request that [queryPublic] adds to the requests sent goes to
    https://api.kraken.com/0/public/<method>, carries the encoded values as
    its body, and has the user agent as its only header: a public call never
    carries an API key or a signature. *)
Theorem queryPublic_request (L : GoLib) (api : KrakenPublic) (method : string)
  (values : Values) (typ : option target) (w : World) (req : Request) :
  req ∈ sent (snd (queryPublic L api method values typ w)) →
  req ∈ sent w
  ∨ (req_Method req = "POST"
     ∧ req_URL req = "https://api.kraken.com/0/public/" +:+ method
     ∧ req_Body req = Values_Encode values
     ∧ req_Header req = {[ "User-Agent" := ["Kraken-Go Agent"] ]}).
Proof.
  rewrite queryPublic_run, doRequest_run.
  destruct (http_NewRequest_error L "POST" _); [by left|].
  cbn [snd sending sent]. intros Hin.
  apply elem_of_app in Hin as [Hin|Hin]; [by left|].
  apply list_elem_of_singleton in Hin as ->. right.
  split; [reflexivity|]. split; [reflexivity|]. split; [reflexivity|].
  unfold new_request, request_header. cbn [req_Header].
  by rewrite map_fold_empty.
Qed.

Lemma queryPublic_request_witness :
  req_URL (public_request "Time" ∅) = "https://api.kraken.com/0/public/Time"
  ∧ req_Header (public_request "Time" ∅)
    = {[ "User-Agent" := ["Kraken-Go Agent"] ]}.
Proof.
  destruct (queryPublic_request Ref.lib
              (Ref.public (Ref.json_response (Ref.envelope "{}"))) "Time" ∅
              None Ref.world0 (public_request "Time" ∅))
    as [Hin | (_ & Hurl & _ & Hhdr)].
  - vm_compute. apply list_elem_of_here.
  - vm_compute in Hin. by apply elem_of_nil in Hin.
  - by split.
Defined.

(** X6.  When the request can be created, [queryPrivate] sends exactly one
    request, to https://api.kraken.com/0/private/<method>.  Its body is the
    encoding of the values with the nonce set to the decimal clock reading
    (replacing any nonce of the caller), the value [Get] reads under API-Key is the
    key, and the one under API-Sign is the signature over exactly the body
    that is sent. *)
Theorem queryPrivate_signs_sent_body (L : GoLib) (api : KrakenPrivate)
  (method : string) (values : Values) (typ : option target) (w : World) :
  http_NewRequest_error L "POST"
    ("https://api.kraken.com/0/private/" +:+ method) = None →
  ∃ req : Request,
    snd (queryPrivate L api method values typ w) = sending w req
    ∧ req_URL req = "https://api.kraken.com/0/private/" +:+ method
    ∧ req_Body req = Values_Encode (<["nonce" := [pretty (now w)]]> values)
    ∧ contains (req_Body req) ("nonce=" +:+ QueryEscape (pretty (now w)))
    ∧ Values_Get (req_Header req) "API-Key" = key api
    ∧ Values_Get (req_Header req) "API-Sign"
      = sign_spec L ("/0/private/" +:+ method) (req_Body req)
          (pretty (now w)) (fst (base64_DecodeString L (secret api))).
Proof.
  intros Hreq. rewrite queryPrivate_run. cbn zeta.
  rewrite doRequest_run.
  change (APIURL +:+ private_path method)
    with ("https://api.kraken.com/0/private/" +:+ method).
  rewrite Hreq. cbn zeta. eexists. split; [reflexivity|].
  split; [reflexivity|]. split; [reflexivity|]. split; [|split].
  - cbn [req_Body new_request].
    change ("nonce=" +:+ QueryEscape (pretty (now w)))
      with (QueryEscape "nonce" +:+ "=" +:+ QueryEscape (pretty (now w))).
    eapply Values_Encode_contains;
      [apply lookup_insert_eq | apply list_elem_of_here].
  - cbn [req_Header new_request]. unfold Values_Get.
    rewrite (proj2 (request_header_spec _)) by discriminate.
    rewrite lookup_insert_ne by discriminate.
    by rewrite lookup_singleton_eq.
  - cbn [req_Header req_Body new_request]. unfold Values_Get.
    rewrite (proj2 (request_header_spec _)) by discriminate.
    rewrite lookup_insert_eq. cbn [fmap option_fmap option_map].
    unfold createSignature, sign_spec, getSha256, getHMacSha512.
    rewrite bytes_of_string_app, Values_Get_Set. reflexivity.
Qed.

Lemma queryPrivate_signs_sent_body_witness :
  ∃ req : Request,
    snd (queryPrivate Ref.lib
           (Ref.private "c2VjcmV0" (Ref.json_response Ref.balance_body))
           "Balance" {[ "nonce" := ["1"] ]} None Ref.world0)
    = sending Ref.world0 req
    ∧ req_Body req = "nonce=1616492376594".
Proof.
  destruct (queryPrivate_signs_sent_body Ref.lib
              (Ref.private "c2VjcmV0" (Ref.json_response Ref.balance_body))
              "Balance" {[ "nonce" := ["1"] ]} None Ref.world0 eq_refl)
    as (req & Hsent & _ & Hbody & _).
  exists req. split; [exact Hsent|]. rewrite Hbody. vm_compute. reflexivity.
Defined.

(** ** publicapi.go: [OHLC] and [Trades], further *)

(** The world after the call of a public method whose request can be
    created: one more request, whatever the method makes of the reply. *)
Lemma queryPublic_sent (L : GoLib) (api : KrakenPublic) (method : string)
  (values : Values) (typ : option target) (w : World) :
  http_NewRequest_error L "POST" (public_url method) = None →
  ∃ r, queryPublic L api method values typ w
       = (Returned r, sending w (public_request method values)).
Proof.
  intros Hreq. rewrite queryPublic_run, doRequest_run, Hreq. cbn zeta. eauto.
Qed.

Lemma OHLC_sent (L : GoLib) (api : KrakenPublic) (pair interval : string)
  (since : Z) (w : World) (urlValue : Values) :
  OHLC_urlValue pair interval since = inl urlValue →
  http_NewRequest_error L "POST" (public_url "OHLC") = None →
  snd (OHLC L api pair interval since w)
  = sending w (public_request "OHLC" urlValue).
Proof.
  intros Hurl Hreq. unfold OHLC. rewrite Hurl.
  destruct (queryPublic_sent L api "OHLC" urlValue None w Hreq) as [r Hq].
  rewrite (bind_run _ _ _ _ _ Hq).
  by destruct r as [[v [e|]] t].
Qed.

(** The loop of [OHLC] over candles that [NewOHLC] accepts: they are
    appended in order, and the loop goes on with what follows. *)
Lemma OHLC_loop_accepts (L : GoLib) (candles : list (list json))
  (cds : list Candle) (rest : list json) (acc : list Candle) :
  Forall2 (fun c cd => NewOHLC L c = inl cd) candles cds →
  OHLC_loop L ((JArray <$> candles) ++ rest) acc
  = OHLC_loop L rest (acc ++ cds).
Proof.
  intros Hall. revert acc.
  induction Hall as [|c cd candles cds Hc _ IH]; intros acc.
  - by rewrite app_nil_r.
  - cbn. rewrite Hc, IH. by rewrite <- app_assoc.
Qed.

(** X7.  When a query of [OHLC] succeeds but the result is no JSON object,
    or holds no array under the pair, or lists something that is no array
    behind candles that were accepted, or holds no number under "last",
    [OHLC] panics: it returns neither a response nor an error. *)
Theorem OHLC_malformed_response_panics (L : GoLib) (api : KrakenPublic)
  (pair interval : string) (since : Z) (w w' : World) (urlValue : Values)
  (resp : iface) (t : option target) :
  OHLC_urlValue pair interval since = inl urlValue →
  queryPublic L api "OHLC" urlValue None w = (Returned (resp, None, t), w') →
  ((∀ m, resp ≠ Generic (JObject m))
   ∨ (∃ m, resp = Generic (JObject m) ∧ ∀ l, m !! pair ≠ Some (JArray l))
   ∨ (∃ m candles cds x rest,
        resp = Generic (JObject m)
        ∧ m !! pair = Some (JArray ((JArray <$> candles) ++ x :: rest))
        ∧ Forall2 (fun c cd => NewOHLC L c = inl cd) candles cds
        ∧ ∀ l, x ≠ JArray l)
   ∨ (∃ m candles cds,
        resp = Generic (JObject m)
        ∧ m !! pair = Some (JArray (JArray <$> candles))
        ∧ Forall2 (fun c cd => NewOHLC L c = inl cd) candles cds
        ∧ ∀ f, m !! "last" ≠ Some (JNumber f))) →
  ∃ msg, OHLC L api pair interval since w = (Panicked msg, w').
Proof.
  intros Hurl Hq Hbad. unfold OHLC. rewrite Hurl, (bind_run _ _ _ _ _ Hq).
  unfold liftO.
  destruct Hbad as [Hno | [(m & -> & Hno) | [(m & candles & cds & x & rest
    & -> & Hpair & Hall & Hx) | (m & candles & cds & -> & Hpair & Hall & Hno)]]].
  - destruct resp as [[| | | | |m]|]; cbn; eauto. by destruct (Hno m).
  - cbn [assert_map_iface assert_map bindO]. unfold map_index.
    destruct (m !! pair) as [[| | | |l|]|] eqn:Hp; cbn; eauto.
    by destruct (Hno l).
  - cbn [assert_map_iface assert_map bindO]. unfold map_index.
    rewrite Hpair. cbn [default from_option id assert_slice bindO].
    rewrite (OHLC_loop_accepts L candles cds (x :: rest) [] Hall).
    destruct x as [| | | |l|]; cbn; eauto. by destruct (Hx l).
  - cbn [assert_map_iface assert_map bindO]. unfold map_index.
    rewrite Hpair. cbn [default from_option id assert_slice bindO].
    rewrite <- (app_nil_r (JArray <$> candles)).
    rewrite (OHLC_loop_accepts L candles cds [] [] Hall).
    cbn [OHLC_loop bindO].
    destruct (m !! "last") as [[| |f| | |]|] eqn:Hl; cbn; eauto.
    by destruct (Hno f).
Qed.

Lemma OHLC_malformed_response_panics_witness :
  ∃ (msg : string) (w' : World),
    OHLC Ref.lib (Ref.public (Ref.json_response (Ref.envelope "{}")))
      "XXBTZEUR" "1" 0 Ref.world0
    = (Panicked msg, w').
Proof.
  cut (∃ (w' : World) (msg : string),
         OHLC Ref.lib (Ref.public (Ref.json_response (Ref.envelope "{}")))
           "XXBTZEUR" "1" 0 Ref.world0
         = (Panicked msg, w')).
  { intros (w' & msg & H). by exists msg, w'. }
  eexists.
  eapply OHLC_malformed_response_panics with (resp := Generic (JObject ∅))
                                             (t := None).
  - reflexivity.
  - vm_compute. reflexivity.
  - right. left. exists ∅. split; [reflexivity|]. intros l.
    by rewrite lookup_empty.
Defined.

(** X8.  When the server sends for the pair a list of candle arrays that
    are all accepted, and a number under "last", [OHLC] returns the pair, the
    candles in the order sent, none dropped, and the last identifier
    truncated to an integer. *)
Theorem OHLC_all_candles (L : GoLib) (api : KrakenPublic)
  (pair interval : string) (since : Z) (w w' : World) (urlValue : Values)
  (m : gmap string json) (t : option target) (candles : list (list json))
  (cds : list Candle) (last : float64) :
  OHLC_urlValue pair interval since = inl urlValue →
  queryPublic L api "OHLC" urlValue None w
  = (Returned (Generic (JObject m), None, t), w') →
  m !! pair = Some (JArray (JArray <$> candles)) →
  Forall2 (fun c cd => NewOHLC L c = inl cd) candles cds →
  m !! "last" = Some (JNumber last) →
  OHLC L api pair interval since w
  = (Returned (Some {| OHLCResponse_Pair := pair; OHLCResponse_OHLC := cds;
                       OHLCResponse_Last := int64_of_float64 last |}, None),
     w')
  ∧ length cds = length candles.
Proof.
  intros Hurl Hq Hpair Hall Hlast.
  split; [|symmetry; by eapply Forall2_length].
  unfold OHLC. rewrite Hurl, (bind_run _ _ _ _ _ Hq). unfold liftO.
  cbn [assert_map_iface assert_map bindO]. unfold map_index.
  rewrite Hpair, Hlast. cbn [default from_option id assert_slice bindO].
  rewrite <- (app_nil_r (JArray <$> candles)).
  rewrite (OHLC_loop_accepts L candles cds [] [] Hall). reflexivity.
Qed.

Lemma OHLC_all_candles_witness :
  ∃ (cds : list Candle) (w' : World),
    OHLC Ref.lib (Ref.public (Ref.json_response Cases.candles_body))
      "XXBTZEUR" "" 0 Ref.world0
    = (Returned (Some {| OHLCResponse_Pair := "XXBTZEUR";
                         OHLCResponse_OHLC := cds;
                         OHLCResponse_Last := 1600000060 |}, None), w')
    ∧ length cds = 2%nat.
Proof.
  eexists _, _.
  eapply OHLC_all_candles
    with (m := {[ "XXBTZEUR" :=
                    JArray (JArray <$> [Ref.good_candle; Cases.second_candle]);
                  "last" := JNumber 1600000060 ]})
         (t := None) (candles := [Ref.good_candle; Cases.second_candle])
         (last := 1600000060%float).
  - reflexivity.
  - vm_compute. reflexivity.
  - vm_compute. reflexivity.
  - repeat constructor.
  - vm_compute. reflexivity.
Defined.

(** X9.  For each of the nine supported intervals, the request of [OHLC]
    goes to the OHLC method with the body interval=<interval>&pair=<pair>,
    followed by &since=<since> exactly when [since] is positive. *)
Theorem OHLC_request_body (L : GoLib) (api : KrakenPublic)
  (pair interval : string) (since : Z) (w : World) :
  interval ∈ ["1"; "5"; "15"; "30"; "60"; "240"; "1440"; "10080"; "21600"] →
  http_NewRequest_error L "POST" (public_url "OHLC") = None →
  ∃ req : Request,
    sent (snd (OHLC L api pair interval since w)) = sent w ++ [req]
    ∧ req_URL req = "https://api.kraken.com/0/public/OHLC"
    ∧ req_Body req
      = "interval=" +:+ interval +:+ "&pair=" +:+ QueryEscape pair
          +:+ (if 0 <? since then "&since=" +:+ QueryEscape (pretty since)
               else "").
Proof.
  intros Hin Hreq.
  assert (Hu : ∃ u, OHLC_urlValue pair interval since = inl u
                    ∧ Values_Encode u
                      = "interval=" +:+ interval +:+ "&pair="
                          +:+ QueryEscape pair
                          +:+ (if 0 <? since
                               then "&since=" +:+ QueryEscape (pretty since)
                               else "")).
  { unfold OHLC_urlValue.
    repeat (apply elem_of_cons in Hin as [->|Hin]);
      try (by apply elem_of_nil in Hin);
      (destruct (0 <? since); eexists; (split; [reflexivity|]);
       [ change ("&since=" +:+ QueryEscape (pretty since))
           with ("&" +:+ "since=" +:+ QueryEscape (pretty since));
         rewrite <- (append_assoc (QueryEscape pair) "&")
       | rewrite append_nil_r ];
       vm_compute; reflexivity). }
  destruct Hu as (u & Hurl & Henc).
  exists (public_request "OHLC" u).
  rewrite (OHLC_sent L api pair interval since w u Hurl Hreq).
  split; [reflexivity|]. split; [reflexivity|]. exact Henc.
Qed.

Lemma OHLC_request_body_witness :
  ∃ req : Request,
    sent (snd (OHLC Ref.lib (Ref.public (Ref.json_response Cases.candles_body))
                 "XXBTZEUR" "60" 1600000000 Ref.world0))
    = [req]
    ∧ req_Body req = "interval=60&pair=XXBTZEUR&since=1600000000".
Proof.
  destruct (OHLC_request_body Ref.lib
              (Ref.public (Ref.json_response Cases.candles_body))
              "XXBTZEUR" "60" 1600000000 Ref.world0)
    as (req & Hsent & _ & Hbody).
  - apply list_elem_of_further, list_elem_of_further, list_elem_of_further,
      list_elem_of_further, list_elem_of_here.
  - reflexivity.
  - exists req. split; [exact Hsent|]. rewrite Hbody. vm_compute. reflexivity.
Defined.

Lemma Trades_sent (L : GoLib) (api : KrakenPublic) (pair : string) (since : Z)
  (w : World) :
  http_NewRequest_error L "POST" (public_url "Trades") = None →
  snd (Trades L api pair since w)
  = sending w (public_request "Trades" (Trades_values pair since)).
Proof.
  intros Hreq. unfold Trades. cbn zeta.
  destruct (queryPublic_sent L api "Trades" (Trades_values pair since) None w
              Hreq) as [r Hq].
  rewrite (bind_run _ _ _ _ _ Hq).
  by destruct r as [[v [e|]] t].
Qed.

(** X10.  The request of [Trades] goes to the Trades method with the body
    pair=<pair>, followed by &since=<since> exactly when [since] is
    positive: a zero or negative [since] is never sent. *)
Theorem Trades_request_body (L : GoLib) (api : KrakenPublic) (pair : string)
  (since : Z) (w : World) :
  http_NewRequest_error L "POST" (public_url "Trades") = None →
  ∃ req : Request,
    sent (snd (Trades L api pair since w)) = sent w ++ [req]
    ∧ req_URL req = "https://api.kraken.com/0/public/Trades"
    ∧ req_Body req
      = "pair=" +:+ QueryEscape pair
          +:+ (if 0 <? since then "&since=" +:+ QueryEscape (pretty since)
               else "").
Proof.
  intros Hreq. rewrite (Trades_sent L api pair since w Hreq).
  eexists. split; [reflexivity|]. split; [reflexivity|].
  cbn [req_Body public_request new_request]. unfold Trades_values.
  destruct (0 <? since).
  - change ("&since=" +:+ QueryEscape (pretty since))
      with ("&" +:+ "since=" +:+ QueryEscape (pretty since)).
    rewrite <- (append_assoc (QueryEscape pair) "&").
    vm_compute; reflexivity.
  - rewrite append_nil_r. vm_compute; reflexivity.
Qed.

Lemma Trades_request_body_witness :
  ∃ req : Request,
    sent (snd (Trades Ref.lib
                 (Ref.public (Ref.json_response Cases.bad_last_body))
                 "XBT/EUR" (-5) Ref.world0))
    = [req]
    ∧ req_Body req = "pair=XBT%2FEUR".
Proof.
  destruct (Trades_request_body Ref.lib
              (Ref.public (Ref.json_response Cases.bad_last_body))
              "XBT/EUR" (-5) Ref.world0 eq_refl)
    as (req & Hsent & _ & Hbody).
  exists req. split; [exact Hsent|]. rewrite Hbody. vm_compute. reflexivity.
Defined.

(** X11.  When the string under "last" is rejected by [ParseInt], [Trades]
    returns that error and no response, before it looks at the trades of
    the pair. *)
Theorem Trades_last_rejected (L : GoLib) (api : KrakenPublic) (pair : string)
  (since : Z) (w w' : World) (v : gmap string json) (t : option target)
  (lastString : string) (n : Z) (k : NumErrKind) :
  queryPublic L api "Trades" (Trades_values pair since) None w
  = (Returned (Generic (JObject v), None, t), w') →
  v !! "last" = Some (JString lastString) →
  strconv_ParseInt L lastString = (n, Some k) →
  Trades L api pair since w
  = (Returned (None, Some (NumError "ParseInt" lastString k)), w').
Proof.
  intros Hq Hlast Hint. unfold Trades. cbn zeta.
  rewrite (bind_run _ _ _ _ _ Hq). unfold liftO, map_index.
  cbn [assert_map_iface assert_map bindO]. rewrite Hlast.
  cbn [default from_option id assert_string bindO]. by rewrite Hint.
Qed.

Lemma Trades_last_rejected_witness :
  ∃ w' : World,
    Trades Ref.lib (Ref.public (Ref.json_response Cases.bad_last_body))
      "XXBTZEUR" 0 Ref.world0
    = (Returned (None, Some (NumError "ParseInt" "16e17" ErrSyntax)), w').
Proof.
  eexists.
  eapply Trades_last_rejected
    with (v := {[ "XXBTZEUR" := JArray [trade_array Ref.example_trade];
                  "last" := JString "16e17" ]})
         (t := None) (n := 0).
  - vm_compute. reflexivity.
  - vm_compute. reflexivity.
  - vm_compute. reflexivity.
Defined.

Lemma Trades_loop_panics (L : GoLib) (trades : list json) (v : json)
  (acc : list TradeInfo) :
  v ∈ trades → (∀ ti, Trades_tradeInfo L v ≠ Returned ti) →
  ∃ msg, Trades_loop L trades acc = Panicked msg.
Proof.
  intros Hin Hv.
  destruct (Trades_loop L trades acc) as [infos|msg] eqn:Hloop; [|eauto].
  apply Trades_loop_Forall2 in Hloop as (new & _ & Hall).
  apply list_elem_of_lookup in Hin as [i Hi].
  destruct (Forall2_lookup_l _ _ _ _ _ Hall Hi) as (ti & _ & Hti).
  by destruct (Hv ti).
Qed.

(** X12.  A trade array with fewer than six elements anywhere in the list
    of the pair makes [Trades] panic: it returns neither the other trades nor
    an error. *)
Theorem Trades_short_array_panics (L : GoLib) (api : KrakenPublic)
  (pair : string) (since : Z) (w w' : World) (v : gmap string json)
  (t : option target) (lastString : string) (last : Z) (trades : list json)
  (short : list json) :
  queryPublic L api "Trades" (Trades_values pair since) None w
  = (Returned (Generic (JObject v), None, t), w') →
  v !! "last" = Some (JString lastString) →
  strconv_ParseInt L lastString = (last, None) →
  v !! pair = Some (JArray trades) →
  JArray short ∈ trades → (length short < 6)%nat →
  ∃ msg, Trades L api pair since w = (Panicked msg, w').
Proof.
  intros Hq Hlast Hint Hpair Hin Hlen.
  destruct (Trades_loop_panics L trades (JArray short) [] Hin) as [msg Hloop].
  { intros ti Hti.
    apply Trades_tradeInfo_inv in Hti as (r & rest & [= ->] & _).
    cbn in Hlen. lia. }
  exists msg. unfold Trades. cbn zeta.
  rewrite (bind_run _ _ _ _ _ Hq). unfold liftO, map_index.
  cbn [assert_map_iface assert_map bindO]. rewrite Hlast.
  cbn [default from_option id assert_string bindO]. rewrite Hint, Hpair.
  cbn [default from_option id assert_slice bindO]. by rewrite Hloop.
Qed.

Lemma Trades_short_array_panics_witness :
  ∃ (msg : string) (w' : World),
    Trades Ref.lib (Ref.public (Ref.json_response Cases.short_trade_body))
      "XXBTZEUR" 0 Ref.world0
    = (Panicked msg, w').
Proof.
  cut (∃ (w' : World) (msg : string),
         Trades Ref.lib (Ref.public (Ref.json_response Cases.short_trade_body))
           "XXBTZEUR" 0 Ref.world0
         = (Panicked msg, w')).
  { intros (w' & msg & H). by exists msg, w'. }
  eexists.
  eapply Trades_short_array_panics
    with (v := {[ "XXBTZEUR" :=
                    JArray [JArray [JString "4000.0"; JString "0.5";
                                    JNumber 1600000000; JString "b";
                                    JString "m"]];
                  "last" := JString "1600000000000000000" ]})
         (t := None) (last := 1600000000000000000)
         (short := [JString "4000.0"; JString "0.5"; JNumber 1600000000;
                    JString "b"; JString "m"]).
  - vm_compute. reflexivity.
  - vm_compute. reflexivity.
  - vm_compute. reflexivity.
  - vm_compute. reflexivity.
  - apply list_elem_of_here.
  - cbn. lia.
Defined.

(** ** encoding/json: members, further *)

(** No key names both fields of the envelope. *)
Lemma equalFold_error_result (k : string) :
  equalFold "error" k = true → equalFold "result" k = false.
Proof.
  intros He. destruct (equalFold "result" k) eqn:Hr; [|done].
  apply equalFold_head in He as (d & k' & -> & Hd);
    [|intros H; vm_compute in H; discriminate H ..].
  apply equalFold_head in Hr as (d' & k'' & [= <- <-] & Hd');
    [|intros H; vm_compute in H; discriminate H ..].
  rewrite <- Hd in Hd'. vm_compute in Hd'. discriminate Hd'.
Qed.

Lemma list_traverse_error {A B} (f : A → B + string) (l : list A) (x : A)
  (e : string) :
  x ∈ l → f x = inr e → ∃ e', list_traverse f l = inr e'.
Proof.
  intros Hin Hx. induction l as [|a l IH]; [by apply elem_of_nil in Hin|].
  cbn. destruct (f a) as [b|e0] eqn:Ha; [|eauto].
  apply elem_of_cons in Hin as [->|Hin]; [congruence|].
  destruct (IH Hin) as [e' ->]. eauto.
Qed.

(** The members of an object are decoded one list after the other. *)
Lemma decode_members_app {S} (member : S → string → document → S + string)
  (l1 l2 : list (string * document)) (s : S) :
  decode_members member (l1 ++ l2) s
  = match decode_members member l1 s with
    | inl s1 => decode_members member l2 s1
    | inr e => inr e
    end.
Proof.
  revert s. induction l1 as [|[k v] l1 IH]; intros s; [reflexivity|].
  cbn. destruct (member s k v); [apply IH | reflexivity].
Qed.

(** When every member is decoded without error from what the members
    before it leave, so is the object. *)
Lemma decode_members_ok {S} (P : S → Prop)
  (member : S → string → document → S + string)
  (members : list (string * document)) (s : S) :
  P s →
  (∀ s0 k v, (k, v) ∈ members → P s0 → ∃ s1, member s0 k v = inl s1 ∧ P s1) →
  ∃ s', decode_members member members s = inl s' ∧ P s'.
Proof.
  revert s. induction members as [|[k v] members IH]; intros s Hs Hstep.
  - by exists s.
  - cbn. destruct (Hstep s k v (list_elem_of_here _ _) Hs) as (s1 & -> & Hs1).
    apply IH; [done|]. intros s0 k0 v0 Hin. apply Hstep.
    by apply list_elem_of_further.
Qed.

(** A member that cannot be decoded, whatever the members before it
    leave, fails the object. *)
Lemma decode_members_fails {S} (P : S → Prop)
  (member : S → string → document → S + string)
  (members : list (string * document)) (s : S) (k : string) (v : document) :
  (k, v) ∈ members →
  P s →
  (∀ s0 k0 v0 s1, (k0, v0) ∈ members → P s0 → member s0 k0 v0 = inl s1 → P s1) →
  (∀ s0, P s0 → ∃ e, member s0 k v = inr e) →
  ∃ e, decode_members member members s = inr e.
Proof.
  intros Hin Hs Hstep Hbad. revert s Hs.
  induction members as [|[k0 v0] members IH]; intros s Hs;
    [by apply elem_of_nil in Hin|].
  cbn. destruct (member s k0 v0) as [s1|e] eqn:Hm; [|eauto].
  apply elem_of_cons in Hin as [[= <- <-] | Hin].
  - destruct (Hbad s Hs) as [e He]. congruence.
  - apply IH; [done| |].
    + intros s0 k1 v1 s2 Hin1. apply Hstep. by apply list_elem_of_further.
    + apply (Hstep s k0 v0); [apply list_elem_of_here | done | done].
Qed.

(** ** publicapi.go: [Depth], further *)

Lemma Depth_answers (L : GoLib) (api : KrakenPublic) (pair : string)
  (count : Z) (w : World) (doc : document) :
  answers L (public_KrakenClient api) w
    (public_request "Depth" (Depth_values pair count)) doc →
  Depth L api pair count w
  = (Returned
       match Unmarshal_KrakenResponse L doc (Some (DepthResponse ∅)) with
       | inr e =>
           (None,
            Some (errorString
                    ("Could not execute request! #6 (" +:+ e +:+ ")")))
       | inl (jsonData, dr) =>
           if (0 <? length (Error jsonData))%nat then
             (None,
              Some (errorString
                      ("Could not execute request! #7 ("
                         +:+ fmt_strings (Error jsonData) +:+ ")")))
           else
             match deref_DepthResponse dr !! pair with
             | Some book => (Some book, None)
             | None => (None, Some (errorString "invalid response"))
             end
       end,
     sending w (public_request "Depth" (Depth_values pair count))).
Proof.
  intros Hans. unfold Depth. cbn zeta. unfold bind.
  rewrite queryPublic_run, (doRequest_answers _ _ _ _ _ _ _ _ Hans).
  destruct (Unmarshal_KrakenResponse L doc _) as [[jsonData dr]|e];
    [|reflexivity].
  destruct (0 <? length (Error jsonData))%nat; [reflexivity|].
  by destruct (deref_DepthResponse dr !! pair).
Qed.

(** A member that names the error sequence and holds none leaves the
    envelope as it is, without errors. *)
Lemma KrakenResponse_member_no_error (L : GoLib)
  (s : KrakenResponse * option target) (k : string) (v : document) :
  equalFold "error" k = true → v = DArray [] ∨ v = DNull →
  KrakenResponse_member L s k v
  = inl ({| Error := []; Result := Result s.1 |}, s.2).
Proof.
  intros Hk Hv. unfold KrakenResponse_member. rewrite Hk.
  by destruct Hv as [-> | ->].
Qed.

(** X13.  When the server answers [Depth] with a document in which every
    member that names the error sequence holds none and every member that
    names the result is null or an object of order books that decode, none
    of them under the requested pair, [Depth] returns the error "invalid
    response" and no book; so it does when no member names the result. *)
Theorem Depth_invalid_response (L : GoLib) (api : KrakenPublic)
  (pair : string) (count : Z) (w : World)
  (members : list (string * document)) :
  answers L (public_KrakenClient api) w
    (public_request "Depth" (Depth_values pair count)) (DObject members) →
  (∀ k v, (k, v) ∈ members → equalFold "error" k = true →
          v = DArray [] ∨ v = DNull) →
  (∀ k v, (k, v) ∈ members → equalFold "result" k = true →
          v = DNull
          ∨ ∃ result,
              v = DObject result
              ∧ ∀ k' b, (k', b) ∈ result →
                        k' ≠ pair ∧ ∃ book, unmarshal_OrderBook L b = inl book) →
  Depth L api pair count w
  = (Returned (None, Some (errorString "invalid response")),
     sending w (public_request "Depth" (Depth_values pair count))).
Proof.
  intros Hans Herr Hres. rewrite (Depth_answers _ _ _ _ _ _ Hans).
  unfold Unmarshal_KrakenResponse.
  destruct (decode_members_ok
              (fun s : KrakenResponse * option target =>
                 Error s.1 = []
                 ∧ ∃ m, s.2 = Some (DepthResponse m) ∧ m !! pair = None)
              (KrakenResponse_member L) members
              ({| Error := []; Result := Pointer |}, Some (DepthResponse ∅)))
    as ([jsonData dr] & -> & HE & m & Hdr & Hm).
  { split; [done|]. exists ∅. by rewrite lookup_empty. }
  { intros [jd typ] k v Hin (HE & m & Hty & Hm). cbn [fst snd] in *.
    subst typ.
    destruct (equalFold "error" k) eqn:Hke.
    { rewrite (KrakenResponse_member_no_error _ _ _ _ Hke (Herr k v Hin Hke)).
      eexists. split; [reflexivity|]. split; [done|]. by exists m. }
    unfold KrakenResponse_member. rewrite Hke.
    destruct (equalFold "result" k) eqn:Hkr.
    2:{ eexists. split; [reflexivity|]. split; [done|]. by exists m. }
    cbn [fst snd]. unfold unmarshal_Result.
    destruct (Result jd) as [j|].
    { eexists. split; [reflexivity|]. split; [done|]. by exists m. }
    destruct (Hres k v Hin Hkr) as [-> | (result & -> & Hbooks)].
    { eexists. split; [reflexivity|]. split; [done|]. by exists m. }
    cbn [unmarshal_target unmarshal_DepthResponse].
    destruct (decode_members_ok
                (fun m' : gmap string OrderBook => m' !! pair = None)
                (fun m' k' v' =>
                   match unmarshal_OrderBook L v' with
                   | inl book => inl (<[k' := book]> m')
                   | inr e => inr e
                   end) result m Hm) as (m' & -> & Hm').
    { intros m0 k' b Hin' Hm0. destruct (Hbooks k' b Hin') as (Hne & book & ->).
      eexists. split; [reflexivity|]. by rewrite lookup_insert_ne. }
    eexists. split; [reflexivity|]. split; [done|]. by exists m'. }
  cbn [fst snd] in *. rewrite HE, Hdr. cbn. by rewrite Hm.
Qed.

Lemma Depth_invalid_response_witness :
  ∃ w' : World,
    Depth Ref.lib (Ref.public (Ref.json_response Cases.other_pair_body))
      "XETHZEUR" 10 Ref.world0
    = (Returned (None, Some (errorString "invalid response")), w').
Proof.
  eexists.
  eapply Depth_invalid_response
    with (members :=
            [("error", DArray []);
             ("result",
              DObject [("XXBTZEUR",
                        DObject [("asks", DArray []); ("bids", DArray [])])])]).
  - split; [reflexivity|]. eexists _, _.
    split; [reflexivity|]. split; [reflexivity|].
    split; vm_compute; reflexivity.
  - intros k v Hin Hk.
    apply elem_of_cons in Hin as [[= -> ->] | Hin]; [by left|].
    apply elem_of_cons in Hin as [[= -> ->] | Hin];
      [vm_compute in Hk; discriminate Hk | by apply elem_of_nil in Hin].
  - intros k v Hin Hk.
    apply elem_of_cons in Hin as [[= -> ->] | Hin];
      [vm_compute in Hk; discriminate Hk|].
    apply elem_of_cons in Hin as [[= -> ->] | Hin];
      [|by apply elem_of_nil in Hin].
    right. eexists. split; [reflexivity|]. intros k' b Hin'.
    apply elem_of_cons in Hin' as [[= -> ->] | Hin'];
      [|by apply elem_of_nil in Hin'].
    split; [discriminate|]. eexists. vm_compute. reflexivity.
Defined.

(** X14.  When a level of a side of an order book in the result cannot be
    decoded, [Depth] returns error #6 and no book, also when the book
    belongs to another pair than the requested one.  The book stands in an
    object under a key that names the result, behind no null result; the
    side stands in the book under a key that names it, in whatever case. *)
Theorem Depth_bad_level_fails (L : GoLib) (api : KrakenPublic)
  (pair : string) (count : Z) (w : World)
  (pre post result book : list (string * document)) (kr k ks side : string)
  (levels : list document) (level : document) (e : string) :
  answers L (public_KrakenClient api) w
    (public_request "Depth" (Depth_values pair count))
    (DObject (pre ++ (kr, DObject result) :: post)) →
  (∀ k' v, (k', v) ∈ pre → equalFold "result" k' = true → v ≠ DNull) →
  equalFold "result" kr = true →
  (k, DObject book) ∈ result →
  side = "asks" ∨ side = "bids" →
  (ks, DArray levels) ∈ book →
  equalFold side ks = true →
  level ∈ levels →
  unmarshal_OrderBookItem L level = inr e →
  ∃ msg,
    Depth L api pair count w
    = (Returned
         (None,
          Some (errorString
                  ("Could not execute request! #6 (" +:+ msg +:+ ")"))),
       sending w (public_request "Depth" (Depth_values pair count))).
Proof.
  intros Hans Hpre Hkr Hk Hside Hks Hfold Hin Hbad.
  rewrite (Depth_answers _ _ _ _ _ _ Hans).
  cut (∃ msg, Unmarshal_KrakenResponse L
                (DObject (pre ++ (kr, DObject result) :: post))
                (Some (DepthResponse ∅)) = inr msg).
  { intros [msg ->]. eauto. }
  unfold Unmarshal_KrakenResponse. rewrite decode_members_app.
  destruct (decode_members (KrakenResponse_member L) pre _)
    as [[jd typ]|e0] eqn:Hdec; [|eauto].
  assert (Hs : Result jd = Pointer ∧ ∃ m, typ = Some (DepthResponse m)).
  { apply (decode_members_inv
             (fun s : KrakenResponse * option target =>
                Result s.1 = Pointer ∧ ∃ m, s.2 = Some (DepthResponse m))
             _ _ _ _ Hdec); [split; [done | by exists ∅]|].
    intros [jd0 typ0] k0 v0 s1 Hin0 [HR (m & Hty)]. cbn [fst snd] in *.
    subst typ0.
    unfold KrakenResponse_member. cbn [fst snd].
    destruct (equalFold "error" k0).
    { destruct (unmarshal_strings _ v0); [|discriminate].
      intros [= <-]. split; [done | by exists m]. }
    destruct (equalFold "result" k0) eqn:Hk0;
      [|intros [= <-]; split; [done | by exists m]].
    unfold unmarshal_Result. rewrite HR.
    pose proof (Hpre k0 v0 Hin0 Hk0) as Hnn.
    destruct (unmarshal_target L v0 (DepthResponse m)) as [t'|] eqn:Ht.
    2:{ destruct v0; [done | discriminate ..]. }
    cbn [unmarshal_target] in Ht.
    destruct (unmarshal_DepthResponse L v0 m) as [m'|]; [|discriminate].
    injection Ht as <-.
    destruct v0; [done | intros [= <-]; split; [done | by exists m'] ..]. }
  destruct Hs as [HR (m & ->)]. cbn [decode_members].
  assert (Hmember : ∃ e1, KrakenResponse_member L (jd, Some (DepthResponse m))
                            kr (DObject result) = inr e1).
  { unfold KrakenResponse_member. cbn [fst snd].
    destruct (equalFold "error" kr); [cbn; eauto|]. rewrite Hkr.
    unfold unmarshal_Result. rewrite HR.
    cbn [unmarshal_target unmarshal_DepthResponse].
    destruct (decode_members_fails (fun _ => True)
                (fun m' k' v' =>
                   match unmarshal_OrderBook L v' with
                   | inl book => inl (<[k' := book]> m')
                   | inr e => inr e
                   end) result m k (DObject book) Hk I) as [e1 ->];
      [done| |eauto].
    intros m0 _. cbn [unmarshal_OrderBook].
    destruct (decode_members_fails (fun _ => True) (OrderBook_member L) book
                {| Asks := []; Bids := [] |} ks (DArray levels) Hks I)
      as [e2 ->]; [done| |eauto].
    intros acc _. unfold OrderBook_member.
    destruct (list_traverse_error _ _ _ _ Hin Hbad) as [e3 He3].
    destruct (equalFold "asks" ks) eqn:Ha.
    { cbn [unmarshal_side]. rewrite He3. eauto. }
    destruct (equalFold "bids" ks) eqn:Hb.
    { cbn [unmarshal_side]. rewrite He3. eauto. }
    destruct Hside as [-> | ->]; congruence. }
  destruct Hmember as [e1 ->]. eauto.
Qed.

Lemma Depth_bad_level_fails_witness :
  ∃ (msg : string) (w' : World),
    Depth Ref.lib (Ref.public (Ref.json_response Cases.bad_level_body))
      "XETHZEUR" 10 Ref.world0
    = (Returned
         (None,
          Some (errorString
                  ("Could not execute request! #6 (" +:+ msg +:+ ")"))),
       w').
Proof.
  destruct (Depth_bad_level_fails Ref.lib
              (Ref.public (Ref.json_response Cases.bad_level_body))
              "XETHZEUR" 10 Ref.world0
              [("error", DArray [])] []
              [("XETHZEUR",
                DObject [("asks",
                          DArray [DArray [DString "200.5"; DString "1.25";
                                          DNumber 1600000000]])]);
               ("XXBTZEUR",
                DObject [("Bids",
                          DArray [DArray [DString "n/a"; DString "1.25";
                                          DNumber 1600000000]])])]
              [("Bids",
                DArray [DArray [DString "n/a"; DString "1.25";
                                DNumber 1600000000]])]
              "result" "XXBTZEUR" "Bids" "bids"
              [DArray [DString "n/a"; DString "1.25"; DNumber 1600000000]]
              (DArray [DString "n/a"; DString "1.25"; DNumber 1600000000])
              (Error_text (ParseFloat_error "n/a" ErrSyntax)))
    as [msg H].
  - split; [reflexivity|]. eexists _, _.
    split; [reflexivity|]. split; [reflexivity|].
    split; vm_compute; reflexivity.
  - intros k' v Hin Hk'.
    apply elem_of_cons in Hin as [[= -> ->] | Hin];
      [discriminate | by apply elem_of_nil in Hin].
  - reflexivity.
  - apply list_elem_of_further, list_elem_of_here.
  - by right.
  - apply list_elem_of_here.
  - reflexivity.
  - apply list_elem_of_here.
  - vm_compute. reflexivity.
  - eauto.
Defined.

(** ** privateapi.go, further *)

(** What [Balance] makes of the envelope of a JSON answer. *)
Lemma Balance_answers (L : GoLib) (api : KrakenPrivate) (w : World)
  (doc : document) :
  let req :=
    private_request L api "Balance" ∅
      (fst (base64_DecodeString L (secret api))) (now w) in
  answers L (private_KrakenClient api) w req doc →
  ∀ (jsonData : KrakenResponse) (typ' : option target),
    Unmarshal_KrakenResponse L doc (Some (StringMap ∅)) = inl (jsonData, typ') →
    Error jsonData = [] →
    Balance L api w
    = (match assert_StringMap (Result jsonData) typ' with
       | Returned m => Returned (Balance_loop L (map_to_list m) ∅)
       | Panicked msg => Panicked msg
       end, sending w req).
Proof.
  intros req Hans jsonData typ' Hdec HE.
  assert (Hq : queryPrivate L api "Balance" ∅ (Some (StringMap ∅)) w
               = (Returned (Result jsonData, None, typ'), sending w req)).
  { rewrite queryPrivate_run. cbn zeta.
    rewrite (doRequest_answers _ _ _ _ _ _ _ _ Hans), Hdec, HE.
    reflexivity. }
  unfold Balance. rewrite (bind_run _ _ _ _ _ Hq). unfold liftO.
  by destruct (assert_StringMap (Result jsonData) typ').
Qed.

(** X15.  When the server answers [Balance] with a document in which every
    member that names the error sequence holds none: if the first member
    that names the result is null, [Balance] panics; if no member names the
    result, it returns an empty set of balances and no error. *)
Theorem Balance_null_or_missing_result (L : GoLib) (api : KrakenPrivate)
  (w : World) (members : list (string * document)) :
  let req :=
    private_request L api "Balance" ∅
      (fst (base64_DecodeString L (secret api))) (now w) in
  answers L (private_KrakenClient api) w req (DObject members) →
  (∀ k v, (k, v) ∈ members → equalFold "error" k = true →
          v = DArray [] ∨ v = DNull) →
  ((∃ pre k post,
      members = pre ++ (k, DNull) :: post
      ∧ equalFold "result" k = true
      ∧ ∀ k' v, (k', v) ∈ pre → equalFold "result" k' = false) →
   ∃ msg, Balance L api w = (Panicked msg, sending w req))
  ∧ ((∀ k v, (k, v) ∈ members → equalFold "result" k = false) →
     Balance L api w = (Returned (Some ∅, None), sending w req)).
Proof.
  intros req Hans Herr.
  assert (Hkeep : ∀ l s,
            (∀ k v, (k, v) ∈ l → equalFold "error" k = true →
                    v = DArray [] ∨ v = DNull) →
            (∀ k v, (k, v) ∈ l → equalFold "result" k = false) →
            Error s.1 = [] →
            decode_members (KrakenResponse_member L) l s = inl s).
  { intros l. induction l as [|[k v] l IH]; intros s He Hr HE; [reflexivity|].
    cbn [decode_members].
    assert (Hm : KrakenResponse_member L s k v = inl s).
    { destruct (equalFold "error" k) eqn:Hk.
      - rewrite (KrakenResponse_member_no_error _ _ _ _ Hk
                   (He k v (list_elem_of_here _ _) Hk)).
        destruct s as [[errs res] typ]. cbn in *. by subst errs.
      - unfold KrakenResponse_member.
        by rewrite Hk, (Hr k v (list_elem_of_here _ _)). }
    rewrite Hm. apply IH; [| |done].
    - intros k0 v0 Hin. apply He. by apply list_elem_of_further.
    - intros k0 v0 Hin. apply (Hr k0 v0). by apply list_elem_of_further. }
  split.
  - intros (pre & k & post & -> & Hk & Hpre).
    destruct (decode_members_ok
                (fun s : KrakenResponse * option target =>
                   Error s.1 = [] ∧ ∃ j, Result s.1 = Generic j)
                (KrakenResponse_member L) post
                ({| Error := []; Result := nil_iface |}, Some (StringMap ∅)))
      as ([jsonData typ'] & Hpost & HE & j & Hj).
    { split; [done | by exists JNull]. }
    { intros [jd typ] k0 v0 Hin (HE & j & Hj). cbn [fst snd] in *.
      destruct (equalFold "error" k0) eqn:Hke.
      { rewrite (KrakenResponse_member_no_error _ _ _ _ Hke).
        - eexists. split; [reflexivity|]. split; [done | by exists j].
        - apply (Herr k0 v0); [|done].
          apply elem_of_app. right. by apply list_elem_of_further. }
      unfold KrakenResponse_member. rewrite Hke.
      destruct (equalFold "result" k0).
      2:{ eexists. split; [reflexivity|]. split; [done | by exists j]. }
      cbn [fst snd]. unfold unmarshal_Result. rewrite Hj.
      eexists. split; [reflexivity|]. split; [done | eauto]. }
    cbn [fst snd] in *.
    assert (Hdec : Unmarshal_KrakenResponse L
                     (DObject (pre ++ (k, DNull) :: post)) (Some (StringMap ∅))
                   = inl (jsonData, typ')).
    { unfold Unmarshal_KrakenResponse. rewrite decode_members_app.
      rewrite Hkeep; [|intros k0 v0 Hin; apply Herr, elem_of_app; by left
                      |done|done].
      cbn [decode_members]. unfold KrakenResponse_member at 1.
      destruct (equalFold "error" k) eqn:Hke.
      { apply equalFold_error_result in Hke. congruence. }
      rewrite Hk. cbn [fst snd unmarshal_Result]. exact Hpost. }
    rewrite (Balance_answers _ _ _ _ Hans _ _ Hdec HE), Hj. cbn. eauto.
  - intros Hnone.
    rewrite (Balance_answers _ _ _ _ Hans
               {| Error := []; Result := Pointer |} (Some (StringMap ∅))).
    + cbn. by rewrite map_to_list_empty.
    + unfold Unmarshal_KrakenResponse. by apply Hkeep.
    + reflexivity.
Qed.

Lemma Balance_null_or_missing_result_witness :
  ∃ (msg : string) (w' : World),
    Balance Ref.lib
      (Ref.private "c2VjcmV0" (Ref.json_response (Ref.envelope "null")))
      Ref.world0
    = (Panicked msg, w').
Proof.
  destruct (Balance_null_or_missing_result Ref.lib
              (Ref.private "c2VjcmV0" (Ref.json_response (Ref.envelope "null")))
              Ref.world0 [("error", DArray []); ("result", DNull)])
    as [Hnull _].
  - split; [reflexivity|]. eexists _, _.
    split; [reflexivity|]. split; [reflexivity|].
    split; vm_compute; reflexivity.
  - intros k v Hin Hk.
    apply elem_of_cons in Hin as [[= -> ->] | Hin]; [by left|].
    apply elem_of_cons in Hin as [[= -> ->] | Hin];
      [by right | by apply elem_of_nil in Hin].
  - destruct Hnull as [msg H]; [|eauto].
    exists [("error", DArray [])], "result", [].
    split; [reflexivity|]. split; [reflexivity|].
    intros k' v Hin.
    apply elem_of_cons in Hin as [[= -> ->] | Hin];
      [reflexivity | by apply elem_of_nil in Hin].
Defined.

(** A balance sent under the key [RESULT] is decoded as the result. *)
Lemma Balance_result_key_case :
  ∃ w' : World,
    Balance Ref.lib
      (Ref.private "c2VjcmV0" (Ref.json_response Cases.cased_balance_body))
      Ref.world0
    = (Returned (Some {[ "ZUSD" := 1.5%float ]}, None), w').
Proof. eexists. vm_compute. reflexivity. Qed.

Lemma lookup_add_arg_ne (args : gmap string string) (name param : string)
  (params : Values) (k : string) :
  k ≠ param → add_arg args name param params !! k = params !! k.
Proof.
  intros Hne. unfold add_arg, Values_Add.
  destruct (args !! name); [|done]. by rewrite lookup_insert_ne.
Qed.

Lemma lookup_add_arg_eq (args : gmap string string) (name param : string)
  (params : Values) :
  params !! param = None →
  add_arg args name param params !! param = (fun v => [v]) <$> args !! name.
Proof.
  intros Hnone. unfold add_arg, Values_Add.
  destruct (args !! name); [|done]. by rewrite lookup_insert_eq, Hnone.
Qed.

(** Looks up a key in a chain of [add_arg]s over literal parameter
    names: skips the steps of other names, and uses the step of the key with
    the key still absent. *)
Ltac lookup_args :=
  repeat first
    [ rewrite lookup_add_arg_ne by discriminate
    | rewrite lookup_add_arg_eq; [reflexivity|] ];
  try reflexivity.

(** X16.  [AddOrder] always sends the pair, the direction as "type", the
    order type and the volume it is given.  Each of its twelve optional
    arguments is sent, once, exactly when [args] holds it, the three close_
    arguments under their bracketed names; every other key of [args] is
    dropped. *)
Theorem AddOrder_params_lookup (pair direction orderType volume : string)
  (args : gmap string string) :
  let params := AddOrder_params pair direction orderType volume args in
  params !! "pair" = Some [pair]
  ∧ params !! "type" = Some [direction]
  ∧ params !! "ordertype" = Some [orderType]
  ∧ params !! "volume" = Some [volume]
  ∧ (∀ name param, (name, param) ∈ AddOrder_optional →
       params !! param = (fun v => [v]) <$> args !! name)
  ∧ (∀ k, k ∉ ["pair"; "type"; "ordertype"; "volume"]
              ++ AddOrder_optional.*2 →
          params !! k = None).
Proof.
  intros params. unfold params, AddOrder_params.
  split; [lookup_args|]. split; [lookup_args|]. split; [lookup_args|].
  split; [lookup_args|]. split.
  - intros name param Hin. unfold AddOrder_optional in Hin.
    repeat (apply elem_of_cons in Hin as [[= -> ->]|Hin]; [lookup_args|]).
    by apply elem_of_nil in Hin.
  - intros k Hk. cbn in Hk.
    repeat (apply not_elem_of_cons in Hk as [? Hk]).
    rewrite !lookup_add_arg_ne by done.
    rewrite !lookup_insert_ne by done. apply lookup_singleton_ne. done.
Qed.

Lemma AddOrder_params_lookup_witness :
  AddOrder_params "XBTUSD" "buy" "limit" "1.25" Cases.order_args
    !! "close[price]" = Some ["38000"]
  ∧ AddOrder_params "XBTUSD" "buy" "limit" "1.25" Cases.order_args
      !! "timeinforce" = None.
Proof.
  destruct (AddOrder_params_lookup "XBTUSD" "buy" "limit" "1.25"
              Cases.order_args) as (_ & _ & _ & _ & Hopt & Hnone).
  split.
  - rewrite (Hopt "close_price" "close[price]"); [reflexivity|].
    unfold AddOrder_optional. do 8 apply list_elem_of_further.
    apply list_elem_of_here.
  - apply Hnone. cbn. intros Hin.
    repeat (apply elem_of_cons in Hin as [Hin|Hin]; [discriminate Hin|]).
    by apply elem_of_nil in Hin.
Defined.

(** X17.  [TradesHistory] sends "start" and "end" exactly when the given
    bounds are positive, as decimal numbers; the entries "start" and "end"
    of [args] are not read.  Of [args] it sends "type", "trades" and "ofs"
    when present, and nothing else. *)
Theorem TradesHistory_params_lookup (start end_ : Z)
  (args : gmap string string) :
  let params := TradesHistory_params start end_ args in
  params !! "start" = (if 0 <? start then Some [pretty start] else None)
  ∧ params !! "end" = (if 0 <? end_ then Some [pretty end_] else None)
  ∧ params !! "type" = (fun v => [v]) <$> args !! "type"
  ∧ params !! "trades" = (fun v => [v]) <$> args !! "trades"
  ∧ params !! "ofs" = (fun v => [v]) <$> args !! "ofs"
  ∧ (∀ k, k ∉ ["start"; "end"; "type"; "trades"; "ofs"] →
          params !! k = None).
Proof.
  intros params. unfold params, TradesHistory_params.
  destruct (0 <? start), (0 <? end_);
    (split; [lookup_args|]); (split; [lookup_args|]); (split; [lookup_args|]);
    (split; [lookup_args|]); (split; [lookup_args|]);
    intros k Hk; repeat (apply not_elem_of_cons in Hk as [? Hk]);
    rewrite !lookup_add_arg_ne by done; unfold Values_Add;
    rewrite ?lookup_insert_ne by done; apply lookup_empty.
Qed.

(** ** One request per call *)

(** The world after a query followed by a continuation that touches
    nothing is the world after the query. *)
Lemma bind_world {A B} (m : M A) (k : A → M B) (w : World) :
  (∀ a w1, snd (k a w1) = w1) → snd (bind m k w) = snd (m w).
Proof.
  intros Hk. unfold bind. destruct (m w) as [[a|msg] w1]; [apply Hk | done].
Qed.

Lemma doRequest_world (L : GoLib) (api : KrakenClient) (reqURL : string)
  (values : Values) (headers : gmap string string) (typ : option target)
  (w : World) :
  let w' := snd (doRequest L api reqURL values headers typ w) in
  ∃ reqs, sent w' = sent w ++ reqs ∧ (length reqs ≤ 1)%nat.
Proof.
  cbn zeta. rewrite doRequest_run.
  destruct (http_NewRequest_error L "POST" reqURL); cbn.
  - exists []. split; [by rewrite app_nil_r | cbn; lia].
  - eexists [_]. split; [reflexivity | cbn; lia].
Qed.

(** X18.  A call of [OHLC], [Trades], [Depth] or [Balance] hands at most
    one request to the transport, whatever the server answers and whether
    the call returns a result, returns an error or panics: it never
    retries. *)
Theorem facades_send_at_most_one (L : GoLib) (pub : KrakenPublic)
  (priv : KrakenPrivate) (pair interval : string) (since count : Z)
  (w : World) :
  let one (w' : World) :=
    ∃ reqs, sent w' = sent w ++ reqs ∧ (length reqs ≤ 1)%nat in
  one (snd (OHLC L pub pair interval since w))
  ∧ one (snd (Trades L pub pair since w))
  ∧ one (snd (Depth L pub pair count w))
  ∧ one (snd (Balance L priv w)).
Proof.
  intros one. unfold one. split; [|split; [|split]].
  - unfold OHLC. destruct (OHLC_urlValue pair interval since) as [u|e].
    + rewrite bind_world; [apply doRequest_world|].
      by intros [[v [e|]] t] w1.
    + cbn. exists []. split; [by rewrite app_nil_r | cbn; lia].
  - unfold Trades. cbn zeta.
    rewrite bind_world; [apply doRequest_world|].
    by intros [[v [e|]] t] w1.
  - unfold Depth. cbn zeta.
    rewrite bind_world; [apply doRequest_world|].
    intros [[v [e|]] t] w1; [done|].
    by destruct (deref_DepthResponse t !! pair).
  - unfold Balance.
    rewrite bind_world; [|by intros [[v [e|]] t] w1].
    rewrite queryPrivate_run. apply doRequest_world.
Qed.
